(** * Restaurant-reservation API: middlewares, validators, services, controllers

    A shallow embedding of the Express/Mongoose application:
    - JavaScript values, truthiness and the string operations the code uses;
    - the response object as the list of responses a handler emits;
    - the three document collections with the Mongoose model calls of the
      services, threaded through a state-and-exception monad;
    - the middlewares ([authMiddleware], [checkRole]), the validator chains,
      the services and the controllers, each following its source function.

    The libraries the application calls are taken as parameters, gathered
    in the class [Libs]: bcrypt, validator.js, the casts and the update
    operators of Mongoose.  Of jsonwebtoken the structure of an HS256 token
    is written out (header, payload, signature, the key an HMAC makes of a
    secret); the encoding of the segments and the hash are parameters. *)

From Stdlib Require Import String Ascii List ZArith Bool Lia.
Import ListNotations.
Open Scope string_scope.
Open Scope Z_scope.

(** ** Errors *)

(** The classes of the errors the application throws or receives.  Only
    [ReferenceError] is tested for ([error instanceof ReferenceError]); the
    others are the [TypeError] of a property read on [undefined] or [null],
    the errors of Mongoose (a failed cast, a failed schema validation, a
    failure of the driver or the server) and those of the other libraries. *)
Inductive ErrorClass : Type :=
| ReferenceError
| TypeError
| CastError
| ValidationError
| MongoError
| LibraryError.

Record JsError : Type := mkError { class : ErrorClass; message : string }.

Definition instanceof_ReferenceError (e : JsError) : bool :=
  match class e with ReferenceError => true | _ => false end.

(** ** JavaScript values *)

Module Js.

(** The values that travel in request bodies, token payloads and response
    bodies.  An object is its list of own properties, in insertion order. *)
#[warnings="-register-all"]
Inductive val : Type :=
| Undefined
| Null
| Bool (b : bool)
| Num (n : Z)
| Str (s : string)
| Date (ms : Z)
| Exn (e : JsError)
| Arr (items : list val)
| Obj (props : list (string * val)).

(** ToBoolean: [!v] is [negb (truthy v)]. *)
Definition truthy (v : val) : bool :=
  match v with
  | Undefined | Null => false
  | Bool b => b
  | Num n => negb (n =? 0)
  | Str s => negb (s =? "")%string
  | Date _ | Exn _ | Arr _ | Obj _ => true
  end.

Fixpoint assoc (k : string) (props : list (string * val)) : val :=
  match props with
  | [] => Undefined
  | (k', v) :: rest => if (k =? k')%string then v else assoc k rest
  end.

(** The own property [k] of [v], [undefined] when [v] has none.  This is
    the property read [v.k] on every value but [undefined] and [null], on
    which JavaScript throws a TypeError: where the code reads a property of
    a value that may be one of the two (a request body no validation has
    seen), the read is [read], which throws.  The code never reads a
    property that lives on a prototype. *)
Definition get (v : val) (k : string) : val :=
  match v with
  | Obj props => assoc k props
  | _ => Undefined
  end.

Definition isObject (v : val) : bool :=
  match v with Obj _ => true | _ => false end.

(** [Array.isArray(v)] *)
Definition isArray (v : val) : bool :=
  match v with Arr _ => true | _ => false end.

(** Strict equality with a string, all that [includes] needs when the
    searched element is a string. *)
Definition is_str (s : string) (v : val) : bool :=
  match v with Str s' => (s =? s')%string | _ => false end.

(** [v.includes(s)] for an array [v] and a string [s]. *)
Definition includes (v : val) (s : string) : bool :=
  match v with
  | Arr items => existsb (is_str s) items
  | _ => false
  end.

(** [s.split(c)] for a one-character separator. *)
Fixpoint split (sep : ascii) (s : string) : list string :=
  match s with
  | EmptyString => [EmptyString]
  | String c rest =>
      if Ascii.eqb c sep then EmptyString :: split sep rest
      else match split sep rest with
           | piece :: pieces => String c piece :: pieces
           | [] => [String c EmptyString]
           end
  end.

(** [s.includes(c)] for a character [c]. *)
Fixpoint contains (c : ascii) (s : string) : bool :=
  match s with
  | EmptyString => false
  | String c' rest => Ascii.eqb c c' || contains c rest
  end.

(** [xs[i]] on an array of strings: [None] is [undefined]. *)
Definition index (xs : list string) (i : nat) : option string := nth_error xs i.

(** Writing [v.k = x] on an object: the property keeps its place when it
    exists and is added last otherwise. *)
Fixpoint assoc_set (k : string) (x : val) (props : list (string * val))
  : list (string * val) :=
  match props with
  | [] => [(k, x)]
  | (k', v) :: rest =>
      if (k =? k')%string then (k, x) :: rest else (k', v) :: assoc_set k x rest
  end.

Definition set (v : val) (k : string) (x : val) : val :=
  match v with
  | Obj props => Obj (assoc_set k x props)
  | _ => v
  end.

(** [a || b] on strings that may be undefined: the first truthy one. *)
Definition or_default (a : option string) (b : string) : string :=
  match a with
  | Some s => if (s =? "")%string then b else s
  | None => b
  end.

End Js.

(** ** Responses *)

(** One call [res.status(code).json(body)] (or [.send()], whose body is
    [Undefined]).  [res.json(body)] without a status leaves the default 200. *)
Record Response : Type := mkResponse { status : Z; body : Js.val }.

Definition message_body (m : string) : Js.val := Js.Obj [("message", Js.Str m)].

(** What a middleware does with a request: it answers, or it calls [next()]
    with the request as it left it ([req.user] is the only field a
    middleware of this application writes). *)
Inductive MwResult : Type :=
| Answer (r : Response)
| Next (user : Js.val).

(** ** models: UserRole *)

Inductive UserRole : Type := ADMIN | USER.

Definition role_name (r : UserRole) : string :=
  match r with ADMIN => "admin" | USER => "user" end.

(** ** middlewares/preAuthorize.middleware.ts *)

Definition no_roles_found : Response :=
  mkResponse 403 (message_body "Access denied. No roles found.").

Definition access_denied : Response :=
  mkResponse 403 (message_body "Access denied.").

(** [checkRole(requiredRole)] applied to a request whose [req.user] is
    [user]. *)
Definition checkRole (requiredRole : UserRole) (user : Js.val) : MwResult :=
  if negb (Js.truthy user)
     || negb (Js.truthy (Js.get user "roles"))
     || negb (Js.isArray (Js.get user "roles"))
  then Answer no_roles_found
  else if negb (Js.includes (Js.get user "roles") (role_name requiredRole))
  then Answer access_denied
  else Next user.

(** ** Documents *)

Module User.
Record doc : Type := mk {
  _id : string;
  name : string;
  email : string;
  (** [select: false]: absent from a query result unless selected *)
  password : option string;
  roles : list string;
  deletedAt : option Z;
  createdAt : Z;
  updatedAt : Z
}.
End User.

Module Restaurant.
Record doc : Type := mk {
  _id : string;
  name : string;
  address : string;
  city : string;
  nit : string;
  phone : string;
  deletedAt : option Z;
  createdAt : Z;
  updatedAt : Z
}.
End Restaurant.

Module Reservation.
Record doc : Type := mk {
  _id : string;
  (** [required] is checked when a reservation is created; an update can
      store null *)
  date : option Z;
  hour : string;
  restaurantId : string;
  userId : string;
  userQuantity : Z;
  status : string;
  deletedAt : option Z;
  createdAt : Z;
  updatedAt : Z
}.
End Reservation.

(** ** The libraries, as parameters *)

(** Every function of a library that the application calls.  Nothing is
    assumed about them here; what the token theorems need of the encoding
    of a token is stated apart, in [JwtLaws]. *)
Class Libs : Type := {
  (** mongoose: cast of a query value to an ObjectId ([None]: CastError) *)
  castObjectId : Js.val -> option string;
  (** mongoose: the [n]-th ObjectId the driver generates *)
  newObjectId : nat -> string;
  (** mongoose: casts of a value to a String, [String] and Date path
      ([None]: CastError) *)
  castString : Js.val -> option string;
  castStringArray : Js.val -> option (list string);
  castDate : Js.val -> option (option Z);
  castNumber : Js.val -> option Z;
  (** mongoose: cast of the condition [v] of a filter [{path: v}] on a String
      path to the set of stored strings it selects ([None]: CastError) *)
  filterString : Js.val -> option (string -> bool);
  (** mongoose and MongoDB: what the update operators ([$set], [$unset],
      [$inc], [$push], ...), the dotted paths or the aggregation pipeline of
      an update document do to a document of each collection ([None]: the
      update throws, on a failed cast or a conflict of paths) *)
  userOperators : Js.val -> option (User.doc -> User.doc);
  restaurantOperators : Js.val -> option (Restaurant.doc -> Restaurant.doc);
  reservationOperators : Js.val -> option (Reservation.doc -> Reservation.doc);
  (** mongoose: the [updatedAt] of a new document whose input carries one,
      from that value and the [createdAt] of the document ([None]:
      CastError) *)
  inputUpdatedAt : Js.val -> Z -> option Z;
  (** jsonwebtoken: the payload segment of a token, base64url of the JSON
      text of the claims, and its decoding ([None]: not the encoding of a
      JSON text); the signature segment, base64url of the HMAC-SHA256 of
      the signed part under a 64-byte key; SHA-256; and the verification of
      a three-segment token whose header is not the one [jwt.sign] writes
      for a string secret *)
  jwt_encode : Js.val -> string;
  jwt_decode : string -> option Js.val;
  hs256 : string -> string -> string;
  sha256 : string -> string;
  jwt_foreign : string -> string -> Z -> option Js.val;
  (** bcrypt: [bcrypt.compare(data, hash)] ([None]: it rejects) *)
  bcrypt_compare : Js.val -> string -> option bool;
  (** validator.js, as express-validator calls it on the string form of a
      field *)
  v_toString : Js.val -> string;
  v_trim : string -> string;
  v_isLength : Z -> option Z -> string -> bool;
  v_matches : string -> string -> bool;
  v_isEmail : string -> bool;
  v_normalizeEmail : string -> Js.val;
  v_isISO8601 : string -> bool;
  v_isInt_gt : Z -> string -> bool;
  v_toInt : string -> Js.val
}.

(** ** jsonwebtoken: HS256 tokens *)

Definition space : ascii := " "%char.

Definition dot : ascii := "."%char.

(** The header segment of every token [jwt.sign] makes with a string
    secret: base64url of the text {"alg":"HS256","typ":"JWT"}. *)
Definition jwt_header : string := "eyJhbGciOiJIUzI1NiIsInR5cCI6IkpXVCJ9".

Fixpoint zeros (n : nat) : string :=
  match n with
  | O => EmptyString
  | Datatypes.S n' => String Ascii.zero (zeros n')
  end.

(** The key HMAC-SHA256 makes of a secret (RFC 2104): a secret of at most
    64 bytes is padded with zero bytes to 64 bytes, a longer one is hashed
    first. *)
Definition hmac_key `{Libs} (secret : string) : string :=
  let key := if (String.length secret <=? 64)%nat then secret else sha256 secret in
  key ++ zeros (64 - String.length key).

(** [jwt.sign(payload, secret, {expiresIn})] at a clock value
    (milliseconds), [expiresIn] in seconds, for a payload without [iat] and
    [exp] and a non-empty secret (on an empty one [jwt.sign] throws; the
    application never passes one): the claims are the payload with the issue
    and expiry times (seconds), the token is header, claims and signature,
    joined by dots. *)
Definition jwt_sign `{Libs} (payload : Js.val) (secret : string) (expiresIn t : Z)
  : string :=
  let claims :=
    Js.set (Js.set payload "iat" (Js.Num (t / 1000)))
           "exp" (Js.Num (t / 1000 + expiresIn)) in
  let signed := jwt_header ++ "." ++ jwt_encode claims in
  signed ++ "." ++ hs256 (hmac_key secret) signed.

(** The [nbf] and [exp] claims against the clock (seconds): each must be a
    number when present; the token is valid from [nbf] on and before
    [exp]. *)
Definition in_time (claims : Js.val) (seconds : Z) : bool :=
  match Js.get claims "nbf" with
  | Js.Undefined => true
  | Js.Num n => n <=? seconds
  | _ => false
  end
  && match Js.get claims "exp" with
     | Js.Undefined => true
     | Js.Num e => seconds <? e
     | _ => false
     end.

(** [jwt.verify(token, secret)] at a clock value ([None]: it throws): the
    secret must not be empty and the token must have three segments; under
    the HS256 header the signature must be the HMAC of the first two
    segments under the key of the secret, and the claims must decode and be
    in time. *)
Definition jwt_verify `{Libs} (token secret : string) (t : Z) : option Js.val :=
  if (secret =? "")%string then None
  else
    match Js.split dot token with
    | [header; payload; signature] =>
        if (header =? jwt_header)%string
        then
          if (signature =? hs256 (hmac_key secret) (header ++ "." ++ payload))%string
          then match jwt_decode payload with
               | Some claims => if in_time claims (t / 1000) then Some claims else None
               | None => None
               end
          else None
        else jwt_foreign token secret t
    | _ => None
    end.

(** ** The world a request runs in *)

Inductive Model : Type := UserModel | RestaurantModel | ReservationModel.

(** The process and its store: the three collections in store order, the
    clock ([new Date()], milliseconds), the count of ObjectIds generated,
    [process.env.JWT_SECRET], the failure the store answers every call with
    when it is unreachable, and the model calls made so far, oldest first. *)
Record World : Type := mkWorld {
  users : list User.doc;
  restaurants : list Restaurant.doc;
  reservations : list Reservation.doc;
  now : Z;
  generated : nat;
  JWT_SECRET : option string;
  store_failure : option string;
  calls : list (Model * string)
}.

(** ** Promises: state and exceptions *)

Inductive Res (A : Type) : Type :=
| Ok (a : A)
| Throw (e : JsError).
Arguments Ok {A} a.
Arguments Throw {A} e.

Definition M (A : Type) : Type := World -> Res A * World.

Definition ret {A} (a : A) : M A := fun w => (Ok a, w).

Definition throw {A} (e : JsError) : M A := fun w => (Throw e, w).

Definition bind {A B} (m : M A) (k : A -> M B) : M B :=
  fun w =>
    match m w with
    | (Ok a, w') => k a w'
    | (Throw e, w') => (Throw e, w')
    end.

(** [try { m } catch (error) { h error }] *)
Definition try_catch {A} (m : M A) (h : JsError -> M A) : M A :=
  fun w =>
    match m w with
    | (Ok a, w') => (Ok a, w')
    | (Throw e, w') => h e w'
    end.

Definition ask : M World := fun w => (Ok w, w).

Definition modify (f : World -> World) : M unit := fun w => (Ok tt, f w).

Declare Scope promise_scope.
Delimit Scope promise_scope with promise.
Notation "x <- m ;; k" := (bind m (fun x => k))
  (at level 100, m at next level, right associativity) : promise_scope.
Notation "m ;;; k" := (bind m (fun _ => k))
  (at level 100, right associativity) : promise_scope.
Open Scope promise_scope.

(** [new Date()] *)
Definition new_Date : M Z := w <- ask ;; ret (now w).

(** The property read [v.k] on a value that may be [undefined] or [null]:
    on these it throws a TypeError. *)
Definition read (v : Js.val) (k : string) : M Js.val :=
  match v with
  | Js.Undefined =>
      throw (mkError TypeError
               ("Cannot read properties of undefined (reading '" ++ k ++ "')"))
  | Js.Null =>
      throw (mkError TypeError
               ("Cannot read properties of null (reading '" ++ k ++ "')"))
  | _ => ret (Js.get v k)
  end.

(** ** Mongoose models *)

Definition is_null {A} (o : option A) : bool :=
  match o with None => true | Some _ => false end.

(** Casts of an update or creation value for a path, by the type of the
    path.  A value of the path's own type is stored as it is; the
    conversions Mongoose attempts on any other value are the library's. *)
Definition castPathString `{Libs} (v : Js.val) : option string :=
  match v with Js.Str s => Some s | _ => castString v end.

Definition pathFilterString `{Libs} (v : Js.val) : option (string -> bool) :=
  match v with Js.Str s => Some (String.eqb s) | _ => filterString v end.

Definition castPathDate `{Libs} (v : Js.val) : option (option Z) :=
  match v with
  | Js.Date ms => Some (Some ms)
  | Js.Null => Some None
  | _ => castDate v
  end.

Definition castPathNumber `{Libs} (v : Js.val) : option Z :=
  match v with Js.Num n => Some n | _ => castNumber v end.

(** A path of an update document: left alone when the document does not
    carry it, set to the cast value otherwise; [None] is a CastError. *)
Definition setPath {D A} (cast : Js.val -> option A) (put : A -> D -> D)
  (v : Js.val) (rest : option (D -> D)) : option (D -> D) :=
  match v with
  | Js.Undefined => rest
  | _ => match cast v, rest with
         | Some a, Some f => Some (fun d => put a (f d))
         | _, _ => None
         end
  end.

(** A key of an update document that names a path to set: not an update
    operator (a key that begins with a dollar sign) and not a dotted
    path. *)
Definition plain_key (k : string) : bool :=
  match k with
  | String "$" _ => false
  | _ => negb (Js.contains dot k)
  end.

(** An update document that only sets paths: an object with plain keys. *)
Definition plain_update (u : Js.val) : bool :=
  match u with
  | Js.Obj props => forallb (fun p => plain_key (fst p)) props
  | _ => false
  end.

(** The cast of an update document.  Mongoose moves the plain top-level
    keys into [$set], where they replace what [$set] holds under the same
    key, and MongoDB refuses an update two parts of which touch one path:
    when the update goes through, the paths the plain keys name hold the
    cast values of these keys ([paths]), whatever the operators, the dotted
    paths or the pipeline of the document did ([operators], the library's,
    not consulted on a document that has none).  MongoDB never changes the
    [_id] of a document: [keep d d'] is [d'] with the [_id] of [d].  [None]:
    the update throws. *)
Definition cast_update {D} (operators : Js.val -> option (D -> D))
  (keep : D -> D -> D) (paths : Js.val -> option (D -> D)) (u : Js.val)
  : option (D -> D) :=
  match paths u with
  | Some f =>
      if plain_update u then Some f
      else match operators u with
           | Some g => Some (fun d => f (keep d (g d)))
           | None => None
           end
  | None => None
  end.

(** What a schema gives its model: the collection it reads and writes, the
    cast of an update document and of a creation document (both in strict
    mode: the paths of the schema, nothing else), the unique indexes, and
    the [updatedAt] timestamp of [timestamps: true], which an update sets to
    the clock value whatever the update document holds under [updatedAt]
    (just as it drops what the document holds under [createdAt]). *)
Class Schema `{Libs} (D : Type) : Type := {
  model : Model;
  id_of : D -> string;
  docs : World -> list D;
  set_docs : list D -> World -> World;
  (** the default projection of a query result ([select: false] paths) *)
  project : D -> D;
  castUpdate : Js.val -> option (D -> D);
  castCreate : Js.val -> string -> Z -> option D;
  duplicate : D -> D -> bool;
  touch : Z -> D -> D
}.

(** Every call of a method of a model is recorded. *)
Definition logged (call : Model * string) (w : World) : World :=
  mkWorld (users w) (restaurants w) (reservations w) (now w) (generated w)
          (JWT_SECRET w) (store_failure w) (calls w ++ [call]).

Definition record_call (m : Model) (method : string) : M unit :=
  modify (logged (m, method)).

(** The round trip to the store, which fails when it is unreachable. *)
Definition reach_store : M unit :=
  w <- ask ;;
  match store_failure w with
  | Some msg => throw (mkError MongoError msg)
  | None => ret tt
  end.

Definition cast_error {A} (path : string) : M A :=
  throw (mkError CastError ("Cast failed for path " ++ path)).

Fixpoint update_first {D} (p : D -> bool) (f : D -> D) (l : list D) : list D :=
  match l with
  | [] => []
  | d :: rest => if p d then f d :: rest else d :: update_first p f rest
  end.

Definition has_id `{Schema} (oid : string) (d : D) : bool :=
  (id_of d =? oid)%string.

Section ModelCalls.
Context `{S : Schema}.

(** [Model.find(filter)]; [filter] is the cast condition, [None] when the
    cast of the filter fails. *)
Definition find_ (filter : option (D -> bool)) : M (list D) :=
  record_call model "find" ;;;
  match filter with
  | None => cast_error "filter"
  | Some p =>
      reach_store ;;; w <- ask ;; ret (List.map project (List.filter p (docs w)))
  end.

(** [Model.findOne(filter).select(...)]; [select] is the projection the
    selection gives. *)
Definition findOne (filter : option (D -> bool)) (select : D -> D) : M (option D) :=
  record_call model "findOne" ;;;
  match filter with
  | None => cast_error "filter"
  | Some p =>
      reach_store ;;; w <- ask ;; ret (option_map select (List.find p (docs w)))
  end.

(** [Model.exists(filter)]: truthy exactly when a document matches *)
Definition exists_ (filter : option (D -> bool)) : M bool :=
  record_call model "exists" ;;;
  match filter with
  | None => cast_error "filter"
  | Some p => reach_store ;;; w <- ask ;; ret (existsb p (docs w))
  end.

(** [Model.findById(id)]: [findOne({_id: id})], with [_id: null] for an
    undefined id. *)
Definition findById (id : Js.val) : M (option D) :=
  record_call model "findById" ;;;
  match id with
  | Js.Undefined | Js.Null => reach_store ;;; ret None
  | _ =>
      match castObjectId id with
      | None => cast_error "_id"
      | Some oid =>
          reach_store ;;;
          w <- ask ;; ret (option_map project (List.find (has_id oid) (docs w)))
      end
  end.

(** The write shared by [findOneAndUpdate] and [findByIdAndUpdate]: the
    first document with the id is replaced by its update; the result is the
    document before and after. *)
Definition update_by_id (method : string) (id : string) (update : Js.val)
  : M (option (D * D)) :=
  record_call model method ;;;
  match castObjectId (Js.Str id), castUpdate update with
  | Some oid, Some f =>
      reach_store ;;;
      w <- ask ;;
      match List.find (has_id oid) (docs w) with
      | None => ret None
      | Some d =>
          let d' := touch (now w) (f d) in
          modify (set_docs (update_first (has_id oid) (fun _ => d') (docs w))) ;;;
          ret (Some (project d, project d'))
      end
  | None, _ => cast_error "_id"
  | _, None => cast_error "update"
  end.

(** [Model.findOneAndUpdate({_id: id}, update, {returnOriginal: false})] *)
Definition findOneAndUpdate (id : string) (update : Js.val) : M (option D) :=
  r <- update_by_id "findOneAndUpdate" id update ;; ret (option_map snd r).

(** [Model.findByIdAndUpdate(id, update)], which returns the document as it
    was before the update. *)
Definition findByIdAndUpdate (id : string) (update : Js.val) : M (option D) :=
  r <- update_by_id "findByIdAndUpdate" id update ;; ret (option_map fst r).

(** [Model.create(input)] *)
Definition create (input : Js.val) : M D :=
  record_call model "create" ;;;
  w <- ask ;;
  match castCreate input (newObjectId (generated w)) (now w) with
  | None => throw (mkError ValidationError "validation failed")
  | Some d =>
      reach_store ;;;
      if existsb (duplicate d) (docs w)
      then throw (mkError MongoError "E11000 duplicate key error")
      else
        modify (fun w =>
          set_docs (docs w ++ [d])
            (mkWorld (users w) (restaurants w) (reservations w) (now w)
               (Datatypes.S (generated w)) (JWT_SECRET w) (store_failure w) (calls w))) ;;;
        ret d
  end.

End ModelCalls.

(** ** Schemas *)

Fixpoint all_strings (items : list Js.val) : option (list string) :=
  match items with
  | [] => Some []
  | Js.Str s :: rest => option_map (cons s) (all_strings rest)
  | _ :: _ => None
  end.

Definition castPathStringArray `{Libs} (v : Js.val) : option (list string) :=
  match v with
  | Js.Arr items =>
      match all_strings items with
      | Some l => Some l
      | None => castStringArray v
      end
  | _ => castStringArray v
  end.

(** A [required: true] String path of a creation document. *)
Definition requiredString `{Libs} (v : Js.val) : option string :=
  match v with
  | Js.Undefined | Js.Null => None
  | _ => match castPathString v with
         | Some s => if (s =? "")%string then None else Some s
         | None => None
         end
  end.

Definition requiredObjectId `{Libs} (v : Js.val) : option string :=
  match v with
  | Js.Undefined | Js.Null => None
  | _ => castObjectId v
  end.

Definition requiredDate `{Libs} (v : Js.val) : option Z :=
  match castPathDate v with
  | Some (Some ms) => Some ms
  | _ => None
  end.

Definition requiredNumber `{Libs} (v : Js.val) : option Z :=
  match v with
  | Js.Undefined | Js.Null => None
  | _ => castPathNumber v
  end.

(** The [_id] of a new document: the one its input carries, cast, or else
    the generated one. *)
Definition created_id `{Libs} (u : Js.val) (generated : string) : option string :=
  match Js.get u "_id" with
  | Js.Undefined => Some generated
  | v => requiredObjectId v
  end.

(** The timestamps of a new document ([timestamps: true]): [createdAt] is
    the one its input carries, cast, or else the clock value; [updatedAt] is
    that [createdAt]; what an [updatedAt] of the input makes of it is the
    library's ([inputUpdatedAt]). *)
Definition created_at `{Libs} (u : Js.val) (t : Z) : option Z :=
  match Js.get u "createdAt" with
  | Js.Undefined => Some t
  | v => match castPathDate v with
         | Some (Some ms) => Some ms
         | Some None => Some t
         | None => None
         end
  end.

Definition updated_at `{Libs} (u : Js.val) (created : Z) : option Z :=
  match Js.get u "updatedAt" with
  | Js.Undefined => Some created
  | v => inputUpdatedAt v created
  end.

(** The identity and the timestamps of a new document, handed to [make]. *)
Definition stamped `{Libs} {D} (u : Js.val) (generated : string) (t : Z)
  (make : string -> Z -> Z -> D) : option D :=
  match created_id u generated, created_at u t with
  | Some id, Some created =>
      match updated_at u created with
      | Some updated => Some (make id created updated)
      | None => None
      end
  | _, _ => None
  end.

Definition set_users (l : list User.doc) (w : World) : World :=
  mkWorld l (restaurants w) (reservations w) (now w) (generated w)
          (JWT_SECRET w) (store_failure w) (calls w).

Definition set_restaurants (l : list Restaurant.doc) (w : World) : World :=
  mkWorld (users w) l (reservations w) (now w) (generated w)
          (JWT_SECRET w) (store_failure w) (calls w).

Definition set_reservations (l : list Reservation.doc) (w : World) : World :=
  mkWorld (users w) (restaurants w) l (now w) (generated w)
          (JWT_SECRET w) (store_failure w) (calls w).

Section Schemas.
Context `{L : Libs}.

(** userSchema: name, email (unique), password, deletedAt, roles (enum,
    default [user]); timestamps.  [user_paths] is what the plain top-level
    keys of an update document set: the paths of the schema, each cast to
    its type; keys that are no path of the schema are dropped (strict
    mode), and an [_id] among them is not followed (MongoDB accepts the
    [_id] the document has and refuses another). *)
Definition user_paths (u : Js.val) : option (User.doc -> User.doc) :=
  setPath castPathString
    (fun a d => User.mk (User._id d) a (User.email d) (User.password d)
                  (User.roles d) (User.deletedAt d) (User.createdAt d) (User.updatedAt d))
    (Js.get u "name")
  (setPath castPathString
    (fun a d => User.mk (User._id d) (User.name d) a (User.password d)
                  (User.roles d) (User.deletedAt d) (User.createdAt d) (User.updatedAt d))
    (Js.get u "email")
  (setPath castPathString
    (fun a d => User.mk (User._id d) (User.name d) (User.email d) (Some a)
                  (User.roles d) (User.deletedAt d) (User.createdAt d) (User.updatedAt d))
    (Js.get u "password")
  (setPath castPathStringArray
    (fun a d => User.mk (User._id d) (User.name d) (User.email d) (User.password d)
                  a (User.deletedAt d) (User.createdAt d) (User.updatedAt d))
    (Js.get u "roles")
  (setPath castPathDate
    (fun a d => User.mk (User._id d) (User.name d) (User.email d) (User.password d)
                  (User.roles d) a (User.createdAt d) (User.updatedAt d))
    (Js.get u "deletedAt")
  (Some (fun d => d)))))).

Definition user_castUpdate : Js.val -> option (User.doc -> User.doc) :=
  cast_update userOperators
    (fun d d' => User.mk (User._id d) (User.name d') (User.email d') (User.password d')
                   (User.roles d') (User.deletedAt d') (User.createdAt d')
                   (User.updatedAt d'))
    user_paths.

Definition is_role (r : string) : bool :=
  ((r =? role_name ADMIN) || (r =? role_name USER))%string.

Definition user_castCreate (u : Js.val) (id : string) (t : Z) : option User.doc :=
  match requiredString (Js.get u "name"), requiredString (Js.get u "email"),
        requiredString (Js.get u "password"),
        match Js.get u "roles" with
        | Js.Undefined => Some [role_name USER]
        | v => castPathStringArray v
        end,
        match Js.get u "deletedAt" with
        | Js.Undefined => Some None
        | v => castPathDate v
        end
  with
  | Some n, Some e, Some p, Some rs, Some del =>
      if forallb is_role rs
      then stamped u id t (fun id created updated =>
             User.mk id n e (Some p) rs del created updated)
      else None
  | _, _, _, _, _ => None
  end.

#[export] Instance userSchema : Schema User.doc := {
  model := UserModel;
  id_of := User._id;
  docs := users;
  set_docs := set_users;
  castUpdate := user_castUpdate;
  project := fun d => User.mk (User._id d) (User.name d) (User.email d) None
                          (User.roles d) (User.deletedAt d) (User.createdAt d)
                          (User.updatedAt d);
  castCreate := user_castCreate;
  duplicate := fun d d' => (User.email d =? User.email d')%string;
  touch := fun t d => User.mk (User._id d) (User.name d) (User.email d) (User.password d)
                        (User.roles d) (User.deletedAt d) (User.createdAt d) t
}.

(** restaurantSchema: name, address, city, nit (unique), phone, deletedAt;
    timestamps. *)
Definition restaurant_paths (u : Js.val)
  : option (Restaurant.doc -> Restaurant.doc) :=
  setPath castPathString
    (fun a d => Restaurant.mk (Restaurant._id d) a (Restaurant.address d)
                  (Restaurant.city d) (Restaurant.nit d) (Restaurant.phone d)
                  (Restaurant.deletedAt d) (Restaurant.createdAt d) (Restaurant.updatedAt d))
    (Js.get u "name")
  (setPath castPathString
    (fun a d => Restaurant.mk (Restaurant._id d) (Restaurant.name d) a
                  (Restaurant.city d) (Restaurant.nit d) (Restaurant.phone d)
                  (Restaurant.deletedAt d) (Restaurant.createdAt d) (Restaurant.updatedAt d))
    (Js.get u "address")
  (setPath castPathString
    (fun a d => Restaurant.mk (Restaurant._id d) (Restaurant.name d) (Restaurant.address d)
                  a (Restaurant.nit d) (Restaurant.phone d)
                  (Restaurant.deletedAt d) (Restaurant.createdAt d) (Restaurant.updatedAt d))
    (Js.get u "city")
  (setPath castPathString
    (fun a d => Restaurant.mk (Restaurant._id d) (Restaurant.name d) (Restaurant.address d)
                  (Restaurant.city d) a (Restaurant.phone d)
                  (Restaurant.deletedAt d) (Restaurant.createdAt d) (Restaurant.updatedAt d))
    (Js.get u "nit")
  (setPath castPathString
    (fun a d => Restaurant.mk (Restaurant._id d) (Restaurant.name d) (Restaurant.address d)
                  (Restaurant.city d) (Restaurant.nit d) a
                  (Restaurant.deletedAt d) (Restaurant.createdAt d) (Restaurant.updatedAt d))
    (Js.get u "phone")
  (setPath castPathDate
    (fun a d => Restaurant.mk (Restaurant._id d) (Restaurant.name d) (Restaurant.address d)
                  (Restaurant.city d) (Restaurant.nit d) (Restaurant.phone d)
                  a (Restaurant.createdAt d) (Restaurant.updatedAt d))
    (Js.get u "deletedAt")
  (Some (fun d => d))))))).

Definition restaurant_castUpdate
  : Js.val -> option (Restaurant.doc -> Restaurant.doc) :=
  cast_update restaurantOperators
    (fun d d' => Restaurant.mk (Restaurant._id d) (Restaurant.name d')
                   (Restaurant.address d') (Restaurant.city d') (Restaurant.nit d')
                   (Restaurant.phone d') (Restaurant.deletedAt d')
                   (Restaurant.createdAt d') (Restaurant.updatedAt d'))
    restaurant_paths.

Definition restaurant_castCreate (u : Js.val) (id : string) (t : Z)
  : option Restaurant.doc :=
  match requiredString (Js.get u "name"), requiredString (Js.get u "address"),
        requiredString (Js.get u "city"), requiredString (Js.get u "nit"),
        requiredString (Js.get u "phone"),
        match Js.get u "deletedAt" with
        | Js.Undefined => Some None
        | v => castPathDate v
        end
  with
  | Some n, Some a, Some c, Some i, Some p, Some del =>
      stamped u id t (fun id created updated =>
        Restaurant.mk id n a c i p del created updated)
  | _, _, _, _, _, _ => None
  end.

#[export] Instance restaurantSchema : Schema Restaurant.doc := {
  model := RestaurantModel;
  id_of := Restaurant._id;
  docs := restaurants;
  set_docs := set_restaurants;
  castUpdate := restaurant_castUpdate;
  project := fun d => d;
  castCreate := restaurant_castCreate;
  duplicate := fun d d' => (Restaurant.nit d =? Restaurant.nit d')%string;
  touch := fun t d => Restaurant.mk (Restaurant._id d) (Restaurant.name d)
                        (Restaurant.address d) (Restaurant.city d) (Restaurant.nit d)
                        (Restaurant.phone d) (Restaurant.deletedAt d)
                        (Restaurant.createdAt d) t
}.

(** reservationSchema: date, hour, restaurantId, userId, userQuantity,
    status, deletedAt; timestamps. *)
Definition reservation_paths (u : Js.val)
  : option (Reservation.doc -> Reservation.doc) :=
  setPath castPathDate
    (fun a d => Reservation.mk (Reservation._id d) a (Reservation.hour d)
                  (Reservation.restaurantId d) (Reservation.userId d)
                  (Reservation.userQuantity d) (Reservation.status d)
                  (Reservation.deletedAt d) (Reservation.createdAt d) (Reservation.updatedAt d))
    (Js.get u "date")
  (setPath castPathString
    (fun a d => Reservation.mk (Reservation._id d) (Reservation.date d) a
                  (Reservation.restaurantId d) (Reservation.userId d)
                  (Reservation.userQuantity d) (Reservation.status d)
                  (Reservation.deletedAt d) (Reservation.createdAt d) (Reservation.updatedAt d))
    (Js.get u "hour")
  (setPath castObjectId
    (fun a d => Reservation.mk (Reservation._id d) (Reservation.date d) (Reservation.hour d)
                  a (Reservation.userId d)
                  (Reservation.userQuantity d) (Reservation.status d)
                  (Reservation.deletedAt d) (Reservation.createdAt d) (Reservation.updatedAt d))
    (Js.get u "restaurantId")
  (setPath castObjectId
    (fun a d => Reservation.mk (Reservation._id d) (Reservation.date d) (Reservation.hour d)
                  (Reservation.restaurantId d) a
                  (Reservation.userQuantity d) (Reservation.status d)
                  (Reservation.deletedAt d) (Reservation.createdAt d) (Reservation.updatedAt d))
    (Js.get u "userId")
  (setPath castPathNumber
    (fun a d => Reservation.mk (Reservation._id d) (Reservation.date d) (Reservation.hour d)
                  (Reservation.restaurantId d) (Reservation.userId d)
                  a (Reservation.status d)
                  (Reservation.deletedAt d) (Reservation.createdAt d) (Reservation.updatedAt d))
    (Js.get u "userQuantity")
  (setPath castPathString
    (fun a d => Reservation.mk (Reservation._id d) (Reservation.date d) (Reservation.hour d)
                  (Reservation.restaurantId d) (Reservation.userId d)
                  (Reservation.userQuantity d) a
                  (Reservation.deletedAt d) (Reservation.createdAt d) (Reservation.updatedAt d))
    (Js.get u "status")
  (setPath castPathDate
    (fun a d => Reservation.mk (Reservation._id d) (Reservation.date d) (Reservation.hour d)
                  (Reservation.restaurantId d) (Reservation.userId d)
                  (Reservation.userQuantity d) (Reservation.status d)
                  a (Reservation.createdAt d) (Reservation.updatedAt d))
    (Js.get u "deletedAt")
  (Some (fun d => d)))))))).

Definition reservation_castUpdate
  : Js.val -> option (Reservation.doc -> Reservation.doc) :=
  cast_update reservationOperators
    (fun d d' => Reservation.mk (Reservation._id d) (Reservation.date d')
                   (Reservation.hour d') (Reservation.restaurantId d')
                   (Reservation.userId d') (Reservation.userQuantity d')
                   (Reservation.status d') (Reservation.deletedAt d')
                   (Reservation.createdAt d') (Reservation.updatedAt d'))
    reservation_paths.

Definition reservation_castCreate (u : Js.val) (id : string) (t : Z)
  : option Reservation.doc :=
  match requiredDate (Js.get u "date"), requiredString (Js.get u "hour"),
        requiredObjectId (Js.get u "restaurantId"),
        requiredObjectId (Js.get u "userId"),
        requiredNumber (Js.get u "userQuantity"),
        requiredString (Js.get u "status"),
        match Js.get u "deletedAt" with
        | Js.Undefined => Some None
        | v => castPathDate v
        end
  with
  | Some d, Some h, Some r, Some us, Some q, Some s, Some del =>
      stamped u id t (fun id created updated =>
        Reservation.mk id (Some d) h r us q s del created updated)
  | _, _, _, _, _, _, _ => None
  end.

#[export] Instance reservationSchema : Schema Reservation.doc := {
  model := ReservationModel;
  id_of := Reservation._id;
  docs := reservations;
  set_docs := set_reservations;
  castUpdate := reservation_castUpdate;
  project := fun d => d;
  castCreate := reservation_castCreate;
  duplicate := fun _ _ => false;
  touch := fun t d => Reservation.mk (Reservation._id d) (Reservation.date d)
                        (Reservation.hour d) (Reservation.restaurantId d)
                        (Reservation.userId d) (Reservation.userQuantity d)
                        (Reservation.status d) (Reservation.deletedAt d)
                        (Reservation.createdAt d) t
}.

End Schemas.

(** ** JSON of the documents ([res.json(document)])

    The version key [__v] is rendered as the 0 of a new document: no
    service of the application increments it, and a request that names
    [__v] itself is not followed. *)

Definition date_or_null (d : option Z) : Js.val :=
  match d with Some ms => Js.Date ms | None => Js.Null end.

Definition restaurant_json (d : Restaurant.doc) : Js.val :=
  Js.Obj [("_id", Js.Str (Restaurant._id d)); ("name", Js.Str (Restaurant.name d));
          ("address", Js.Str (Restaurant.address d));
          ("city", Js.Str (Restaurant.city d)); ("nit", Js.Str (Restaurant.nit d));
          ("phone", Js.Str (Restaurant.phone d));
          ("deletedAt", date_or_null (Restaurant.deletedAt d));
          ("createdAt", Js.Date (Restaurant.createdAt d));
          ("updatedAt", Js.Date (Restaurant.updatedAt d)); ("__v", Js.Num 0)].

Definition reservation_json (d : Reservation.doc) : Js.val :=
  Js.Obj [("_id", Js.Str (Reservation._id d));
          ("date", date_or_null (Reservation.date d));
          ("hour", Js.Str (Reservation.hour d));
          ("restaurantId", Js.Str (Reservation.restaurantId d));
          ("userId", Js.Str (Reservation.userId d));
          ("userQuantity", Js.Num (Reservation.userQuantity d));
          ("status", Js.Str (Reservation.status d));
          ("deletedAt", date_or_null (Reservation.deletedAt d));
          ("createdAt", Js.Date (Reservation.createdAt d));
          ("updatedAt", Js.Date (Reservation.updatedAt d)); ("__v", Js.Num 0)].

(** ** services *)

Section Services.
Context `{L : Libs}.

(** *** user.service.ts *)

(** [select('+password')] keeps the stored document, [select('-password')]
    drops the password. *)
Definition select_password (password : bool) (d : User.doc) : User.doc :=
  if password then d else project d.

Definition UserService_findByEmail (email : Js.val) (password : bool)
  : M (option User.doc) :=
  findOne (option_map (fun p d => p (User.email d)) (pathFilterString email))
          (select_password password).

Definition UserService_update (id : string) (userInput : Js.val)
  : M (option User.doc) :=
  try_catch
    (user <- findOneAndUpdate id userInput ;; ret user)
    (fun error => throw error).

Definition UserService_getAll : M (list User.doc) :=
  find_ (Some (fun d => is_null (User.deletedAt d))).

Definition UserService_getById (id : string) : M (option User.doc) :=
  findById (Js.Str id).

Definition UserService_delete (id : string) : M bool :=
  try_catch
    (d <- new_Date ;;
     result <- findByIdAndUpdate (D := User.doc) id (Js.Obj [("deletedAt", Js.Date d)]) ;;
     ret (negb (is_null result)))
    (fun error => throw error).

(** *** restaurant.service.ts *)

Definition RestaurantService_create (restaurantInput : Js.val) : M Restaurant.doc :=
  restaurantExists <-
    exists_ (option_map (fun p d => p (Restaurant.nit d))
                        (pathFilterString (Js.get restaurantInput "nit"))) ;;
  if restaurantExists : bool
  then throw (mkError ReferenceError "Restaurant already exist")
  else create restaurantInput.

Definition RestaurantService_getAll : M (list Restaurant.doc) :=
  find_ (Some (fun d => is_null (Restaurant.deletedAt d))).

Definition RestaurantService_getById (id : string) : M (option Restaurant.doc) :=
  findById (Js.Str id).

Definition RestaurantService_delete (id : string) : M bool :=
  try_catch
    (d <- new_Date ;;
     result <- findByIdAndUpdate (D := Restaurant.doc) id
                 (Js.Obj [("deletedAt", Js.Date d)]) ;;
     ret (negb (is_null result)))
    (fun error => throw error).

(** *** reservation.service.ts *)

Definition ReservationService_create (reservationInput : Js.val) : M Reservation.doc :=
  userExists <- findById (D := User.doc) (Js.get reservationInput "userId") ;;
  if is_null userExists
  then throw (mkError ReferenceError "User not found")
  else
    restaurantExists <-
      findById (D := Restaurant.doc) (Js.get reservationInput "restaurantId") ;;
    if is_null restaurantExists
    then throw (mkError ReferenceError "Restaurant not found")
    else create reservationInput.

(** A reservation after [.populate('restaurantId', 'name address')
    .populate('userId', 'name')]: each reference is replaced by the selected
    fields of the document it names, or by null when there is none. *)
Record Populated : Type := mkPopulated {
  reservation : Reservation.doc;
  populated_restaurant : option (string * string * string);
  populated_user : option (string * string)
}.

Definition populate (ds : list Reservation.doc) : M (list Populated) :=
  record_call RestaurantModel "populate" ;;;
  record_call UserModel "populate" ;;;
  reach_store ;;;
  w <- ask ;;
  ret (map (fun d =>
         mkPopulated d
           (option_map
              (fun r => (Restaurant._id r, Restaurant.name r, Restaurant.address r))
              (List.find (has_id (Reservation.restaurantId d)) (restaurants w)))
           (option_map
              (fun u => (User._id u, User.name u))
              (List.find (has_id (Reservation.userId d)) (users w))))
         ds).

Definition ReservationService_getAll : M (list Populated) :=
  ds <- find_ (Some (fun d => is_null (Reservation.deletedAt d))) ;;
  populate ds.

Definition ReservationService_getById (id : string) : M (option Populated) :=
  d <- findById (D := Reservation.doc) (Js.Str id) ;;
  match d with
  | None => ret None
  | Some d => ps <- populate [d] ;; ret (head ps)
  end.

Definition ReservationService_delete (id : string) : M bool :=
  try_catch
    (d <- new_Date ;;
     result <- findByIdAndUpdate (D := Reservation.doc) id
                 (Js.Obj [("deletedAt", Js.Date d)]) ;;
     ret (negb (is_null result)))
    (fun error => throw error).

(** *** auth.service.ts *)

Record UserLoginOutput : Type := mkLoginOutput {
  out_id : string;
  out_roles : list string;
  out_token : string
}.

Definition defaultSecret : string := "defaultSecret".

Definition token_payload (user : User.doc) : Js.val :=
  Js.Obj [("id", Js.Str (User._id user));
          ("roles", Js.Arr (map Js.Str (User.roles user)))].

Definition AuthService_generateToken (user : User.doc) : M string :=
  w <- ask ;;
  ret (jwt_sign (token_payload user) (Js.or_default (JWT_SECRET w) defaultSecret)
                3600 (now w)).

Definition bcrypt_compare_ (data : Js.val) (hash : option string) : M bool :=
  match hash with
  | Some h =>
      match bcrypt_compare data h with
      | Some b => ret b
      | None => throw (mkError LibraryError "data and hash arguments required")
      end
  | None => throw (mkError LibraryError "data and hash arguments required")
  end.

Definition AuthService_login (userLogin : Js.val) : M UserLoginOutput :=
  email <- read userLogin "email" ;;
  userExists <- UserService_findByEmail email true ;;
  match userExists with
  | None => throw (mkError ReferenceError "Not Authorized")
  | Some userExists =>
      isMatch <- bcrypt_compare_ (Js.get userLogin "password") (User.password userExists) ;;
      if negb isMatch
      then throw (mkError ReferenceError "Not Authorized")
      else
        token <- AuthService_generateToken userExists ;;
        ret (mkLoginOutput (User._id userExists) (User.roles userExists) token)
  end.

End Services.

(** ** middlewares/auth.middleware.ts *)

(** [req.headers.authorization?.split(' ')[1]] *)
Definition header_token (authorization : option string) : option string :=
  match authorization with
  | None => None
  | Some h => Js.index (Js.split space h) 1
  end.

Definition no_token_provided : Response :=
  mkResponse 401 (message_body "Access denied. No token provided.").

Definition invalid_token : Response :=
  mkResponse 403 (message_body "Invalid token.").

(** [authMiddleware] on a request with the given Authorization header, in
    the process [w]; [Next decoded] is [req.user = decoded; next()]. *)
Definition authMiddleware `{L : Libs} (w : World) (authorization : option string)
  : MwResult :=
  let token := header_token authorization in
  match token with
  | Some token =>
      if (token =? "")%string then Answer no_token_provided
      else
        let secretKey := Js.or_default (JWT_SECRET w) defaultSecret in
        match jwt_verify token secretKey (now w) with
        | Some decoded => Next decoded
        | None => Answer invalid_token
        end
  | None => Answer no_token_provided
  end.

(** ** validators *)

(** One link of an express-validator chain: a sanitizer rewrites the field
    in [req.body]; a validator records an error with its message.  Both
    receive the string form of the field. *)
Inductive Step : Type :=
| Sanitizer (f : string -> Js.val)
| Validator (p : string -> bool) (msg : string).

Record Chain : Type := mkChain {
  field : string;
  optional : bool;
  steps : list Step
}.

Record FieldError : Type := mkFieldError {
  err_path : string;
  err_msg : string;
  err_value : Js.val
}.

Definition is_undefined (v : Js.val) : bool :=
  match v with Js.Undefined => true | _ => false end.

Section Validators.
Context `{L : Libs}.

Fixpoint run_steps (path : string) (ss : list Step) (body : Js.val)
  : Js.val * list FieldError :=
  match ss with
  | [] => (body, [])
  | Sanitizer f :: rest =>
      run_steps path rest (Js.set body path (f (v_toString (Js.get body path))))
  | Validator p msg :: rest =>
      let value := Js.get body path in
      let (body', errors) := run_steps path rest body in
      if p (v_toString value) then (body', errors)
      else (body', mkFieldError path msg value :: errors)
  end.

(** A chain marked [optional()] is skipped when the field is undefined. *)
Definition run_chain (c : Chain) (body : Js.val) : Js.val * list FieldError :=
  if optional c && is_undefined (Js.get body (field c)) then (body, [])
  else run_steps (field c) (steps c) body.

Fixpoint run_chains (cs : list Chain) (body : Js.val) : Js.val * list FieldError :=
  match cs with
  | [] => (body, [])
  | c :: rest =>
      let (body', errors) := run_chain c body in
      let (body'', errors') := run_chains rest body' in
      (body'', (errors ++ errors')%list)
  end.

Definition trim : Step := Sanitizer (fun s => Js.Str (v_trim s)).

(** *** user.validator.ts *)

Definition name_pattern : string := "^[a-zA-ZáéíóúÁÉÍÓÚñÑ\s]+$".

Definition userValidations_update : list Chain :=
  [ mkChain "name" true
      [ trim;
        Validator (v_isLength 2 (Some 50)) "Name must be between 2 and 50 characters";
        Validator (v_matches name_pattern) "Name can only contain letters and spaces" ];
    mkChain "email" true
      [ Validator v_isEmail "Please provide a valid email address";
        Sanitizer v_normalizeEmail ] ].

(** *** reservation.validator.ts *)

Definition hour_pattern : string := "^(0[1-9]|1[0-2]):[0-5][0-9](AM|PM)$".

Definition reservationValidations_create : list Chain :=
  [ mkChain "date" false
      [ Validator v_isISO8601 "Date must be a valid date" ];
    mkChain "hour" false
      [ trim;
        Validator (v_isLength 1 (Some 20)) "Hour must be between 1 and 20 characters";
        Validator (v_matches hour_pattern) "Please provide a valid hour" ];
    mkChain "userQuantity" false
      [ Validator (v_isInt_gt 1) "User quantity must be greater than 1";
        Sanitizer v_toInt ];
    mkChain "status" false
      [ trim;
        Validator (v_isLength 1 (Some 15)) "Status must be between 1 and 15 characters" ] ].

(** *** middlewares/handle.middleware.ts *)

Definition error_json (e : FieldError) : Js.val :=
  Js.Obj [("field", Js.Str (err_path e)); ("message", Js.Str (err_msg e));
          ("value", err_value e)].

(** Modelled from the spec: [handleValidationErrors], whose source file is
    not among the sources.  On a non-empty error list it answers 400 with
    the aggregated list of [{field, message, value}]; on an empty one the
    request goes on unchanged. *)
Definition handleValidationErrors (errors : list FieldError) : option Response :=
  match errors with
  | [] => None
  | _ :: _ =>
      Some (mkResponse 400
              (Js.Obj [("message", Js.Str "Validation errors");
                       ("errors", Js.Arr (map error_json errors))]))
  end.

(** A validation array of a route: the chains, then
    [handleValidationErrors].  [inr body] is [next()] with the sanitized
    body. *)
Definition validate (cs : list Chain) (body : Js.val) : Response + Js.val :=
  let (body', errors) := run_chains cs body in
  match handleValidationErrors errors with
  | Some r => inl r
  | None => inr body'
  end.

End Validators.

(** ** controllers *)

Section Controllers.
Context `{L : Libs}.

(** The calls a handler makes on [res], in order.  A handler that answers
    once makes one. *)
Definition Handler : Type := M (list Response).

(** *** restaurant.controller.ts *)

Definition RestaurantController_create (body : Js.val) : Handler :=
  try_catch
    (newRestaurant <- RestaurantService_create body ;;
     ret [mkResponse 201 (restaurant_json newRestaurant)])
    (fun error =>
       ret ((if instanceof_ReferenceError error
             then [mkResponse 400 (message_body "Restaurant already exist")]
             else [])
            ++ [mkResponse 500 (Js.Exn error)])%list).

Definition not_found (entity id : string) : Response :=
  mkResponse 404 (message_body (entity ++ " with id " ++ id ++ " not found")).

Definition RestaurantController_delete (params_id : option string) : Handler :=
  try_catch
    (let id := Js.or_default params_id "" in
     deleted <- RestaurantService_delete id ;;
     if negb deleted
     then ret [not_found "Restaurant" id]
     else ret [mkResponse 204 Js.Undefined])
    (fun error => ret [mkResponse 500 (Js.Exn error)]).

(** *** reservation.controller.ts *)

Definition ReservationController_create (body : Js.val) : Handler :=
  try_catch
    (newReservation <- ReservationService_create body ;;
     ret [mkResponse 201 (reservation_json newReservation)])
    (fun error =>
       ret ((if instanceof_ReferenceError error
             then [mkResponse 400 (message_body "Restaurant or User not found")]
             else [])
            ++ [mkResponse 500 (Js.Exn error)])%list).

Definition ReservationController_delete (params_id : option string) : Handler :=
  try_catch
    (let id := Js.or_default params_id "" in
     deleted <- ReservationService_delete id ;;
     if negb deleted
     then ret [not_found "Reservation" id]
     else ret [mkResponse 204 Js.Undefined])
    (fun error => ret [mkResponse 500 (Js.Exn error)]).

(** *** auth.controller.ts *)

Definition login_json (o : UserLoginOutput) : Js.val :=
  Js.Obj [("id", Js.Str (out_id o));
          ("roles", Js.Arr (map Js.Str (out_roles o)));
          ("token", Js.Str (out_token o))].

Definition AuthController_login (body : Js.val) : Handler :=
  try_catch
    (token <- AuthService_login body ;;
     ret [mkResponse 200 (Js.Obj [("token", login_json token)])])
    (fun error =>
       if instanceof_ReferenceError error
       then ret [mkResponse 401 (message_body (message error))]
       else ret [mkResponse 500 (message_body "Internal server error")]).

(** ** routes *)

(** [router.post("/", ..., reservationValidations.create,
    reservationController.create)], from the validation on. *)
Definition post_reservation (body : Js.val) : Handler :=
  match validate reservationValidations_create body with
  | inl r => ret [r]
  | inr body' => ReservationController_create body'
  end.

(** [router.put("/:id", ..., userValidations.update, userController.update)]
    as far as the stored user goes: the validation, then the call of the
    service with the id and the body. *)
Definition put_user (id : string) (body : Js.val) : M (Response + option User.doc) :=
  match validate userValidations_update body with
  | inl r => ret (inl r)
  | inr body' => user <- UserService_update id body' ;; ret (inr user)
  end.

End Controllers.

(** ** A reference implementation of the libraries

    Small executable stand-ins for the library functions, used to run the
    application on concrete requests.  The segments of a token are symbolic:
    the payload segment spells out, bit by bit, the issue and expiry times,
    the id and the roles of the claims, and the signature segment spells
    out the key and the length of the signed part.  Of the update
    operators a single [$set] of plain keys is carried out; the others are
    refused. *)

Module Reference.

Definition is_hex (c : ascii) : bool :=
  let n := nat_of_ascii c in
  ((48 <=? n) && (n <=? 57) || (97 <=? n) && (n <=? 102)
   || (65 <=? n) && (n <=? 70))%nat.

Fixpoint all_chars (p : ascii -> bool) (s : string) : bool :=
  match s with
  | EmptyString => true
  | String c rest => p c && all_chars p rest
  end.

Definition isMongoId (s : string) : bool :=
  (String.length s =? 24)%nat && all_chars is_hex s.

Definition castObjectId (v : Js.val) : option string :=
  match v with
  | Js.Str s => if isMongoId s then Some s else None
  | _ => None
  end.

Definition hex_digit (n : nat) : ascii :=
  ascii_of_nat (if (n <? 10)%nat then 48 + n else 87 + n).

Fixpoint hex_digits (k n : nat) : string :=
  match k with
  | O => EmptyString
  | Datatypes.S k' => hex_digits k' (n / 16) ++ String (hex_digit (n mod 16)) EmptyString
  end.

Definition newObjectId (n : nat) : string := hex_digits 24 n.

(** *** The token codec *)

Fixpoint enc_nat (n : nat) : list bool :=
  match n with
  | O => [false]
  | Datatypes.S n' => true :: enc_nat n'
  end.

Fixpoint dec_nat (bs : list bool) : option (nat * list bool) :=
  match bs with
  | [] => None
  | false :: rest => Some (O, rest)
  | true :: rest =>
      match dec_nat rest with
      | Some (n, rest') => Some (Datatypes.S n, rest')
      | None => None
      end
  end.

Definition enc_Z (z : Z) : list bool := (z <? 0) :: enc_nat (Z.abs_nat z).

Definition dec_Z (bs : list bool) : option (Z * list bool) :=
  match bs with
  | [] => None
  | neg :: rest =>
      match dec_nat rest with
      | Some (n, rest') => Some (if neg then - Z.of_nat n else Z.of_nat n, rest')
      | None => None
      end
  end.

Fixpoint enc_str (s : string) : list bool :=
  match s with
  | EmptyString => [false]
  | String (Ascii b0 b1 b2 b3 b4 b5 b6 b7) rest =>
      true :: b0 :: b1 :: b2 :: b3 :: b4 :: b5 :: b6 :: b7 :: enc_str rest
  end.

Fixpoint dec_str (bs : list bool) : option (string * list bool) :=
  match bs with
  | false :: rest => Some (EmptyString, rest)
  | true :: b0 :: b1 :: b2 :: b3 :: b4 :: b5 :: b6 :: b7 :: rest =>
      match dec_str rest with
      | Some (s, rest') => Some (String (Ascii b0 b1 b2 b3 b4 b5 b6 b7) s, rest')
      | None => None
      end
  | _ => None
  end.

Fixpoint enc_strs (l : list string) : list bool :=
  match l with
  | [] => [false]
  | s :: rest => true :: (enc_str s ++ enc_strs rest)
  end.

Fixpoint dec_strs (fuel : nat) (bs : list bool) : option (list string * list bool) :=
  match fuel, bs with
  | Datatypes.S _, false :: rest => Some ([], rest)
  | Datatypes.S fuel', true :: rest =>
      match dec_str rest with
      | Some (s, rest') =>
          match dec_strs fuel' rest' with
          | Some (l, rest'') => Some (s :: l, rest'')
          | None => None
          end
      | None => None
      end
  | _, _ => None
  end.

Fixpoint render (bs : list bool) : string :=
  match bs with
  | [] => EmptyString
  | b :: rest => String (if b then "1" else "0")%char (render rest)
  end.

Fixpoint unrender (s : string) : list bool :=
  match s with
  | EmptyString => []
  | String c rest => Ascii.eqb c "1"%char :: unrender rest
  end.

(** The identity and roles of a payload [{id, roles}]. *)
Definition claims_of (payload : Js.val) : string * list string :=
  match Js.get payload "id", Js.get payload "roles" with
  | Js.Str id, Js.Arr items =>
      match all_strings items with
      | Some roles => (id, roles)
      | None => (id, [])
      end
  | Js.Str id, _ => (id, [])
  | _, _ => (EmptyString, [])
  end.

Definition time_of (claims : Js.val) (k : string) : Z :=
  match Js.get claims k with
  | Js.Num n => n
  | _ => 0
  end.

Definition encode (claims : Js.val) : string :=
  let (id, roles) := claims_of claims in
  render (enc_Z (time_of claims "iat") ++ enc_Z (time_of claims "exp")
          ++ enc_str id ++ enc_strs roles).

Definition decode (segment : string) : option Js.val :=
  match dec_Z (unrender segment) with
  | Some (iat, bs2) =>
      match dec_Z bs2 with
      | Some (exp, bs3) =>
          match dec_str bs3 with
          | Some (id, bs4) =>
              match dec_strs (List.length bs4) bs4 with
              | Some (roles, []) =>
                  Some (Js.Obj [("id", Js.Str id);
                                ("roles", Js.Arr (map Js.Str roles));
                                ("iat", Js.Num iat); ("exp", Js.Num exp)])
              | _ => None
              end
          | None => None
          end
      | None => None
      end
  | None => None
  end.

(** A key without the zero bytes that end it. *)
Fixpoint strip_zeros (key : string) : string :=
  match key with
  | EmptyString => EmptyString
  | String c rest =>
      match strip_zeros rest with
      | EmptyString =>
          if Ascii.eqb c Ascii.zero then EmptyString else String c EmptyString
      | rest' => String c rest'
      end
  end.

Definition sign (key message : string) : string :=
  render (enc_str (strip_zeros key) ++ enc_nat (String.length message)).

(** *** bcrypt and validator.js *)

Definition bcrypt_hash (data : string) : string := "$2b$10$" ++ data.

Definition bcrypt_compare (data : Js.val) (hash : string) : option bool :=
  match data with
  | Js.Str s => Some (bcrypt_hash s =? hash)%string
  | _ => None
  end.

Definition toString (v : Js.val) : string :=
  match v with
  | Js.Str s => s
  | Js.Bool true => "true"
  | Js.Bool false => "false"
  | _ => EmptyString
  end.

Fixpoint trim_left (s : string) : string :=
  match s with
  | String c rest => if Ascii.eqb c space then trim_left rest else s
  | EmptyString => EmptyString
  end.

Fixpoint rev_string (s acc : string) : string :=
  match s with
  | EmptyString => acc
  | String c rest => rev_string rest (String c acc)
  end.

Definition trim_ (s : string) : string :=
  rev_string (trim_left (rev_string (trim_left s) EmptyString)) EmptyString.

Definition isLength (min : Z) (max : option Z) (s : string) : bool :=
  let n := Z.of_nat (String.length s) in
  (min <=? n) && match max with Some m => n <=? m | None => true end.

Definition is_digit (c : ascii) : bool :=
  let n := nat_of_ascii c in ((48 <=? n) && (n <=? 57))%nat.

Definition is_letter_or_space (c : ascii) : bool :=
  let n := nat_of_ascii c in
  ((65 <=? n) && (n <=? 90) || (97 <=? n) && (n <=? 122) || (n =? 32)
   || (128 <=? n))%nat.

Definition hour_ok (s : string) : bool :=
  match s with
  | String h1 (String h2 (String ":" (String m1 (String m2 (String a (String "M" EmptyString)))))) =>
      (Ascii.eqb h1 "0" && is_digit h2 && negb (Ascii.eqb h2 "0")
       || Ascii.eqb h1 "1" && (Ascii.eqb h2 "0" || Ascii.eqb h2 "1" || Ascii.eqb h2 "2"))
      && is_digit m1 && (nat_of_ascii m1 <=? 53)%nat && is_digit m2
      && (Ascii.eqb a "A" || Ascii.eqb a "P")
  | _ => false
  end%char.

Definition matches_ (pattern s : string) : bool :=
  if (pattern =? hour_pattern)%string then hour_ok s
  else if (pattern =? name_pattern)%string
       then negb (s =? "")%string && all_chars is_letter_or_space s
       else false.

Fixpoint has_char (c : ascii) (s : string) : bool :=
  match s with
  | EmptyString => false
  | String c' rest => Ascii.eqb c c' || has_char c rest
  end.

Definition isEmail (s : string) : bool := has_char "@"%char s.

Definition isISO8601 (s : string) : bool :=
  match s with
  | String y1 (String y2 (String y3 (String y4 (String "-" (String m1 (String m2
      (String "-" (String d1 (String d2 _))))))))) =>
      is_digit y1 && is_digit y2 && is_digit y3 && is_digit y4
      && is_digit m1 && is_digit m2 && is_digit d1 && is_digit d2
  | _ => false
  end%char.

Fixpoint parse_digits (s : string) (acc : Z) : option Z :=
  match s with
  | EmptyString => Some acc
  | String c rest =>
      if is_digit c
      then parse_digits rest (10 * acc + Z.of_nat (nat_of_ascii c - 48))
      else None
  end.

Definition parse_int (s : string) : option Z :=
  match s with
  | EmptyString => None
  | String "-"%char rest =>
      match rest with
      | EmptyString => None
      | _ => option_map Z.opp (parse_digits rest 0)
      end
  | _ => parse_digits s 0
  end.

Definition isInt_gt (bound : Z) (s : string) : bool :=
  match parse_int s with
  | Some n => bound <? n
  | None => false
  end.

Definition toInt (s : string) : Js.val :=
  match parse_int s with
  | Some n => Js.Num n
  | None => Js.Undefined
  end.

Definition digit (c : ascii) : Z := Z.of_nat (nat_of_ascii c - 48).

(** A stand-in for the Date cast: a number holds milliseconds, and a date
    string "YYYY-MM-DD..." is given a number that grows with the day. *)
Definition castDate (v : Js.val) : option (option Z) :=
  match v with
  | Js.Num n => Some (Some n)
  | Js.Str s =>
      match s with
      | String y1 (String y2 (String y3 (String y4 (String _ (String m1
          (String m2 (String _ (String d1 (String d2 _))))))))) =>
          if isISO8601 s
          then Some (Some (((((digit y1 * 10 + digit y2) * 10 + digit y3) * 10
                             + digit y4) * 372
                            + (digit m1 * 10 + digit m2) * 31
                            + (digit d1 * 10 + digit d2)) * 86400000))
          else None
      | _ => None
      end
  | _ => None
  end.

Definition castNumber (v : Js.val) : option Z :=
  match v with
  | Js.Str s => parse_int s
  | _ => None
  end.

(** The stand-ins, over given update operators. *)
Section Operators.
Variable userOps : Js.val -> option (User.doc -> User.doc).
Variable restaurantOps : Js.val -> option (Restaurant.doc -> Restaurant.doc).
Variable reservationOps : Js.val -> option (Reservation.doc -> Reservation.doc).

#[local] Instance over : Libs := {
  castObjectId := castObjectId;
  newObjectId := newObjectId;
  castString := fun _ => None;
  castStringArray := fun _ => None;
  castDate := castDate;
  castNumber := castNumber;
  filterString := fun _ => None;
  userOperators := userOps;
  restaurantOperators := restaurantOps;
  reservationOperators := reservationOps;
  inputUpdatedAt := fun _ created => Some created;
  jwt_encode := encode;
  jwt_decode := decode;
  hs256 := sign;
  sha256 := fun s => s;
  jwt_foreign := fun _ _ _ => None;
  bcrypt_compare := bcrypt_compare;
  v_toString := toString;
  v_trim := trim_;
  v_isLength := isLength;
  v_matches := matches_;
  v_isEmail := isEmail;
  v_normalizeEmail := Js.Str;
  v_isISO8601 := isISO8601;
  v_isInt_gt := isInt_gt;
  v_toInt := toInt
}.

End Operators.

(** A stand-in for the update operators: an update document that is one
    [$set] of plain keys sets the paths these keys name, as the same keys
    at top level do; every other operator, dotted path or pipeline is
    refused. *)
Definition set_operator {D : Type} (paths : Js.val -> option (D -> D)) (u : Js.val)
  : option (D -> D) :=
  match u with
  | Js.Obj [("$set", v)] => if plain_update v then paths v else None
  | _ => None
  end.

Definition without_operators : Libs :=
  over (fun _ => None) (fun _ => None) (fun _ => None).

#[export] Instance libs : Libs :=
  over (set_operator (@user_paths without_operators))
       (set_operator (@restaurant_paths without_operators))
       (set_operator (@reservation_paths without_operators)).

(** [jwt.sign] and [jwt.verify] over these stand-ins. *)
Definition jwt_sign : Js.val -> string -> Z -> Z -> string := @jwt_sign libs.

Definition jwt_verify : string -> string -> Z -> option Js.val := @jwt_verify libs.

End Reference.

(** ** What the token theorems need of jsonwebtoken *)

(** The encoding of the segments, and nothing of the signature scheme: the
    payload segment of claims [{id, roles, iat, exp}] decodes to these
    claims, and the payload and signature segments are base64url text, which
    holds neither a dot nor a space. *)
Class JwtLaws (L : Libs) : Prop := {
  jwt_claims_decode :
    forall (id : string) (roles : list string) (iat exp : Z),
      jwt_decode
        (jwt_encode (Js.Obj [("id", Js.Str id); ("roles", Js.Arr (map Js.Str roles));
                             ("iat", Js.Num iat); ("exp", Js.Num exp)]))
      = Some (Js.Obj [("id", Js.Str id); ("roles", Js.Arr (map Js.Str roles));
                      ("iat", Js.Num iat); ("exp", Js.Num exp)]);
  jwt_encode_base64url :
    forall (claims : Js.val) (c : ascii),
      c = dot \/ c = space -> Js.contains c (jwt_encode claims) = false;
  hs256_base64url :
    forall (key message : string) (c : ascii),
      c = dot \/ c = space -> Js.contains c (hs256 key message) = false
}.

(** ** Sample worlds and documents *)

(** A process with an empty store, at clock 0, without [JWT_SECRET]. *)
Definition idle : World := mkWorld [] [] [] 0 O None None [].

(** The same process at another clock value, or with a [JWT_SECRET]. *)
Definition at_time (t : Z) (w : World) : World :=
  mkWorld (users w) (restaurants w) (reservations w) t (generated w)
          (JWT_SECRET w) (store_failure w) (calls w).

Definition with_secret (secret : option string) (w : World) : World :=
  mkWorld (users w) (restaurants w) (reservations w) (now w) (generated w)
          secret (store_failure w) (calls w).

Definition u1 : User.doc :=
  User.mk "65f000000000000000000001" "Alicia" "alicia@acme.dev"
          (Some (Reference.bcrypt_hash "Secret123")) ["user"] None 0 0.

Definition u2 : User.doc :=
  User.mk "65f000000000000000000002" "Carlos" "admin@example.com"
          (Some (Reference.bcrypt_hash "Carlos123")) ["admin"] (Some 500) 0 500.

Definition r1 : Restaurant.doc :=
  Restaurant.mk "65f0000000000000000000a1" "La Casa" "Calle 1" "Cali" "900123"
                "3001234567" (Some 500) 0 500.

Definition r2 : Restaurant.doc :=
  Restaurant.mk "65f0000000000000000000a2" "El Patio" "Calle 2" "Cali" "900456"
                "3007654321" None 0 0.

Definition b1 : Reservation.doc :=
  Reservation.mk "65f0000000000000000000b1" (Some 86400000) "07:30PM"
                 "65f0000000000000000000a2" "65f000000000000000000001" 2 "pending"
                 (Some 700) 0 700.

Definition b2 : Reservation.doc :=
  Reservation.mk "65f0000000000000000000b2" (Some 86400000) "08:00PM"
                 "65f0000000000000000000a2" "65f000000000000000000001" 4 "confirmed"
                 None 0 0.

(** A process with two users, two restaurants and two reservations; the
    user [u2], the restaurant [r1] and the reservation [b1] are
    soft-deleted. *)
Definition sample : World :=
  mkWorld [u1; u2] [r1; r2] [b1; b2] 1000 O None None [].

(** The restaurant [d] once soft-deleted at the clock value [t]. *)
Definition deleted_at (t : Z) (d : Restaurant.doc) : Restaurant.doc :=
  Restaurant.mk (Restaurant._id d) (Restaurant.name d) (Restaurant.address d)
                (Restaurant.city d) (Restaurant.nit d) (Restaurant.phone d)
                (Some t) (Restaurant.createdAt d) t.

(** The answers to a series of [DELETE /api/restaurants/:id] requests for
    the same id, handled one after the other at the given clock values. *)
Fixpoint repeat_DELETE `{L : Libs} (id : string) (times : list Z) (w : World)
  : list (Res (list Response)) :=
  match times with
  | [] => []
  | t :: rest =>
      let (r, w') := RestaurantController_delete (Some id) (at_time t w) in
      r :: repeat_DELETE id rest w'
  end.

(** A body for [POST /api/reservations]. *)
Definition booking (userId restaurantId : string) : Js.val :=
  Js.Obj [("date", Js.Str "2025-12-24"); ("hour", Js.Str "07:30PM");
          ("restaurantId", Js.Str restaurantId); ("userId", Js.Str userId);
          ("userQuantity", Js.Str "2"); ("status", Js.Str "pending")].

(** A reference id that is not an ObjectId: neither undefined nor null, and
    refused by the cast. *)
Definition malformed_id `{L : Libs} (v : Js.val) : bool :=
  match v with
  | Js.Undefined | Js.Null => false
  | _ => is_null (castObjectId v)
  end.

(** A body for [POST /api/restaurants]. *)
Definition new_restaurant (nit : string) : Js.val :=
  Js.Obj [("name", Js.Str "La Terraza"); ("address", Js.Str "Calle 3");
          ("city", Js.Str "Cali"); ("nit", Js.Str nit);
          ("phone", Js.Str "3000000000")].

(** Two bodies that differ at most in the property [key]. *)
Definition same_but_key (key : string) (b1 b2 : Js.val) : Prop :=
  Js.isObject b1 = Js.isObject b2
  /\ forall k, (k =? key)%string = false -> Js.get b1 k = Js.get b2 k.

(** The error of a lookup by a malformed id. *)
Definition cast_failure : JsError := mkError CastError "Cast failed for path _id".

(** The fields of a user the update path is said to leave alone. *)
Definition credentials (u : User.doc) : option string * list string :=
  (User.password u, User.roles u).

(** ** The rest of the application *)

(** The library functions the rest of the code calls: [bcrypt.hash(data,
    rounds)] ([None]: it rejects), the JSON form of a date
    ([Date.prototype.toISOString]) and validator.js's [isMongoId]. *)
Class MoreLibs : Type := {
  bcrypt_hash : Js.val -> Z -> option string;
  toISOString : Z -> string;
  v_isMongoId : string -> bool
}.

(** *** JSON.parse(JSON.stringify(v)) *)

(** The copy of a value through its JSON text: an undefined property is
    left out, an undefined array item becomes null, a date becomes its ISO
    string and an error object, which has no enumerable property of its own,
    becomes the empty object.  (At top level [undefined] has no JSON text;
    the services copy request bodies, which are objects.) *)
Fixpoint json_copy `{X : MoreLibs} (v : Js.val) : Js.val :=
  match v with
  | Js.Date ms => Js.Str (toISOString ms)
  | Js.Exn _ => Js.Obj []
  | Js.Arr items =>
      Js.Arr ((fix copy_items (l : list Js.val) : list Js.val :=
                 match l with
                 | [] => []
                 | Js.Undefined :: rest => Js.Null :: copy_items rest
                 | x :: rest => json_copy x :: copy_items rest
                 end) items)
  | Js.Obj props =>
      Js.Obj ((fix copy_props (l : list (string * Js.val)) : list (string * Js.val) :=
                 match l with
                 | [] => []
                 | (_, Js.Undefined) :: rest => copy_props rest
                 | (k, x) :: rest => (k, json_copy x) :: copy_props rest
                 end) props)
  | _ => v
  end.

Section MoreServices.
Context `{L : Libs} `{X : MoreLibs}.

(** *** user.service.ts: create *)

(** [createdUser.toObject()] with its password deleted. *)
Definition without_password (d : User.doc) : User.doc :=
  User.mk (User._id d) (User.name d) (User.email d) None (User.roles d)
          (User.deletedAt d) (User.createdAt d) (User.updatedAt d).

Definition UserService_create (userInput : Js.val) : M User.doc :=
  userExists <- UserService_findByEmail (Js.get userInput "email") false ;;
  if negb (is_null userExists)
  then throw (mkError ReferenceError "User already exists")
  else
    let newUser := json_copy userInput in
    newUser <-
      (if Js.truthy (Js.get newUser "password")
       then match bcrypt_hash (Js.get newUser "password") 10 with
            | Some h => ret (Js.set newUser "password" (Js.Str h))
            | None => throw (mkError LibraryError "data must be a string or Buffer")
            end
       else ret newUser) ;;
    createdUser <- create (D := User.doc) newUser ;;
    ret (without_password createdUser).

(** *** restaurant.service.ts, reservation.service.ts: update *)

Definition RestaurantService_update (id : string) (restaurantInput : Js.val)
  : M (option Restaurant.doc) :=
  try_catch
    (restaurant <- findOneAndUpdate id restaurantInput ;; ret restaurant)
    (fun error => throw error).

Definition ReservationService_update (id : string) (reservationInput : Js.val)
  : M (option Reservation.doc) :=
  try_catch
    (reservation <- findOneAndUpdate id reservationInput ;; ret reservation)
    (fun error => throw error).

(** *** reservation.service.ts: getByUserId, getByRestaurantId *)

(** A reservation after [.populate('userId', 'name')] alone, and after
    [.populate('restaurantId', 'name address')] alone. *)
Record WithUser : Type := mkWithUser {
  of_user : Reservation.doc;
  its_user : option (string * string)
}.

Record WithRestaurant : Type := mkWithRestaurant {
  of_restaurant : Reservation.doc;
  its_restaurant : option (string * string * string)
}.

Definition populate_user (ds : list Reservation.doc) : M (list WithUser) :=
  record_call UserModel "populate" ;;;
  reach_store ;;;
  w <- ask ;;
  ret (map (fun d =>
         mkWithUser d
           (option_map (fun u => (User._id u, User.name u))
              (List.find (has_id (Reservation.userId d)) (users w))))
         ds).

Definition populate_restaurant (ds : list Reservation.doc) : M (list WithRestaurant) :=
  record_call RestaurantModel "populate" ;;;
  reach_store ;;;
  w <- ask ;;
  ret (map (fun d =>
         mkWithRestaurant d
           (option_map
              (fun r => (Restaurant._id r, Restaurant.name r, Restaurant.address r))
              (List.find (has_id (Reservation.restaurantId d)) (restaurants w))))
         ds).

Definition ReservationService_getByUserId (userId : string) : M (list WithUser) :=
  ds <- find_ (option_map (fun oid d => (Reservation.userId d =? oid)%string)
                          (castObjectId (Js.Str userId))) ;;
  populate_user ds.

Definition ReservationService_getByRestaurantId (restaurantId : string)
  : M (list WithRestaurant) :=
  ds <- find_ (option_map (fun oid d => (Reservation.restaurantId d =? oid)%string)
                          (castObjectId (Js.Str restaurantId))) ;;
  populate_restaurant ds.

(** *** JSON of the populated reservations *)

Definition user_ref_json (u : option (string * string)) : Js.val :=
  match u with
  | Some (id, name) => Js.Obj [("_id", Js.Str id); ("name", Js.Str name)]
  | None => Js.Null
  end.

Definition restaurant_ref_json (r : option (string * string * string)) : Js.val :=
  match r with
  | Some (id, name, address) =>
      Js.Obj [("_id", Js.Str id); ("name", Js.Str name); ("address", Js.Str address)]
  | None => Js.Null
  end.

Definition populated_json (p : Populated) : Js.val :=
  Js.set (Js.set (reservation_json (reservation p)) "restaurantId"
            (restaurant_ref_json (populated_restaurant p)))
         "userId" (user_ref_json (populated_user p)).

Definition with_user_json (p : WithUser) : Js.val :=
  Js.set (reservation_json (of_user p)) "userId" (user_ref_json (its_user p)).

Definition with_restaurant_json (p : WithRestaurant) : Js.val :=
  Js.set (reservation_json (of_restaurant p)) "restaurantId"
         (restaurant_ref_json (its_restaurant p)).

(** *** restaurant.controller.ts: getAll, getOne, update *)

Definition server_error (error : JsError) : Handler :=
  ret [mkResponse 500 (Js.Exn error)].

Definition RestaurantController_getAll : Handler :=
  try_catch
    (restaurant <- RestaurantService_getAll ;;
     ret [mkResponse 200 (Js.Arr (map restaurant_json restaurant))])
    server_error.

Definition RestaurantController_getOne (params_id : option string) : Handler :=
  try_catch
    (let id := Js.or_default params_id "" in
     restaurant <- RestaurantService_getById id ;;
     match restaurant with
     | None => ret [not_found "Restaurant" id]
     | Some restaurant => ret [mkResponse 200 (restaurant_json restaurant)]
     end)
    server_error.

Definition RestaurantController_update (params_id : option string) (body : Js.val)
  : Handler :=
  try_catch
    (let id := Js.or_default params_id "" in
     restaurant <- RestaurantService_update id body ;;
     match restaurant with
     | None => ret [not_found "Restaurant" id]
     | Some restaurant => ret [mkResponse 200 (restaurant_json restaurant)]
     end)
    server_error.

(** *** reservation.controller.ts: getAll, getOne, update, getByUserId,
    getByRestaurantId *)

Definition ReservationController_getAll : Handler :=
  try_catch
    (reservation <- ReservationService_getAll ;;
     ret [mkResponse 200 (Js.Arr (map populated_json reservation))])
    server_error.

Definition ReservationController_getOne (params_id : option string) : Handler :=
  try_catch
    (let id := Js.or_default params_id "" in
     reservation <- ReservationService_getById id ;;
     match reservation with
     | None => ret [not_found "Reservation" id]
     | Some reservation => ret [mkResponse 200 (populated_json reservation)]
     end)
    server_error.

Definition ReservationController_update (params_id : option string) (body : Js.val)
  : Handler :=
  try_catch
    (let id := Js.or_default params_id "" in
     reservation <- ReservationService_update id body ;;
     match reservation with
     | None => ret [not_found "Reservation" id]
     | Some reservation => ret [mkResponse 200 (reservation_json reservation)]
     end)
    server_error.

Definition ReservationController_getByUserId (params_userId : option string) : Handler :=
  try_catch
    (let userId := Js.or_default params_userId "" in
     reservations <- ReservationService_getByUserId userId ;;
     ret [mkResponse 200 (Js.Arr (map with_user_json reservations))])
    server_error.

Definition ReservationController_getByRestaurantId (params_restaurantId : option string)
  : Handler :=
  try_catch
    (let restaurantId := Js.or_default params_restaurantId "" in
     reservations <- ReservationService_getByRestaurantId restaurantId ;;
     ret [mkResponse 200 (Js.Arr (map with_restaurant_json reservations))])
    server_error.

(** *** config/connectionDB.ts *)

(** One block of the callback: the account with the email is looked up and,
    when there is none, created with the hash of the password and the
    role. *)
Definition seed_account (name email password : string) (role : UserRole) : M unit :=
  account <- findOne (D := User.doc)
               (option_map (fun p d => p (User.email d))
                           (pathFilterString (Js.Str email)))
               project ;;
  if is_null account
  then
    match bcrypt_hash (Js.Str password) 10 with
    | Some h =>
        create (D := User.doc)
          (Js.Obj [("name", Js.Str name); ("email", Js.Str email);
                   ("password", Js.Str h);
                   ("roles", Js.Arr [Js.Str (role_name role)])]) ;;;
        ret tt
    | None => throw (mkError LibraryError "data must be a string or Buffer")
    end
  else ret tt.

(** The callback run once the connection is made, the admin block and then
    the user block, with the [catch] that ends the chain; what it prints on
    the console is left out. *)
Definition seed_accounts : M unit :=
  try_catch
    (seed_account "Carlos" "admin@example.com" "Carlos123" ADMIN ;;;
     seed_account "Camila" "user@example.com" "Camila123" USER)
    (fun error => ret tt).

(** *** validators: the other validation arrays *)

Definition restaurantValidations_create : list Chain :=
  [ mkChain "name" false
      [ trim;
        Validator (v_isLength 1 (Some 30)) "Name must be between 1 and 30 characters" ];
    mkChain "address" false
      [ trim;
        Validator (v_isLength 1 (Some 30)) "Address must be between 1 and 30 characters" ];
    mkChain "city" false
      [ trim;
        Validator (v_isLength 1 (Some 30)) "City must be between 1 and 30 characters" ];
    mkChain "nit" false
      [ trim;
        Validator (v_isLength 1 (Some 30)) "Genre must be between 1 and 30 characters" ];
    mkChain "phone" false
      [ trim;
        Validator (v_isLength 1 (Some 12)) "Phone must be between 1 and 12 characters" ] ].

Definition restaurantValidations_update : list Chain :=
  [ mkChain "name" true
      [ trim;
        Validator (v_isLength 1 (Some 30)) "Name must be between 1 and 30 characters" ];
    mkChain "address" true
      [ trim;
        Validator (v_isLength 1 (Some 30)) "Address must be between 1 and 30 characters" ];
    mkChain "city" true
      [ trim;
        Validator (v_isLength 1 (Some 30)) "City must be between 1 and 30 characters" ];
    mkChain "phone" true
      [ trim;
        Validator (v_isLength 1 (Some 12)) "Phone must be between 1 and 12 characters" ] ].

Definition restaurantValidations_id : list Chain :=
  [ mkChain "id" false [ Validator v_isMongoId "Invalid game ID format" ] ].

Definition reservationValidations_update : list Chain :=
  [ mkChain "date" true
      [ Validator v_isISO8601 "Date must be a valid date" ];
    mkChain "hour" true
      [ trim;
        Validator (v_isLength 1 (Some 20)) "Hour must be between 1 and 20 characters";
        Validator (v_matches hour_pattern) "Please provide a valid hour" ];
    mkChain "userQuantity" true
      [ Validator (v_isInt_gt 1) "User quantity must be greater than 1";
        Sanitizer v_toInt ];
    mkChain "status" true
      [ trim;
        Validator (v_isLength 1 (Some 15)) "Status must be between 1 and 15 characters" ] ].

Definition reservationValidations_id : list Chain :=
  [ mkChain "id" false [ Validator v_isMongoId "Invalid game ID format" ] ].

Definition reservationValidations_userId : list Chain :=
  [ mkChain "userId" false [ Validator v_isMongoId "Invalid user ID format" ] ].

Definition reservationValidations_restaurantId : list Chain :=
  [ mkChain "restaurantId" false
      [ Validator v_isMongoId "Invalid restaurant ID format" ] ].

Definition password_pattern : string := "^(?=.*[a-z])(?=.*[A-Z])(?=.*\d)".

Definition userValidations_create : list Chain :=
  [ mkChain "name" false
      [ trim;
        Validator (v_isLength 2 (Some 50)) "Name must be between 2 and 50 characters";
        Validator (v_matches name_pattern) "Name can only contain letters and spaces" ];
    mkChain "email" false
      [ Validator v_isEmail "Please provide a valid email address" ];
    mkChain "password" false
      [ Validator (v_isLength 6 None) "Password must be at least 6 characters long";
        Validator (v_matches password_pattern)
          "Password must contain at least one lowercase letter, one uppercase letter, and one number" ] ].

(** *** routes *)

(** What a route reads of a request: the Authorization header, the route
    parameters and the body. *)
Record Request : Type := mkRequest {
  authorization : option string;
  params : Js.val;
  body_of : Js.val
}.

(** [req.params.name]: a string, or undefined. *)
Definition param (req : Request) (name : string) : option string :=
  match Js.get (params req) name with
  | Js.Str s => Some s
  | _ => None
  end.

(** The head of a route: [authMiddleware], then [checkRole(role)] when the
    route has one; [handler] is the rest of the route. *)
Definition guarded (role : option UserRole) (req : Request) (handler : Handler)
  : Handler :=
  w <- ask ;;
  match authMiddleware w (authorization req) with
  | Answer r => ret [r]
  | Next user =>
      match role with
      | None => handler
      | Some role =>
          match checkRole role user with
          | Answer r => ret [r]
          | Next _ => handler
          end
      end
  end.

(** A validation array in a route, on the parameters or on the body. *)
Definition validated (cs : list Chain) (v : Js.val) (handler : Js.val -> Handler)
  : Handler :=
  match validate cs v with
  | inl r => ret [r]
  | inr v' => handler v'
  end.

(** routes/restaurant.route.ts *)
Definition GET_restaurants (req : Request) : Handler :=
  guarded None req RestaurantController_getAll.

Definition GET_restaurant (req : Request) : Handler :=
  guarded None req
    (validated restaurantValidations_id (params req) (fun _ =>
     RestaurantController_getOne (param req "id"))).

Definition POST_restaurant (req : Request) : Handler :=
  guarded (Some ADMIN) req
    (validated restaurantValidations_create (body_of req) (fun body =>
     RestaurantController_create body)).

Definition PUT_restaurant (req : Request) : Handler :=
  guarded (Some ADMIN) req
    (validated restaurantValidations_id (params req) (fun _ =>
     validated restaurantValidations_update (body_of req) (fun body =>
     RestaurantController_update (param req "id") body))).

Definition DELETE_restaurant (req : Request) : Handler :=
  guarded (Some ADMIN) req
    (validated restaurantValidations_id (params req) (fun _ =>
     RestaurantController_delete (param req "id"))).

(** routes/reservation.route.ts *)
Definition GET_reservations_of_user (req : Request) : Handler :=
  guarded (Some USER) req
    (validated reservationValidations_userId (params req) (fun _ =>
     ReservationController_getByUserId (param req "userId"))).

Definition GET_reservations_of_restaurant (req : Request) : Handler :=
  guarded (Some ADMIN) req
    (validated reservationValidations_restaurantId (params req) (fun _ =>
     ReservationController_getByRestaurantId (param req "restaurantId"))).

Definition GET_reservations (req : Request) : Handler :=
  guarded (Some ADMIN) req ReservationController_getAll.

Definition GET_reservation (req : Request) : Handler :=
  guarded None req
    (validated reservationValidations_id (params req) (fun _ =>
     ReservationController_getOne (param req "id"))).

Definition POST_reservation (req : Request) : Handler :=
  guarded (Some USER) req
    (validated reservationValidations_create (body_of req) (fun body =>
     ReservationController_create body)).

Definition PUT_reservation (req : Request) : Handler :=
  guarded (Some USER) req
    (validated reservationValidations_id (params req) (fun _ =>
     validated reservationValidations_update (body_of req) (fun body =>
     ReservationController_update (param req "id") body))).

Definition DELETE_reservation (req : Request) : Handler :=
  guarded (Some USER) req
    (validated reservationValidations_id (params req) (fun _ =>
     ReservationController_delete (param req "id"))).

End MoreServices.

(** *** Stand-ins for the other library functions *)

Module Reference2.

Definition libs : MoreLibs := {|
  bcrypt_hash := fun data _ =>
    match data with
    | Js.Str s => Some (Reference.bcrypt_hash s)
    | _ => None
    end;
  toISOString := fun _ => "1970-01-01T00:00:00.000Z";
  v_isMongoId := Reference.isMongoId
|}.

End Reference2.

(** A handler that, on every state of the process, makes exactly one call
    on the response. *)
Definition answers_once (h : Handler) : Prop :=
  forall w : World, exists r : Response, fst (h w) = Ok [r].

(** Two bodies that are both objects or both not, and hold the same value
    under [k]. *)
Definition agree_on (k : string) (b1 b2 : Js.val) : Prop :=
  Js.isObject b1 = Js.isObject b2 /\ Js.get b1 k = Js.get b2 k.

(** The routes of the restaurant and reservation routers, by the role
    their [checkRole] asks for, and those that ask for none. *)
Definition admin_routes `{L : Libs} `{X : MoreLibs} : list (Request -> Handler) :=
  [POST_restaurant; PUT_restaurant; DELETE_restaurant;
   GET_reservations; GET_reservations_of_restaurant].

Definition user_routes `{L : Libs} `{X : MoreLibs} : list (Request -> Handler) :=
  [POST_reservation; PUT_reservation; DELETE_reservation; GET_reservations_of_user].

Definition open_routes `{L : Libs} `{X : MoreLibs} : list (Request -> Handler) :=
  [GET_restaurants; GET_restaurant; GET_reservation].

(** A request that carries a token signed with the default secret at clock
    0 for the given id and roles. *)
Definition request_of (id : string) (roles : list string) (params body : Js.val)
  : Request :=
  mkRequest
    (Some ("Bearer "
           ++ Reference.jwt_sign
                (Js.Obj [("id", Js.Str id); ("roles", Js.Arr (map Js.Str roles))])
                "defaultSecret" 3600 0))
    params body.

(** Whether a promise was fulfilled. *)
Definition fulfilled {A : Type} (r : Res A) : bool :=
  match r with Ok _ => true | Throw _ => false end.


(** What a login reads of a stored user. *)
Definition login_key (u : User.doc) : string * option string * string * list string :=
  (User.email u, User.password u, User._id u, User.roles u).

(** The routes that validate an id parameter, with the role they ask for
    and the name of the parameter. *)
Definition id_routes `{L : Libs} `{X : MoreLibs}
  : list (option UserRole * string * (Request -> Handler)) :=
  [(None, "id", GET_restaurant);
   (Some ADMIN, "id", PUT_restaurant);
   (Some ADMIN, "id", DELETE_restaurant);
   (Some USER, "userId", GET_reservations_of_user);
   (Some ADMIN, "restaurantId", GET_reservations_of_restaurant);
   (None, "id", GET_reservation);
   (Some USER, "id", PUT_reservation);
   (Some USER, "id", DELETE_reservation)].
(** * Theorems *)

(** ** checkRole *)

Example checkRole_admin_passes :
  checkRole ADMIN (Js.Obj [("id", Js.Str "u1"); ("roles", Js.Arr [Js.Str "admin"])])
  = Next (Js.Obj [("id", Js.Str "u1"); ("roles", Js.Arr [Js.Str "admin"])]).
Proof. reflexivity. Qed.

Lemma roles_array_is_object (user : Js.val) (items : list Js.val) :
  Js.get user "roles" = Js.Arr items -> Js.truthy user = true.
Proof. destruct user; simpl; intros H; try discriminate; reflexivity. Qed.

Lemma checkRole_lacking_role (r : UserRole) (user : Js.val) (items : list Js.val) :
  Js.get user "roles" = Js.Arr items ->
  existsb (Js.is_str (role_name r)) items = false ->
  checkRole r user = Answer access_denied.
Proof.
  intros Hroles Hlack. unfold checkRole.
  rewrite (roles_array_is_object user items Hroles), Hroles. simpl.
  rewrite Hlack. reflexivity.
Qed.

(** C1, as the code has it: for every principal, [checkRole("admin")] denies
    a user whose roles is the empty array with status 403 and message
    "Access denied.", the same answer as for roles ["user"]; the message
    "Access denied. No roles found." is the answer when the user is absent
    or its roles is missing, falsy or not an array; the two answers are
    distinct. *)
Theorem checkRole_admin_denials (user : Js.val) :
  (Js.get user "roles" = Js.Arr [] ->
   checkRole ADMIN user = Answer (mkResponse 403 (message_body "Access denied.")))
  /\ (Js.get user "roles" = Js.Arr [Js.Str "user"] ->
      checkRole ADMIN user = Answer (mkResponse 403 (message_body "Access denied.")))
  /\ (Js.truthy user = false \/ Js.truthy (Js.get user "roles") = false
      \/ Js.isArray (Js.get user "roles") = false ->
      checkRole ADMIN user
      = Answer (mkResponse 403 (message_body "Access denied. No roles found.")))
  /\ mkResponse 403 (message_body "Access denied. No roles found.")
     <> mkResponse 403 (message_body "Access denied.").
Proof.
  split; [| split; [| split]].
  - intros H. apply (checkRole_lacking_role ADMIN user _ H). reflexivity.
  - intros H. apply (checkRole_lacking_role ADMIN user _ H). reflexivity.
  - intros H. unfold checkRole.
    destruct (Js.truthy user); simpl; [| reflexivity].
    destruct (Js.truthy (Js.get user "roles")); simpl; [| reflexivity].
    destruct (Js.isArray (Js.get user "roles")); simpl; [| reflexivity].
    destruct H as [H | [H | H]]; discriminate.
  - discriminate.
Qed.

Lemma checkRole_admin_denials_witness :
  checkRole ADMIN (Js.Obj [("id", Js.Str "u1"); ("roles", Js.Arr [])])
  = Answer (mkResponse 403 (message_body "Access denied."))
  /\ checkRole ADMIN (Js.Obj [("id", Js.Str "u1"); ("roles", Js.Arr [Js.Str "user"])])
     = Answer (mkResponse 403 (message_body "Access denied."))
  /\ checkRole ADMIN (Js.Obj [("id", Js.Str "u1")])
     = Answer (mkResponse 403 (message_body "Access denied. No roles found.")).
Proof.
  split; [| split].
  - apply (proj1 (checkRole_admin_denials _)). reflexivity.
  - apply (proj1 (proj2 (checkRole_admin_denials _))). reflexivity.
  - apply (proj1 (proj2 (proj2 (checkRole_admin_denials _)))).
    right; left; reflexivity.
Defined.

(** C1 as stated fails: a principal with [roles: []] is not answered with
    "Access denied. No roles found." but with "Access denied.". *)
Lemma checkRole_empty_roles_counterexample :
  checkRole ADMIN (Js.Obj [("id", Js.Str "u1"); ("roles", Js.Arr [])])
  <> Answer (mkResponse 403 (message_body "Access denied. No roles found."))
  /\ checkRole ADMIN (Js.Obj [("id", Js.Str "u1"); ("roles", Js.Arr [])])
     = Answer (mkResponse 403 (message_body "Access denied.")).
Proof. split; [discriminate | reflexivity]. Qed.

(** ** Strings: split *)

Lemma split_not_nil (sep : ascii) (s : string) : Js.split sep s <> [].
Proof.
  destruct s as [| c rest]; simpl; [discriminate |].
  destruct (Ascii.eqb c sep); [discriminate |].
  destruct (Js.split sep rest); discriminate.
Qed.

(** A string without the separator, followed by the separator and a second
    string, splits into the first string and the pieces of the second. *)
Lemma split_app (sep : ascii) (a b : string) :
  Js.split sep a = [a] ->
  Js.split sep (a ++ String sep b) = a :: Js.split sep b.
Proof.
  induction a as [| c rest IH]; simpl; intros Ha.
  - rewrite Ascii.eqb_refl. reflexivity.
  - destruct (Ascii.eqb c sep); [discriminate |].
    destruct (Js.split sep rest) as [| piece pieces] eqn:E.
    + exfalso. exact (split_not_nil sep rest E).
    + injection Ha as Hp Hps. subst piece pieces.
      rewrite (IH eq_refl). reflexivity.
Qed.

Lemma header_token_second_field (scheme token : string) :
  Js.split space scheme = [scheme] ->
  Js.split space token = [token] ->
  header_token (Some (scheme ++ String space token)) = Some token.
Proof.
  intros Hs Ht. unfold header_token.
  rewrite (split_app space scheme token Hs), Ht. reflexivity.
Qed.

Lemma contains_split (sep : ascii) (s : string) :
  Js.contains sep s = false -> Js.split sep s = [s].
Proof.
  induction s as [| c rest IH]; simpl; [reflexivity |].
  rewrite Ascii.eqb_sym. destruct (Ascii.eqb c sep); [discriminate |].
  intros H. rewrite (IH H). reflexivity.
Qed.

Lemma contains_app (c : ascii) (a b : string) :
  Js.contains c (a ++ b) = Js.contains c a || Js.contains c b.
Proof.
  induction a as [| c' a IH]; simpl; [reflexivity |].
  rewrite IH. apply orb_assoc.
Qed.

(** ** The reference encoding of the token segments meets [JwtLaws] *)

Module ReferenceFacts.

Lemma dec_nat_enc (n : nat) (rest : list bool) :
  Reference.dec_nat (Reference.enc_nat n ++ rest) = Some (n, rest).
Proof. induction n as [| n IH]; simpl; [reflexivity | rewrite IH; reflexivity]. Qed.

Lemma dec_Z_enc (z : Z) (rest : list bool) :
  Reference.dec_Z (Reference.enc_Z z ++ rest) = Some (z, rest).
Proof.
  unfold Reference.dec_Z, Reference.enc_Z. simpl. rewrite dec_nat_enc.
  rewrite Zabs2Nat.id_abs.
  destruct (z <? 0) eqn:E; do 2 f_equal.
  - apply Z.ltb_lt in E. lia.
  - apply Z.ltb_ge in E. lia.
Qed.

Lemma dec_str_enc (s : string) (rest : list bool) :
  Reference.dec_str (Reference.enc_str s ++ rest) = Some (s, rest).
Proof.
  induction s as [| c s IH]; simpl; [reflexivity |].
  destruct c as [b0 b1 b2 b3 b4 b5 b6 b7]. simpl. rewrite IH. reflexivity.
Qed.

Lemma dec_strs_enc (l : list string) :
  forall (rest : list bool) (fuel : nat),
    (List.length l < fuel)%nat ->
    Reference.dec_strs fuel (Reference.enc_strs l ++ rest) = Some (l, rest).
Proof.
  induction l as [| s l IH]; intros rest fuel Hfuel;
    (destruct fuel as [| fuel]; [simpl in Hfuel; lia |]); simpl.
  - reflexivity.
  - rewrite <- app_assoc, dec_str_enc, IH by (simpl in Hfuel; lia). reflexivity.
Qed.

Lemma length_enc_strs (l : list string) :
  (List.length l < List.length (Reference.enc_strs l))%nat.
Proof.
  induction l as [| s l IH]; simpl; [lia |].
  rewrite length_app. lia.
Qed.

Lemma unrender_render (bs : list bool) : Reference.unrender (Reference.render bs) = bs.
Proof.
  induction bs as [| b bs IH]; simpl; [reflexivity |].
  rewrite IH. destruct b; reflexivity.
Qed.

Lemma render_alphabet (bs : list bool) (c : ascii) :
  c = dot \/ c = space -> Js.contains c (Reference.render bs) = false.
Proof.
  intros Hc. induction bs as [| b bs IH]; simpl; [reflexivity |].
  rewrite IH. destruct Hc as [-> | ->], b; reflexivity.
Qed.

Lemma all_strings_map (l : list string) : all_strings (map Js.Str l) = Some l.
Proof. induction l as [| s l IH]; simpl; [| rewrite IH]; reflexivity. Qed.

Lemma decode_encode (id : string) (roles : list string) (iat exp : Z) :
  Reference.decode
    (Reference.encode
       (Js.Obj [("id", Js.Str id); ("roles", Js.Arr (map Js.Str roles));
                ("iat", Js.Num iat); ("exp", Js.Num exp)]))
  = Some (Js.Obj [("id", Js.Str id); ("roles", Js.Arr (map Js.Str roles));
                  ("iat", Js.Num iat); ("exp", Js.Num exp)]).
Proof.
  unfold Reference.encode, Reference.decode, Reference.claims_of, Reference.time_of.
  cbn [Js.get Js.assoc String.eqb Ascii.eqb Bool.eqb].
  rewrite all_strings_map.
  rewrite unrender_render, dec_Z_enc, dec_Z_enc, dec_str_enc.
  rewrite <- (app_nil_r (Reference.enc_strs roles)) at 2.
  rewrite dec_strs_enc by apply length_enc_strs.
  reflexivity.
Qed.

Lemma reference_jwt_laws : JwtLaws Reference.libs.
Proof.
  constructor;
    change (@jwt_encode Reference.libs) with Reference.encode;
    change (@jwt_decode Reference.libs) with Reference.decode;
    change (@hs256 Reference.libs) with Reference.sign.
  - apply decode_encode.
  - intros claims c Hc. unfold Reference.encode.
    destruct (Reference.claims_of claims) as [id roles].
    apply render_alphabet, Hc.
  - intros key message c Hc. apply render_alphabet, Hc.
Qed.

End ReferenceFacts.

(** ** authMiddleware *)

Section AuthMiddleware.
Context `{L : Libs}.

(** What [authMiddleware] does, by the second field of the header. *)
Lemma authMiddleware_by_token (w : World) (authorization : option string) :
  authMiddleware w authorization
  = match header_token authorization with
    | None => Answer no_token_provided
    | Some token =>
        if (token =? "")%string then Answer no_token_provided
        else match jwt_verify token (Js.or_default (JWT_SECRET w) defaultSecret) (now w) with
             | Some decoded => Next decoded
             | None => Answer invalid_token
             end
    end.
Proof. reflexivity. Qed.

(** C3, as the code has it: the token that [authMiddleware] verifies is the
    second field of the Authorization header split on single spaces,
    whatever the first field is: for a header "<scheme> <token>" whose
    scheme and token hold no space and whose token is not empty, the
    middleware verifies <token> (and attaches the decoded claims, or answers
    403 "Invalid token."), for the scheme "Bearer" as for any other; a
    missing header, or one with a missing or empty second field, is answered
    401 "Access denied. No token provided.", which differs from the answer
    to an invalid token. *)
Theorem authMiddleware_verifies_second_field
  (w : World) (scheme token : string) :
  Js.split space scheme = [scheme] ->
  Js.split space token = [token] ->
  token <> EmptyString ->
  header_token (Some (scheme ++ " " ++ token)) = Some token
  /\ authMiddleware w (Some (scheme ++ " " ++ token))
     = match jwt_verify token (Js.or_default (JWT_SECRET w) defaultSecret) (now w) with
       | Some decoded => Next decoded
       | None => Answer (mkResponse 403 (message_body "Invalid token."))
       end
  /\ authMiddleware w None
     = Answer (mkResponse 401 (message_body "Access denied. No token provided."))
  /\ authMiddleware w (Some scheme)
     = Answer (mkResponse 401 (message_body "Access denied. No token provided."))
  /\ authMiddleware w (Some (scheme ++ " "))
     = Answer (mkResponse 401 (message_body "Access denied. No token provided."))
  /\ mkResponse 401 (message_body "Access denied. No token provided.")
     <> mkResponse 403 (message_body "Invalid token.").
Proof.
  intros Hscheme Htoken Hne.
  assert (Hfield : header_token (Some (scheme ++ " " ++ token)) = Some token)
    by (apply header_token_second_field; assumption).
  split; [exact Hfield |].
  split.
  { rewrite authMiddleware_by_token, Hfield.
    apply String.eqb_neq in Hne. rewrite Hne. reflexivity. }
  split; [reflexivity |].
  split.
  { rewrite authMiddleware_by_token. unfold header_token.
    rewrite Hscheme. reflexivity. }
  split; [| discriminate].
  rewrite authMiddleware_by_token.
  assert (H : header_token (Some (scheme ++ " ")) = Some EmptyString)
    by (apply header_token_second_field; [assumption | reflexivity]).
  rewrite H. reflexivity.
Qed.

End AuthMiddleware.

Lemma authMiddleware_verifies_second_field_witness :
  header_token (Some "Bearer tok_ok_X9Y7Z3") = Some "tok_ok_X9Y7Z3"
  /\ authMiddleware (L := Reference.libs) idle (Some "Bearer tok_ok_X9Y7Z3")
     = Answer (mkResponse 403 (message_body "Invalid token.")).
Proof.
  destruct (authMiddleware_verifies_second_field (L := Reference.libs) idle
              "Bearer" "tok_ok_X9Y7Z3")
    as (Hfield & Hverify & _);
    [reflexivity | reflexivity | discriminate |].
  split; [exact Hfield | exact Hverify].
Defined.

(** C3 as stated fails: a header whose scheme is not the case-sensitive
    "Bearer" still yields a token, which the middleware verifies; here a
    token signed with the default secret, sent as "Basic <token>" and as
    "bearer <token>", authenticates the request. *)
Lemma authMiddleware_scheme_counterexample :
  header_token (Some "Basic alice:secret") = Some "alice:secret"
  /\ header_token (Some "bearer lower_token_xyz") = Some "lower_token_xyz"
  /\ let token :=
       Reference.jwt_sign
         (Js.Obj [("id", Js.Str "u1"); ("roles", Js.Arr [Js.Str "user"])])
         defaultSecret 3600 0 in
     let claims :=
       Js.Obj [("id", Js.Str "u1"); ("roles", Js.Arr [Js.Str "user"]);
               ("iat", Js.Num 0); ("exp", Js.Num 3600)] in
     authMiddleware (L := Reference.libs) idle (Some ("Basic " ++ token)) = Next claims
     /\ authMiddleware (L := Reference.libs) idle (Some ("bearer " ++ token)) = Next claims.
Proof. repeat split; vm_compute; reflexivity. Qed.

(** ** generateToken and the verification of its tokens *)

Section Tokens.
Context `{L : Libs} {J : JwtLaws L}.

Lemma append_assoc (a b c : string) : ((a ++ b) ++ c = a ++ (b ++ c))%string.
Proof. induction a as [| x a IH]; simpl; [| rewrite IH]; reflexivity. Qed.

(** The claims [jwt.sign] writes for a payload, and the part it signs. *)
Lemma jwt_sign_segments (payload : Js.val) (secret : string) (expiresIn t : Z) :
  let claims :=
    Js.set (Js.set payload "iat" (Js.Num (t / 1000)))
           "exp" (Js.Num (t / 1000 + expiresIn)) in
  let signed := jwt_header ++ "." ++ jwt_encode claims in
  Js.split dot (jwt_sign payload secret expiresIn t)
  = [jwt_header; jwt_encode claims; hs256 (hmac_key secret) signed].
Proof.
  intros claims signed. unfold jwt_sign. fold claims. fold signed.
  unfold signed.
  change (jwt_header ++ "." ++ jwt_encode claims)
    with (jwt_header ++ String dot (jwt_encode claims)).
  change ((jwt_header ++ String dot (jwt_encode claims)) ++ "."
          ++ hs256 (hmac_key secret) (jwt_header ++ String dot (jwt_encode claims)))
    with ((jwt_header ++ String dot (jwt_encode claims))
          ++ String dot
               (hs256 (hmac_key secret) (jwt_header ++ String dot (jwt_encode claims)))).
  rewrite append_assoc.
  change (String dot (jwt_encode claims)
          ++ String dot
               (hs256 (hmac_key secret) (jwt_header ++ String dot (jwt_encode claims))))
    with (String dot
            (jwt_encode claims
             ++ String dot
                  (hs256 (hmac_key secret)
                     (jwt_header ++ String dot (jwt_encode claims))))).
  rewrite (split_app dot jwt_header) by reflexivity.
  rewrite (split_app dot (jwt_encode claims))
    by (apply contains_split, jwt_encode_base64url; left; reflexivity).
  rewrite contains_split by (apply hs256_base64url; left; reflexivity).
  reflexivity.
Qed.

(** A secret verifies a token of [jwt.sign] exactly when it is not empty and
    signs the first two segments as the signing secret did; the claims must
    then decode and be in time. *)
Lemma jwt_verify_sign (payload : Js.val) (secret secret' : string)
  (expiresIn t t' : Z) :
  let claims :=
    Js.set (Js.set payload "iat" (Js.Num (t / 1000)))
           "exp" (Js.Num (t / 1000 + expiresIn)) in
  let signed := jwt_header ++ "." ++ jwt_encode claims in
  jwt_verify (jwt_sign payload secret expiresIn t) secret' t'
  = if (secret' =? "")%string then None
    else if (hs256 (hmac_key secret) signed =? hs256 (hmac_key secret') signed)%string
         then match jwt_decode (jwt_encode claims) with
              | Some decoded => if in_time decoded (t' / 1000) then Some decoded else None
              | None => None
              end
         else None.
Proof.
  intros claims signed. unfold jwt_verify.
  rewrite jwt_sign_segments. fold claims. fold signed.
  rewrite String.eqb_refl. reflexivity.
Qed.

Lemma jwt_round_trip (id : string) (roles : list string) (secret : string)
  (expiresIn t t' : Z) :
  secret <> EmptyString ->
  t' / 1000 < t / 1000 + expiresIn ->
  jwt_verify
    (jwt_sign (Js.Obj [("id", Js.Str id); ("roles", Js.Arr (map Js.Str roles))])
              secret expiresIn t)
    secret t'
  = Some (Js.Obj [("id", Js.Str id); ("roles", Js.Arr (map Js.Str roles));
                  ("iat", Js.Num (t / 1000));
                  ("exp", Js.Num (t / 1000 + expiresIn))]).
Proof.
  intros Hne Hlive. rewrite jwt_verify_sign.
  apply String.eqb_neq in Hne. rewrite Hne, String.eqb_refl.
  cbn [Js.set Js.assoc_set String.eqb Ascii.eqb Bool.eqb].
  rewrite jwt_claims_decode.
  unfold in_time. cbn [Js.get Js.assoc String.eqb Ascii.eqb Bool.eqb andb].
  apply Z.ltb_lt in Hlive. rewrite Hlive. reflexivity.
Qed.

Lemma jwt_compact (payload : Js.val) (secret : string) (expiresIn t : Z) :
  jwt_sign payload secret expiresIn t <> EmptyString
  /\ Js.split space (jwt_sign payload secret expiresIn t)
     = [jwt_sign payload secret expiresIn t].
Proof.
  split.
  - unfold jwt_sign, jwt_header. simpl. discriminate.
  - apply contains_split. unfold jwt_sign.
    rewrite !contains_app.
    rewrite (jwt_encode_base64url _ space) by (right; reflexivity).
    rewrite (hs256_base64url _ _ space) by (right; reflexivity).
    reflexivity.
Qed.

Lemma bearer_header_token (payload : Js.val) (secret : string) (expiresIn t : Z) :
  header_token (Some ("Bearer " ++ jwt_sign payload secret expiresIn t))
  = Some (jwt_sign payload secret expiresIn t).
Proof.
  apply (header_token_second_field "Bearer"); [reflexivity |].
  apply jwt_compact.
Qed.

Lemma authMiddleware_bearer (w : World) (payload : Js.val) (secret : string)
  (expiresIn t : Z) :
  authMiddleware w (Some ("Bearer " ++ jwt_sign payload secret expiresIn t))
  = match jwt_verify (jwt_sign payload secret expiresIn t)
            (Js.or_default (JWT_SECRET w) defaultSecret) (now w) with
    | Some decoded => Next decoded
    | None => Answer invalid_token
    end.
Proof.
  rewrite authMiddleware_by_token, bearer_header_token.
  destruct (jwt_compact payload secret expiresIn t) as [Hne _].
  apply String.eqb_neq in Hne. rewrite Hne. reflexivity.
Qed.

(** C7, as the code has it: for every user, the token [generateToken] makes
    when no environment secret is set is signed with the default secret;
    checked against that same default secret before it expires (one hour
    after its issue), it verifies and gives back the id and the roles of the
    user, so that [authMiddleware], in a process without environment secret,
    attaches these claims.  It does not fail against every other secret:
    HS256 pads a secret of at most 64 bytes with zero bytes, so the token
    verifies against every non-empty secret that makes the same key, the
    default secret followed by a zero byte among them; a secret fails
    exactly when it is empty or signs the first two segments of the token
    differently. *)
Theorem generateToken_default_secret_round_trip
  (user : User.doc) (w w' : World) :
  JWT_SECRET w = None ->
  now w' / 1000 < now w / 1000 + 3600 ->
  let token := jwt_sign (token_payload user) "defaultSecret" 3600 (now w) in
  let claims :=
    Js.Obj [("id", Js.Str (User._id user));
            ("roles", Js.Arr (map Js.Str (User.roles user)));
            ("iat", Js.Num (now w / 1000)); ("exp", Js.Num (now w / 1000 + 3600))] in
  let signed := jwt_header ++ "." ++ jwt_encode claims in
  AuthService_generateToken user w = (Ok token, w)
  /\ jwt_verify token "defaultSecret" (now w') = Some claims
  /\ Js.get claims "id" = Js.Str (User._id user)
  /\ Js.get claims "roles" = Js.Arr (map Js.Str (User.roles user))
  /\ (JWT_SECRET w' = None ->
      authMiddleware w' (Some ("Bearer " ++ token)) = Next claims)
  /\ (forall secret : string,
        secret <> EmptyString ->
        hmac_key secret = hmac_key "defaultSecret" ->
        jwt_verify token secret (now w') = Some claims)
  /\ jwt_verify token ("defaultSecret" ++ String Ascii.zero EmptyString) (now w')
     = Some claims
  /\ (forall secret : string,
        jwt_verify token secret (now w')
        = if (secret =? "")%string
             || negb (hs256 (hmac_key "defaultSecret") signed
                      =? hs256 (hmac_key secret) signed)%string
          then None
          else Some claims).
Proof.
  intros Henv Hlive token claims signed.
  assert (Hall : forall secret : string,
             jwt_verify token secret (now w')
             = if (secret =? "")%string
                  || negb (hs256 (hmac_key "defaultSecret") signed
                           =? hs256 (hmac_key secret) signed)%string
               then None
               else Some claims).
  { intros secret. unfold token. rewrite jwt_verify_sign.
    unfold token_payload.
    cbn [Js.set Js.assoc_set String.eqb Ascii.eqb Bool.eqb].
    fold claims. fold signed.
    destruct (secret =? "")%string; [reflexivity |].
    destruct (hs256 (hmac_key "defaultSecret") signed =? hs256 (hmac_key secret) signed)%string;
      [| reflexivity].
    unfold claims at 1. rewrite jwt_claims_decode. fold claims.
    unfold in_time, claims. cbn [Js.get Js.assoc String.eqb Ascii.eqb Bool.eqb andb].
    apply Z.ltb_lt in Hlive. rewrite Hlive. reflexivity. }
  assert (Hkey : forall secret : string,
             secret <> EmptyString ->
             hmac_key secret = hmac_key "defaultSecret" ->
             jwt_verify token secret (now w') = Some claims).
  { intros secret Hne Hsame. rewrite Hall, Hsame, String.eqb_refl.
    apply String.eqb_neq in Hne. rewrite Hne. reflexivity. }
  assert (Hverify : jwt_verify token "defaultSecret" (now w') = Some claims)
    by (apply Hkey; [discriminate | reflexivity]).
  split.
  { unfold AuthService_generateToken, bind, ask, ret. rewrite Henv. reflexivity. }
  split; [exact Hverify |].
  split; [reflexivity |].
  split; [reflexivity |].
  split.
  { intros Henv'. unfold token. rewrite authMiddleware_bearer, Henv'.
    simpl Js.or_default. fold token. unfold defaultSecret. rewrite Hverify.
    reflexivity. }
  split; [exact Hkey |].
  split; [| exact Hall].
  apply Hkey; [discriminate | reflexivity].
Qed.

End Tokens.

Lemma generateToken_default_secret_round_trip_witness :
  let token :=
    Reference.jwt_sign (token_payload u1) "defaultSecret" 3600 0 in
  let claims :=
    Js.Obj [("id", Js.Str "65f000000000000000000001");
            ("roles", Js.Arr [Js.Str "user"]);
            ("iat", Js.Num 0); ("exp", Js.Num 3600)] in
  AuthService_generateToken (L := Reference.libs) u1 idle = (Ok token, idle)
  /\ Reference.jwt_verify token "defaultSecret" 1800000 = Some claims
  /\ authMiddleware (L := Reference.libs) (at_time 1800000 idle)
       (Some ("Bearer " ++ token)) = Next claims.
Proof.
  intros token claims.
  destruct (generateToken_default_secret_round_trip
              (L := Reference.libs) (J := ReferenceFacts.reference_jwt_laws)
              u1 idle (at_time 1800000 idle) eq_refl eq_refl)
    as (Hgen & Hverify & _ & _ & Hauth & _).
  split; [exact Hgen |].
  split; [exact Hverify |].
  exact (Hauth eq_refl).
Defined.

(** C7 as stated fails: the token signed with the default secret verifies
    against another secret, the default secret followed by a zero byte,
    which HS256 pads to the same key; against a secret that makes another
    key, such as "otherSecret", the reference signature differs and the
    token is refused. *)
Lemma generateToken_other_secret_counterexample :
  let token :=
    Reference.jwt_sign (token_payload u1) "defaultSecret" 3600 0 in
  let claims :=
    Js.Obj [("id", Js.Str "65f000000000000000000001");
            ("roles", Js.Arr [Js.Str "user"]);
            ("iat", Js.Num 0); ("exp", Js.Num 3600)] in
  ("defaultSecret" ++ String Ascii.zero EmptyString)%string <> "defaultSecret"
  /\ Reference.jwt_verify token "defaultSecret" 1800000 = Some claims
  /\ Reference.jwt_verify token ("defaultSecret" ++ String Ascii.zero EmptyString)
       1800000
     = Some claims
  /\ Reference.jwt_verify token "otherSecret" 1800000 = None.
Proof.
  intros token claims.
  split; [discriminate |]. repeat split; vm_compute; reflexivity.
Qed.

(** ** Reads: getAll and getById *)

(** Unfolds a service down to the state transformer it is. *)
Ltac run :=
  unfold UserService_getAll, UserService_getById, UserService_update,
    UserService_delete, UserService_findByEmail,
    RestaurantService_getAll, RestaurantService_getById, RestaurantService_create,
    RestaurantService_delete,
    ReservationService_getAll, ReservationService_getById, ReservationService_create,
    ReservationService_delete, populate,
    find_, findOne, findById, exists_, findOneAndUpdate, findByIdAndUpdate,
    update_by_id, create, new_Date, cast_error,
    try_catch, bind, record_call, logged, reach_store, modify, ask, ret, throw;
  cbn [model docs set_docs project userSchema restaurantSchema reservationSchema
       users restaurants reservations now generated JWT_SECRET store_failure calls
       set_users set_restaurants set_reservations fst snd].

Lemma active_after_filter {D : Type} (deleted : D -> option Z) (g : D -> D)
  (l : list D) (d : D) :
  (forall x, deleted (g x) = deleted x) ->
  In d (map g (filter (fun x => is_null (deleted x)) l)) -> deleted d = None.
Proof.
  intros Hg Hin. apply in_map_iff in Hin. destruct Hin as (x & <- & Hx).
  apply filter_In in Hx. destruct Hx as [_ Hx]. rewrite Hg.
  destruct (deleted x); [discriminate | reflexivity].
Qed.

Section Reads.
Context `{L : Libs}.

Lemma UserService_getAll_run (w : World) :
  store_failure w = None ->
  fst (UserService_getAll w)
  = Ok (map project (filter (fun d => is_null (User.deletedAt d)) (users w))).
Proof. intros H. run. rewrite H. reflexivity. Qed.

Lemma RestaurantService_getAll_run (w : World) :
  store_failure w = None ->
  fst (RestaurantService_getAll w)
  = Ok (map project (filter (fun d => is_null (Restaurant.deletedAt d)) (restaurants w))).
Proof. intros H. run. rewrite H. reflexivity. Qed.

Lemma ReservationService_getAll_run (w : World) :
  store_failure w = None ->
  exists ps,
    fst (ReservationService_getAll w) = Ok ps
    /\ map reservation ps
       = filter (fun d => is_null (Reservation.deletedAt d)) (reservations w).
Proof.
  intros H. run. rewrite H. cbn [fst]. eexists. split; [reflexivity |].
  rewrite map_map. cbn [reservation]. rewrite !map_id. reflexivity.
Qed.

End Reads.

Section ReadsById.
Context `{L : Libs}.

Lemma UserService_getById_run (w : World) (id oid : string) :
  store_failure w = None ->
  castObjectId (Js.Str id) = Some oid ->
  fst (UserService_getById id w)
  = Ok (option_map project (find (has_id (D := User.doc) oid) (users w))).
Proof. intros H Hcast. run. rewrite Hcast. run. rewrite H. reflexivity. Qed.

Lemma RestaurantService_getById_run (w : World) (id oid : string) :
  store_failure w = None ->
  castObjectId (Js.Str id) = Some oid ->
  fst (RestaurantService_getById id w)
  = Ok (find (has_id (D := Restaurant.doc) oid) (restaurants w)).
Proof.
  intros H Hcast. run. rewrite Hcast. run. rewrite H. cbn [fst].
  destruct (find _ _); reflexivity.
Qed.

Lemma ReservationService_getById_run (w : World) (id oid : string) (d : Reservation.doc) :
  store_failure w = None ->
  castObjectId (Js.Str id) = Some oid ->
  find (has_id (D := Reservation.doc) oid) (reservations w) = Some d ->
  exists p, fst (ReservationService_getById id w) = Ok (Some p) /\ reservation p = d.
Proof.
  intros H Hcast Hfind. run. rewrite Hcast. run. rewrite H. run.
  rewrite Hfind. cbn. eexists. split; reflexivity.
Qed.

(** C5, as the code has it: for every entity (user, restaurant,
    reservation), [getAll] returns only records whose soft-delete timestamp
    is null (the records of the collection with a null timestamp, in store
    order); [getById] looks a record up by its id alone, for the
    reservation as for the user and the restaurant: none of the three
    filters on the soft-delete timestamp, so each returns the record with
    the id whether it is soft-deleted or not. *)
Theorem getAll_filters_getById_does_not (w : World) :
  store_failure w = None ->
  (fst (UserService_getAll w)
   = Ok (map project (filter (fun d => is_null (User.deletedAt d)) (users w)))
   /\ forall us d, fst (UserService_getAll w) = Ok us -> In d us ->
                   User.deletedAt d = None)
  /\ (fst (RestaurantService_getAll w)
      = Ok (filter (fun d => is_null (Restaurant.deletedAt d)) (restaurants w))
      /\ forall rs d, fst (RestaurantService_getAll w) = Ok rs -> In d rs ->
                      Restaurant.deletedAt d = None)
  /\ (exists ps,
        fst (ReservationService_getAll w) = Ok ps
        /\ map reservation ps
           = filter (fun d => is_null (Reservation.deletedAt d)) (reservations w)
        /\ forall p, In p ps -> Reservation.deletedAt (reservation p) = None)
  /\ (forall id oid d,
        castObjectId (Js.Str id) = Some oid ->
        find (has_id oid) (users w) = Some d ->
        exists d', fst (UserService_getById id w) = Ok (Some d')
                   /\ User._id d' = User._id d
                   /\ User.deletedAt d' = User.deletedAt d)
  /\ (forall id oid d,
        castObjectId (Js.Str id) = Some oid ->
        find (has_id oid) (restaurants w) = Some d ->
        fst (RestaurantService_getById id w) = Ok (Some d))
  /\ (forall id oid d,
        castObjectId (Js.Str id) = Some oid ->
        find (has_id oid) (reservations w) = Some d ->
        exists p, fst (ReservationService_getById id w) = Ok (Some p)
                  /\ reservation p = d).
Proof.
  intros H.
  split; [split |].
  { apply UserService_getAll_run, H. }
  { intros us d Hus Hin. rewrite (UserService_getAll_run w H) in Hus.
    injection Hus as <-.
    apply (active_after_filter User.deletedAt project (users w) d);
      [reflexivity | exact Hin]. }
  split; [split |].
  { rewrite (RestaurantService_getAll_run w H). cbn [project restaurantSchema].
    rewrite map_id. reflexivity. }
  { intros rs d Hrs Hin. rewrite (RestaurantService_getAll_run w H) in Hrs.
    injection Hrs as <-.
    apply (active_after_filter Restaurant.deletedAt project (restaurants w) d);
      [reflexivity | exact Hin]. }
  split.
  { destruct (ReservationService_getAll_run w H) as (ps & Hps & Hmap).
    exists ps. split; [exact Hps |]. split; [exact Hmap |].
    intros p Hin.
    apply (active_after_filter Reservation.deletedAt (fun d => d)
             (reservations w) (reservation p)); [reflexivity |].
    rewrite map_id, <- Hmap. apply in_map. exact Hin. }
  split.
  { intros id oid d Hcast Hfind. exists (project d).
    rewrite (UserService_getById_run w id oid H Hcast), Hfind.
    repeat split. }
  split.
  { intros id oid d Hcast Hfind.
    rewrite (RestaurantService_getById_run w id oid H Hcast), Hfind. reflexivity. }
  intros id oid d Hcast Hfind.
  exact (ReservationService_getById_run w id oid d H Hcast Hfind).
Qed.

End ReadsById.

Lemma getAll_filters_getById_does_not_witness :
  fst (RestaurantService_getAll (L := Reference.libs) sample) = Ok [r2]
  /\ fst (RestaurantService_getById (L := Reference.libs)
            "65f0000000000000000000a1" sample) = Ok (Some r1)
  /\ Restaurant.deletedAt r1 = Some 500.
Proof.
  destruct (getAll_filters_getById_does_not (L := Reference.libs) sample eq_refl)
    as (_ & (Hall & _) & _ & _ & Hid & _).
  split; [exact Hall |].
  split; [| reflexivity].
  apply (Hid "65f0000000000000000000a1" "65f0000000000000000000a1" r1);
    reflexivity.
Defined.

(** C5 as stated fails: the get-by-id reads of the user and of the
    restaurant do not exclude soft-deleted records either; the soft-deleted
    restaurant [r1] and the soft-deleted user [u2] are returned by id, while
    the lists leave them out. *)
Lemma getById_soft_deleted_counterexample :
  Restaurant.deletedAt r1 = Some 500
  /\ fst (RestaurantService_getById (L := Reference.libs)
            "65f0000000000000000000a1" sample) = Ok (Some r1)
  /\ fst (RestaurantService_getAll (L := Reference.libs) sample) = Ok [r2]
  /\ User.deletedAt u2 = Some 500
  /\ fst (UserService_getById (L := Reference.libs)
            "65f000000000000000000002" sample)
     = Ok (Some (User.mk "65f000000000000000000002" "Carlos" "admin@example.com"
                         None ["admin"] (Some 500) 0 500))
  /\ fst (UserService_getAll (L := Reference.libs) sample)
     = Ok [User.mk "65f000000000000000000001" "Alicia" "alicia@acme.dev"
                   None ["user"] None 0 0].
Proof. repeat split. Qed.

(** ** Soft delete *)

Lemma find_update_first {D : Type} (p : D -> bool) (d' : D) (l : list D) (d : D) :
  find p l = Some d -> p d' = true ->
  find p (update_first p (fun _ => d') l) = Some d'.
Proof.
  intros Hfind Hp. induction l as [| x l IH]; simpl in *; [discriminate |].
  destruct (p x) eqn:E; simpl.
  - rewrite Hp. reflexivity.
  - rewrite E. apply IH, Hfind.
Qed.

Lemma find_has_id {D : Type} (idf : D -> string) (oid : string) (l : list D) (d : D) :
  find (fun x => (idf x =? oid)%string) l = Some d -> idf d = oid.
Proof.
  intros H. apply find_some in H. destruct H as [_ H].
  apply String.eqb_eq, H.
Qed.

Section Delete.
Context `{L : Libs}.

Lemma RestaurantService_delete_found (w : World) (id oid : string) (d : Restaurant.doc) :
  store_failure w = None ->
  castObjectId (Js.Str id) = Some oid ->
  find (has_id oid) (restaurants w) = Some d ->
  exists w',
    RestaurantService_delete id w = (Ok true, w')
    /\ find (has_id oid) (restaurants w') = Some (deleted_at (now w) d)
    /\ store_failure w' = None
    /\ now w' = now w.
Proof.
  intros H Hcast Hfind. run. rewrite Hcast. cbn. rewrite H. cbn.
  rewrite Hfind. cbn. eexists. split; [reflexivity |]. cbn.
  split; [| split; reflexivity].
  apply (find_update_first _ _ _ d Hfind).
  unfold has_id, deleted_at. cbn.
  apply String.eqb_eq. exact (find_has_id Restaurant._id oid _ d Hfind).
Qed.

Lemma or_default_empty (id : string) : Js.or_default (Some id) "" = id.
Proof.
  unfold Js.or_default. destruct (id =? "")%string eqn:E; [| reflexivity].
  apply String.eqb_eq in E. congruence.
Qed.

Lemma RestaurantController_delete_found (w : World) (id oid : string)
  (d : Restaurant.doc) :
  store_failure w = None ->
  castObjectId (Js.Str id) = Some oid ->
  find (has_id oid) (restaurants w) = Some d ->
  exists w',
    RestaurantController_delete (Some id) w = (Ok [mkResponse 204 Js.Undefined], w')
    /\ find (has_id oid) (restaurants w') = Some (deleted_at (now w) d)
    /\ store_failure w' = None
    /\ now w' = now w.
Proof.
  intros H Hcast Hfind.
  destruct (RestaurantService_delete_found w id oid d H Hcast Hfind)
    as (w' & Hrun & Hrest).
  exists w'. split; [| exact Hrest].
  unfold RestaurantController_delete. rewrite or_default_empty.
  unfold try_catch at 1. unfold bind at 1. rewrite Hrun. reflexivity.
Qed.

End Delete.

Section DeleteAgain.
Context `{L : Libs}.

Lemma UserService_delete_found (w : World) (id oid : string) (d : User.doc) :
  store_failure w = None ->
  castObjectId (Js.Str id) = Some oid ->
  find (has_id oid) (users w) = Some d ->
  exists w' d',
    UserService_delete id w = (Ok true, w')
    /\ find (has_id oid) (users w') = Some d'
    /\ User.deletedAt d' = Some (now w).
Proof.
  intros H Hcast Hfind. run. rewrite Hcast. cbn. rewrite H. cbn.
  rewrite Hfind. cbn. eexists. eexists. split; [reflexivity |]. cbn.
  split.
  - apply (find_update_first _ _ _ d Hfind).
    unfold has_id. cbn.
    apply String.eqb_eq. exact (find_has_id User._id oid _ d Hfind).
  - reflexivity.
Qed.

Lemma ReservationService_delete_found (w : World) (id oid : string)
  (d : Reservation.doc) :
  store_failure w = None ->
  castObjectId (Js.Str id) = Some oid ->
  find (has_id oid) (reservations w) = Some d ->
  exists w' d',
    ReservationService_delete id w = (Ok true, w')
    /\ find (has_id oid) (reservations w') = Some d'
    /\ Reservation.deletedAt d' = Some (now w).
Proof.
  intros H Hcast Hfind. run. rewrite Hcast. cbn. rewrite H. cbn.
  rewrite Hfind. cbn. eexists. eexists. split; [reflexivity |]. cbn.
  split.
  - apply (find_update_first _ _ _ d Hfind).
    unfold has_id. cbn.
    apply String.eqb_eq. exact (find_has_id Reservation._id oid _ d Hfind).
  - reflexivity.
Qed.

Lemma repeat_DELETE_204 (id oid : string) (times : list Z) :
  castObjectId (Js.Str id) = Some oid ->
  forall (w : World) (d : Restaurant.doc),
    store_failure w = None ->
    find (has_id oid) (restaurants w) = Some d ->
    Forall (fun r => r = Ok [mkResponse 204 Js.Undefined]) (repeat_DELETE id times w).
Proof.
  intros Hcast. induction times as [| t times IH]; intros w d H Hfind; simpl.
  - constructor.
  - destruct (RestaurantController_delete_found (at_time t w) id oid d H Hcast Hfind)
      as (w' & Hrun & Hfind' & H' & _).
    rewrite Hrun. constructor; [reflexivity |].
    exact (IH w' _ H' Hfind').
Qed.

(** C10: for every entity's delete operation, calling delete on the id of a
    record that is already soft-deleted returns true again and overwrites
    the deletedAt timestamp with the current time (shown for the restaurant,
    and the same for the user and the reservation); consequently a repeated
    [DELETE /api/restaurants/:id] on the same existing id is answered 204
    every time, never 404. *)
Theorem delete_again_returns_true_and_overwrites
  (w : World) (id oid : string) (d : Restaurant.doc) (t0 : Z) :
  store_failure w = None ->
  castObjectId (Js.Str id) = Some oid ->
  find (has_id oid) (restaurants w) = Some d ->
  Restaurant.deletedAt d = Some t0 ->
  (exists w' d',
     RestaurantService_delete id w = (Ok true, w')
     /\ find (has_id oid) (restaurants w') = Some d'
     /\ Restaurant.deletedAt d' = Some (now w))
  /\ (forall times : list Z,
        Forall (fun r => r = Ok [mkResponse 204 Js.Undefined])
               (repeat_DELETE id times w))
  /\ (forall (u : User.doc) (t : Z),
        find (has_id oid) (users w) = Some u -> User.deletedAt u = Some t ->
        exists w' u',
          UserService_delete id w = (Ok true, w')
          /\ find (has_id oid) (users w') = Some u'
          /\ User.deletedAt u' = Some (now w))
  /\ (forall (b : Reservation.doc) (t : Z),
        find (has_id oid) (reservations w) = Some b ->
        Reservation.deletedAt b = Some t ->
        exists w' b',
          ReservationService_delete id w = (Ok true, w')
          /\ find (has_id oid) (reservations w') = Some b'
          /\ Reservation.deletedAt b' = Some (now w)).
Proof.
  intros H Hcast Hfind Hdeleted.
  split.
  { destruct (RestaurantService_delete_found w id oid d H Hcast Hfind)
      as (w' & Hrun & Hfind' & _).
    exists w', (deleted_at (now w) d). repeat split; assumption. }
  split.
  { intros times. exact (repeat_DELETE_204 id oid times Hcast w d H Hfind). }
  split.
  { intros u t Hu _. exact (UserService_delete_found w id oid u H Hcast Hu). }
  intros b t Hb _. exact (ReservationService_delete_found w id oid b H Hcast Hb).
Qed.

End DeleteAgain.

Lemma delete_again_returns_true_and_overwrites_witness :
  fst (RestaurantService_delete (L := Reference.libs)
         "65f0000000000000000000a1" sample) = Ok true
  /\ repeat_DELETE (L := Reference.libs) "65f0000000000000000000a1" [2000; 3000; 4000]
       sample
     = [Ok [mkResponse 204 Js.Undefined]; Ok [mkResponse 204 Js.Undefined];
        Ok [mkResponse 204 Js.Undefined]].
Proof.
  destruct (delete_again_returns_true_and_overwrites (L := Reference.libs)
              sample "65f0000000000000000000a1" "65f0000000000000000000a1" r1 500)
    as ((w' & d' & Hrun & _) & Hrepeat & _);
    [reflexivity | reflexivity | reflexivity | reflexivity |].
  split; [rewrite Hrun; reflexivity | reflexivity].
Defined.

Example delete_overwrites_timestamp :
  option_map Restaurant.deletedAt
    (find (fun d => (Restaurant._id d =? "65f0000000000000000000a1")%string)
       (restaurants (snd (RestaurantService_delete (L := Reference.libs)
                            "65f0000000000000000000a1" sample))))
  = Some (Some 1000).
Proof. reflexivity. Qed.

(** ** Creating a reservation *)

Section ReservationCreate.
Context `{L : Libs}.

Lemma findById_user (id : Js.val) (w : World) :
  snd (findById (D := User.doc) id w) = logged (UserModel, "findById") w
  /\ forall call,
       fst (findById (D := User.doc) id (logged call w))
       = fst (findById (D := User.doc) id w).
Proof.
  run; unfold logged; cbn.
  destruct id; try destruct (castObjectId _); cbn;
    destruct (store_failure w); cbn; split; reflexivity.
Qed.

Lemma findById_restaurant (id : Js.val) (w : World) :
  snd (findById (D := Restaurant.doc) id w) = logged (RestaurantModel, "findById") w
  /\ forall call,
       fst (findById (D := Restaurant.doc) id (logged call w))
       = fst (findById (D := Restaurant.doc) id w).
Proof.
  run; unfold logged; cbn.
  destruct id; try destruct (castObjectId _); cbn;
    destruct (store_failure w); cbn; split; reflexivity.
Qed.

(** The service, by the answers of its two lookups. *)
Lemma ReservationService_create_by_lookups (input : Js.val) (w : World) :
  ReservationService_create input w
  = match fst (findById (D := User.doc) (Js.get input "userId") w) with
    | Throw e => (Throw e, logged (UserModel, "findById") w)
    | Ok None =>
        (Throw (mkError ReferenceError "User not found"),
         logged (UserModel, "findById") w)
    | Ok (Some _) =>
        let w1 := logged (UserModel, "findById") w in
        match fst (findById (D := Restaurant.doc) (Js.get input "restaurantId") w) with
        | Throw e => (Throw e, logged (RestaurantModel, "findById") w1)
        | Ok None =>
            (Throw (mkError ReferenceError "Restaurant not found"),
             logged (RestaurantModel, "findById") w1)
        | Ok (Some _) => create input (logged (RestaurantModel, "findById") w1)
        end
    end.
Proof.
  unfold ReservationService_create. unfold bind at 1.
  destruct (findById_user (Js.get input "userId") w) as [Hw _].
  destruct (findById (D := User.doc) (Js.get input "userId") w) as [r w1] eqn:E.
  cbn [fst snd] in *. subst w1.
  destruct r as [[u |] | e]; cbn [is_null]; try reflexivity.
  unfold bind at 1.
  destruct (findById_restaurant (Js.get input "restaurantId")
              (logged (UserModel, "findById") w)) as [Hw Hr].
  rewrite <- (proj2 (findById_restaurant (Js.get input "restaurantId") w)
                (UserModel, "findById")).
  destruct (findById (D := Restaurant.doc) (Js.get input "restaurantId")
              (logged (UserModel, "findById") w)) as [r w2] eqn:E2.
  cbn [fst snd] in *. subst w2.
  destruct r as [[r |] | e]; reflexivity.
Qed.

(** C6: for every reservation create input, if the referenced user id does
    not exist (the lookup of the user answers null) the operation fails
    with the user-not-found error and the restaurant is never consulted:
    the only model call made is [UserModel.findById]; if the user exists but
    the restaurant does not, it fails with the restaurant-not-found error;
    in either case no reservation record is created. *)
Theorem ReservationService_create_user_then_restaurant
  (input : Js.val) (w : World) :
  (fst (findById (D := User.doc) (Js.get input "userId") w) = Ok None ->
   fst (ReservationService_create input w)
   = Throw (mkError ReferenceError "User not found")
   /\ calls (snd (ReservationService_create input w))
      = (calls w ++ [(UserModel, "findById")])%list
   /\ reservations (snd (ReservationService_create input w)) = reservations w)
  /\ (forall u : User.doc,
        fst (findById (D := User.doc) (Js.get input "userId") w) = Ok (Some u) ->
        fst (findById (D := Restaurant.doc) (Js.get input "restaurantId") w) = Ok None ->
        fst (ReservationService_create input w)
        = Throw (mkError ReferenceError "Restaurant not found")
        /\ calls (snd (ReservationService_create input w))
           = (calls w ++ [(UserModel, "findById"); (RestaurantModel, "findById")])%list
        /\ reservations (snd (ReservationService_create input w)) = reservations w).
Proof.
  rewrite ReservationService_create_by_lookups. split.
  - intros Hu. rewrite Hu. cbn. repeat split.
  - intros u Hu Hr. rewrite Hu, Hr. cbn. rewrite <- app_assoc. repeat split.
Qed.

End ReservationCreate.

Lemma ReservationService_create_user_then_restaurant_witness :
  fst (ReservationService_create (L := Reference.libs)
         (booking "65f0000000000000000000ff" "65f0000000000000000000a2") sample)
  = Throw (mkError ReferenceError "User not found")
  /\ calls (snd (ReservationService_create (L := Reference.libs)
                   (booking "65f0000000000000000000ff" "65f0000000000000000000a2")
                   sample))
     = [(UserModel, "findById")]
  /\ fst (ReservationService_create (L := Reference.libs)
            (booking "65f000000000000000000001" "65f0000000000000000000ff") sample)
     = Throw (mkError ReferenceError "Restaurant not found").
Proof.
  destruct (ReservationService_create_user_then_restaurant (L := Reference.libs)
              (booking "65f0000000000000000000ff" "65f0000000000000000000a2") sample)
    as [Huser _].
  destruct (ReservationService_create_user_then_restaurant (L := Reference.libs)
              (booking "65f000000000000000000001" "65f0000000000000000000ff") sample)
    as [_ Hrestaurant].
  destruct (Huser eq_refl) as (H1 & H2 & _).
  destruct (Hrestaurant
              (User.mk "65f000000000000000000001" "Alicia" "alicia@acme.dev"
                       None ["user"] None 0 0)
              eq_refl eq_refl) as (H3 & _).
  split; [exact H1 |]. split; [exact H2 | exact H3].
Defined.

Example ReservationService_create_succeeds :
  exists d : Reservation.doc,
    fst (ReservationService_create (L := Reference.libs)
           (booking "65f000000000000000000001" "65f0000000000000000000a2") sample)
    = Ok d
    /\ reservations
         (snd (ReservationService_create (L := Reference.libs)
                 (booking "65f000000000000000000001" "65f0000000000000000000a2")
                 sample))
       = [b1; b2; d].
Proof. eexists. split; reflexivity. Qed.

(** ** The create controllers on a domain existence error *)

Section CreateControllers.
Context `{L : Libs}.

(** C4 fails on the code: when the service throws the domain existence
    error (a ReferenceError), the create handlers of the restaurant and of
    the reservation controller answer 400 with the short message and then,
    for want of a [return], go on to answer 500 with the raw error: two
    calls on the response, not one. *)
Theorem create_controllers_answer_400_then_500
  (w : World) (body : Js.val) (e : JsError) :
  instanceof_ReferenceError e = true ->
  (fst (RestaurantService_create body w) = Throw e ->
   fst (RestaurantController_create body w)
   = Ok [mkResponse 400 (message_body "Restaurant already exist");
         mkResponse 500 (Js.Exn e)])
  /\ (fst (ReservationService_create body w) = Throw e ->
      fst (ReservationController_create body w)
      = Ok [mkResponse 400 (message_body "Restaurant or User not found");
            mkResponse 500 (Js.Exn e)]).
Proof.
  intros He. split; intros Hthrow.
  - unfold RestaurantController_create, try_catch, bind.
    destruct (RestaurantService_create body w) as [r w'].
    cbn [fst] in Hthrow. subst r. unfold ret. rewrite He. reflexivity.
  - unfold ReservationController_create, try_catch, bind.
    destruct (ReservationService_create body w) as [r w'].
    cbn [fst] in Hthrow. subst r. unfold ret. rewrite He. reflexivity.
Qed.

End CreateControllers.

Lemma create_controllers_answer_400_then_500_witness :
  fst (RestaurantController_create (L := Reference.libs) (new_restaurant "900456") sample)
  = Ok [mkResponse 400 (message_body "Restaurant already exist");
        mkResponse 500 (Js.Exn (mkError ReferenceError "Restaurant already exist"))]
  /\ fst (ReservationController_create (L := Reference.libs)
            (booking "65f0000000000000000000ff" "65f0000000000000000000a2") sample)
     = Ok [mkResponse 400 (message_body "Restaurant or User not found");
           mkResponse 500 (Js.Exn (mkError ReferenceError "User not found"))].
Proof.
  split.
  - apply (create_controllers_answer_400_then_500 (L := Reference.libs) sample
             (new_restaurant "900456")
             (mkError ReferenceError "Restaurant already exist"));
      reflexivity.
  - apply (create_controllers_answer_400_then_500 (L := Reference.libs) sample
             (booking "65f0000000000000000000ff" "65f0000000000000000000a2")
             (mkError ReferenceError "User not found"));
      reflexivity.
Defined.

Example RestaurantController_create_201 :
  exists d : Restaurant.doc,
    fst (RestaurantController_create (L := Reference.libs) (new_restaurant "900789") sample)
    = Ok [mkResponse 201 (restaurant_json d)]
    /\ Restaurant.nit d = "900789".
Proof. eexists. split; reflexivity. Qed.

(** ** Validation of a reservation *)

Lemma assoc_set_get (k k' : string) (x : Js.val) (props : list (string * Js.val)) :
  Js.assoc k' (Js.assoc_set k x props)
  = if (k' =? k)%string then x else Js.assoc k' props.
Proof.
  induction props as [| [k0 v0] props IH]; simpl.
  - destruct (k' =? k)%string; reflexivity.
  - destruct (k =? k0)%string eqn:E; simpl.
    + apply String.eqb_eq in E. subst k0.
      destruct (k' =? k)%string; reflexivity.
    + rewrite IH. destruct (k' =? k0)%string eqn:E'; [| reflexivity].
      apply String.eqb_eq in E'. subst k0.
      rewrite String.eqb_sym, E. reflexivity.
Qed.

Lemma get_set (b : Js.val) (k k' : string) (x : Js.val) :
  (k' =? k)%string = false -> Js.get (Js.set b k x) k' = Js.get b k'.
Proof.
  intros Hne. destruct b; try reflexivity. simpl.
  rewrite assoc_set_get, Hne. reflexivity.
Qed.

Section ReservationValidation.
Context `{L : Libs}.

(** The steps of a chain read and write the field of the chain only. *)
Lemma run_steps_other (path : string) (ss : list Step) (b : Js.val) (k : string) :
  (k =? path)%string = false ->
  Js.get (fst (run_steps path ss b)) k = Js.get b k.
Proof.
  intros Hne. revert b. induction ss as [| s ss IH]; intros b; [reflexivity |].
  destruct s as [f | p msg]; simpl.
  - rewrite IH. apply get_set, Hne.
  - specialize (IH b). destruct (run_steps path ss b) as [b' errors].
    destruct (p _); exact IH.
Qed.

Lemma run_chain_other (c : Chain) (b : Js.val) (k : string) :
  (k =? field c)%string = false ->
  Js.get (fst (run_chain c b)) k = Js.get b k.
Proof.
  intros Hne. unfold run_chain.
  destruct (optional c && is_undefined (Js.get b (field c))); [reflexivity |].
  apply run_steps_other, Hne.
Qed.

Lemma run_chains_other (cs : list Chain) (b : Js.val) (k : string) :
  forallb (fun c => negb (k =? field c)%string) cs = true ->
  Js.get (fst (run_chains cs b)) k = Js.get b k.
Proof.
  revert b. induction cs as [| c cs IH]; intros b Hks; [reflexivity |].
  simpl in Hks. apply andb_prop in Hks. destruct Hks as [Hk Hks].
  apply negb_true_iff in Hk. simpl.
  pose proof (run_chain_other c b k Hk) as Hc.
  destruct (run_chain c b) as [b' errors]. simpl in Hc.
  specialize (IH b' Hks).
  destruct (run_chains cs b') as [b'' errors']. simpl in *. congruence.
Qed.

End ReservationValidation.

Lemma get_set_full (b : Js.val) (k k' : string) (x : Js.val) :
  Js.get (Js.set b k x) k'
  = if Js.isObject b
    then if (k' =? k)%string then x else Js.get b k'
    else Js.Undefined.
Proof.
  destruct b; try reflexivity. simpl. apply assoc_set_get.
Qed.

Lemma isObject_set (b : Js.val) (k : string) (x : Js.val) :
  Js.isObject (Js.set b k x) = Js.isObject b.
Proof. destruct b; reflexivity. Qed.

Section ValidationFrame.
Context `{L : Libs}.
Variable key : string.

Lemma same_but_key_set (b1 b2 : Js.val) (path : string) (x : Js.val) :
  same_but_key key b1 b2 -> same_but_key key (Js.set b1 path x) (Js.set b2 path x).
Proof.
  intros [Hobj Hget]. split.
  - rewrite !isObject_set. exact Hobj.
  - intros k Hk. rewrite !get_set_full, Hobj, (Hget k Hk). reflexivity.
Qed.

Lemma run_steps_frame (path : string) (ss : list Step) :
  (path =? key)%string = false ->
  forall b1 b2,
    same_but_key key b1 b2 ->
    same_but_key key (fst (run_steps path ss b1)) (fst (run_steps path ss b2))
    /\ snd (run_steps path ss b1) = snd (run_steps path ss b2).
Proof.
  intros Hpath. induction ss as [| s ss IH]; intros b1 b2 Hsame.
  - split; [exact Hsame | reflexivity].
  - destruct s as [f | p msg]; simpl.
    + apply IH. rewrite (proj2 Hsame path Hpath).
      apply same_but_key_set, Hsame.
    + destruct (IH b1 b2 Hsame) as [Hb He].
      rewrite (proj2 Hsame path Hpath).
      destruct (run_steps path ss b1) as [b1' e1].
      destruct (run_steps path ss b2) as [b2' e2].
      simpl in *. subst e2.
      destruct (p _); split; simpl; try assumption; reflexivity.
Qed.

Lemma run_chains_frame (cs : list Chain) :
  forallb (fun c => negb (field c =? key)%string) cs = true ->
  forall b1 b2,
    same_but_key key b1 b2 ->
    snd (run_chains cs b1) = snd (run_chains cs b2).
Proof.
  induction cs as [| c cs IH]; intros Hcs b1 b2 Hsame; [reflexivity |].
  simpl in Hcs. apply andb_prop in Hcs. destruct Hcs as [Hc Hcs].
  apply negb_true_iff in Hc. simpl.
  assert (Hstep : same_but_key key (fst (run_chain c b1)) (fst (run_chain c b2))
                  /\ snd (run_chain c b1) = snd (run_chain c b2)).
  { unfold run_chain. rewrite (proj2 Hsame (field c) Hc).
    destruct (optional c && is_undefined (Js.get b2 (field c))).
    - split; [exact Hsame | reflexivity].
    - apply run_steps_frame; assumption. }
  destruct Hstep as [Hb He].
  destruct (run_chain c b1) as [b1' e1]. destruct (run_chain c b2) as [b2' e2].
  simpl in *. subst e2.
  specialize (IH Hcs b1' b2' Hb).
  destruct (run_chains cs b1') as [b1'' e1']. destruct (run_chains cs b2') as [b2'' e2'].
  simpl in *. subst e2'. reflexivity.
Qed.

Lemma set_same_but_key (b : Js.val) (v : Js.val) : same_but_key key (Js.set b key v) b.
Proof.
  split; [apply isObject_set |].
  intros k Hk. apply get_set, Hk.
Qed.

End ValidationFrame.

(** ** A malformed reference id in POST /api/reservations *)

Section MalformedReference.
Context `{L : Libs}.

Lemma findById_malformed_user (v : Js.val) (w : World) :
  malformed_id v = true ->
  fst (findById (D := User.doc) v w) = Throw cast_failure.
Proof.
  intros H. run. destruct v; simpl in H; try discriminate;
    destruct (castObjectId _); try discriminate; reflexivity.
Qed.

Lemma findById_malformed_restaurant (v : Js.val) (w : World) :
  malformed_id v = true ->
  fst (findById (D := Restaurant.doc) v w) = Throw cast_failure.
Proof.
  intros H. run. destruct v; simpl in H; try discriminate;
    destruct (castObjectId _); try discriminate; reflexivity.
Qed.

(** A request that passes the validation reaches the controller with its
    reference ids as the client sent them. *)
Lemma post_reservation_validated (body : Js.val) (w : World) :
  snd (run_chains reservationValidations_create body) = [] ->
  exists body',
    post_reservation body w = ReservationController_create body' w
    /\ Js.get body' "userId" = Js.get body "userId"
    /\ Js.get body' "restaurantId" = Js.get body "restaurantId".
Proof.
  intros Hvalid. unfold post_reservation, validate.
  pose proof (run_chains_other reservationValidations_create body "userId" eq_refl) as Hu.
  pose proof (run_chains_other reservationValidations_create body "restaurantId" eq_refl)
    as Hr.
  destruct (run_chains reservationValidations_create body) as [body' errors].
  simpl in Hvalid, Hu, Hr. subst errors.
  exists body'. repeat split; assumption.
Qed.

(** C9: for every [POST /api/reservations] request, no validation rule
    checks the restaurantId and userId body fields (the rules are on date,
    hour, userQuantity and status, and the validation errors are the same
    whatever these two fields hold), so a request with a malformed
    reference id passes the validation, reaches the [findById] lookup of
    the service, and the cast error of the lookup is answered with status
    500 and the raw error, not with a 400 validation failure: for a
    malformed userId, and for a malformed restaurantId once the user is
    found. *)
Theorem post_reservation_malformed_reference_500 (body : Js.val) (w : World) :
  map field reservationValidations_create = ["date"; "hour"; "userQuantity"; "status"]
  /\ (forall v,
        snd (run_chains reservationValidations_create (Js.set body "userId" v))
        = snd (run_chains reservationValidations_create body)
        /\ snd (run_chains reservationValidations_create (Js.set body "restaurantId" v))
           = snd (run_chains reservationValidations_create body))
  /\ (snd (run_chains reservationValidations_create body) = [] ->
      malformed_id (Js.get body "userId") = true ->
      fst (post_reservation body w)
      = Ok [mkResponse 500 (Js.Exn (mkError CastError "Cast failed for path _id"))]
      /\ calls (snd (post_reservation body w))
         = (calls w ++ [(UserModel, "findById")])%list)
  /\ (forall u : User.doc,
        snd (run_chains reservationValidations_create body) = [] ->
        fst (findById (D := User.doc) (Js.get body "userId") w) = Ok (Some u) ->
        malformed_id (Js.get body "restaurantId") = true ->
        fst (post_reservation body w)
        = Ok [mkResponse 500 (Js.Exn (mkError CastError "Cast failed for path _id"))]
        /\ calls (snd (post_reservation body w))
           = (calls w ++ [(UserModel, "findById"); (RestaurantModel, "findById")])%list).
Proof.
  split; [reflexivity |].
  split.
  { intros v. split.
    - apply (run_chains_frame "userId"); [reflexivity | apply set_same_but_key].
    - apply (run_chains_frame "restaurantId"); [reflexivity | apply set_same_but_key]. }
  split.
  { intros Hvalid Hbad.
    destruct (post_reservation_validated body w Hvalid) as (body' & -> & Hu & _).
    unfold ReservationController_create, try_catch, bind.
    rewrite ReservationService_create_by_lookups, Hu.
    rewrite (findById_malformed_user _ w Hbad). cbn. split; reflexivity. }
  intros u Hvalid Hfound Hbad.
  destruct (post_reservation_validated body w Hvalid) as (body' & -> & Hu & Hr).
  unfold ReservationController_create, try_catch, bind.
  rewrite ReservationService_create_by_lookups, Hu, Hr, Hfound.
  rewrite (findById_malformed_restaurant _ w Hbad). cbn.
  rewrite <- app_assoc. split; reflexivity.
Qed.

End MalformedReference.

Lemma post_reservation_malformed_reference_500_witness :
  snd (run_chains (L := Reference.libs)
         (reservationValidations_create (L := Reference.libs))
         (booking "not-an-id" "65f0000000000000000000a2")) = []
  /\ fst (post_reservation (L := Reference.libs)
            (booking "not-an-id" "65f0000000000000000000a2") sample)
     = Ok [mkResponse 500 (Js.Exn (mkError CastError "Cast failed for path _id"))]
  /\ fst (post_reservation (L := Reference.libs)
            (booking "65f000000000000000000001" "42") sample)
     = Ok [mkResponse 500 (Js.Exn (mkError CastError "Cast failed for path _id"))].
Proof.
  destruct (post_reservation_malformed_reference_500 (L := Reference.libs)
              (booking "not-an-id" "65f0000000000000000000a2") sample)
    as (_ & _ & Huser & _).
  destruct (post_reservation_malformed_reference_500 (L := Reference.libs)
              (booking "65f000000000000000000001" "42") sample)
    as (_ & _ & _ & Hrestaurant).
  split; [reflexivity |].
  split.
  - apply Huser; reflexivity.
  - apply (Hrestaurant
             (User.mk "65f000000000000000000001" "Alicia" "alicia@acme.dev"
                      None ["user"] None 0 0));
      reflexivity.
Defined.

Example post_reservation_validation_400 :
  fst (post_reservation (L := Reference.libs)
         (Js.Obj [("date", Js.Str "tomorrow"); ("hour", Js.Str "07:30PM");
                  ("restaurantId", Js.Str "42"); ("userId", Js.Str "not-an-id");
                  ("userQuantity", Js.Str "2"); ("status", Js.Str "pending")])
         sample)
  = Ok [mkResponse 400
          (Js.Obj [("message", Js.Str "Validation errors");
                   ("errors",
                    Js.Arr [Js.Obj [("field", Js.Str "date");
                                    ("message", Js.Str "Date must be a valid date");
                                    ("value", Js.Str "tomorrow")]])])].
Proof. reflexivity. Qed.

(** ** Login *)

Section Login.
Context `{L : Libs}.

(** C8: for every login request, the stored users and the comparison of
    the password decide the answer.  The user is the first stored one the
    email of the body selects, soft-deleted or not.  With correct
    credentials (bcrypt matches the password of the body with the stored
    hash) the answer is 200 with the body [{token: {id, roles, token}}], the
    token string, signed for the id and the roles of the user, nested under
    the outer [token] key; with an unknown email or a password that does
    not match it is 401 with the body [{message: "Not Authorized"}], which
    has no token field; any other failure (a body that is undefined or
    null, an email the filter cannot be cast from, an unreachable store, a
    user without a stored password, a rejection by bcrypt) is 500 with the
    fixed body [{message: "Internal server error"}], not the raw error.
    Each time the handler answers once. *)
Theorem AuthController_login_answers (body : Js.val) (w : World) :
  fst (AuthController_login body w)
  = Ok [ match body with
         | Js.Undefined | Js.Null =>
             mkResponse 500 (Js.Obj [("message", Js.Str "Internal server error")])
         | _ =>
             match pathFilterString (Js.get body "email"), store_failure w with
             | Some selects, None =>
                 match find (fun user => selects (User.email user)) (users w) with
                 | Some user =>
                     match User.password user with
                     | Some hash =>
                         match bcrypt_compare (Js.get body "password") hash with
                         | Some true =>
                             mkResponse 200
                               (Js.Obj
                                  [("token",
                                    Js.Obj
                                      [("id", Js.Str (User._id user));
                                       ("roles", Js.Arr (map Js.Str (User.roles user)));
                                       ("token",
                                        Js.Str
                                          (jwt_sign
                                             (Js.Obj
                                                [("id", Js.Str (User._id user));
                                                 ("roles",
                                                  Js.Arr (map Js.Str (User.roles user)))])
                                             (Js.or_default (JWT_SECRET w) "defaultSecret")
                                             3600 (now w)))])])
                         | Some false =>
                             mkResponse 401 (Js.Obj [("message", Js.Str "Not Authorized")])
                         | None =>
                             mkResponse 500
                               (Js.Obj [("message", Js.Str "Internal server error")])
                         end
                     | None =>
                         mkResponse 500
                           (Js.Obj [("message", Js.Str "Internal server error")])
                     end
                 | None => mkResponse 401 (Js.Obj [("message", Js.Str "Not Authorized")])
                 end
             | _, _ =>
                 mkResponse 500 (Js.Obj [("message", Js.Str "Internal server error")])
             end
         end ]
  /\ (forall email : string,
        Js.get body "email" = Js.Str email ->
        pathFilterString (Js.get body "email") = Some (String.eqb email))
  /\ Js.get (Js.Obj [("message", Js.Str "Not Authorized")]) "token" = Js.Undefined.
Proof.
  split; [| split; [intros email ->; reflexivity | reflexivity]].
  unfold AuthController_login, AuthService_login, AuthService_generateToken,
    bcrypt_compare_, message_body, defaultSecret, token_payload, read.
  run.
  destruct body; cbn -[pathFilterString]; try reflexivity;
    (match goal with
     | |- context [pathFilterString ?e] => destruct (pathFilterString e) as [p |]
     end; cbn; [| reflexivity]);
    (destruct (store_failure w); cbn; [reflexivity |]);
    (destruct (find _ (users w)) as [user |]; cbn; [| reflexivity]);
    (destruct (User.password user) as [hash |]; cbn; [| reflexivity]);
    (match goal with
     | |- context [bcrypt_compare ?x hash] =>
         destruct (bcrypt_compare x hash) as [[|] |]
     end; reflexivity).
Qed.

End Login.

Lemma AuthController_login_answers_witness :
  fst (AuthController_login (L := Reference.libs)
         (Js.Obj [("email", Js.Str "alicia@acme.dev"); ("password", Js.Str "Secret123")])
         sample)
  = Ok [mkResponse 200
          (Js.Obj
             [("token",
               Js.Obj [("id", Js.Str "65f000000000000000000001");
                       ("roles", Js.Arr [Js.Str "user"]);
                       ("token",
                        Js.Str (Reference.jwt_sign (token_payload u1) "defaultSecret"
                                  3600 1000))])])]
  /\ @pathFilterString Reference.libs (Js.Str "alicia@acme.dev")
     = Some (String.eqb "alicia@acme.dev").
Proof.
  destruct (AuthController_login_answers (L := Reference.libs)
              (Js.Obj [("email", Js.Str "alicia@acme.dev");
                       ("password", Js.Str "Secret123")])
              sample)
    as (Hanswer & Hemail & _).
  split; [exact Hanswer | exact (Hemail "alicia@acme.dev" eq_refl)].
Defined.

Example login_200 :
  fst (AuthController_login (L := Reference.libs)
         (Js.Obj [("email", Js.Str "alicia@acme.dev"); ("password", Js.Str "Secret123")])
         sample)
  = Ok [mkResponse 200
          (Js.Obj
             [("token",
               Js.Obj [("id", Js.Str "65f000000000000000000001");
                       ("roles", Js.Arr [Js.Str "user"]);
                       ("token",
                        Js.Str (Reference.jwt_sign (token_payload u1) "defaultSecret"
                                  3600 1000))])])].
Proof. reflexivity. Qed.

Example login_wrong_password_401 :
  fst (AuthController_login (L := Reference.libs)
         (Js.Obj [("email", Js.Str "alicia@acme.dev"); ("password", Js.Str "secret")])
         sample)
  = Ok [mkResponse 401 (message_body "Not Authorized")].
Proof. reflexivity. Qed.

Example login_unknown_email_401 :
  fst (AuthController_login (L := Reference.libs)
         (Js.Obj [("email", Js.Str "nobody@acme.dev"); ("password", Js.Str "Secret123")])
         sample)
  = Ok [mkResponse 401 (message_body "Not Authorized")].
Proof. reflexivity. Qed.

Example login_missing_body_500 :
  fst (AuthController_login (L := Reference.libs) Js.Undefined sample)
  = Ok [mkResponse 500 (message_body "Internal server error")]
  /\ fst (AuthService_login (L := Reference.libs) Js.Undefined sample)
     = Throw (mkError TypeError "Cannot read properties of undefined (reading 'email')").
Proof. split; reflexivity. Qed.

Example login_store_down_500 :
  fst (AuthController_login (L := Reference.libs)
         (Js.Obj [("email", Js.Str "alicia@acme.dev"); ("password", Js.Str "Secret123")])
         (mkWorld [u1] [] [] 0 O None (Some "connect ECONNREFUSED") []))
  = Ok [mkResponse 500 (message_body "Internal server error")].
Proof. reflexivity. Qed.

(** ** Updating a user *)

Lemma map_update_first {D B : Type} (g : D -> B) (p : D -> bool) (d d' : D) (l : list D) :
  find p l = Some d -> g d' = g d ->
  map g (update_first p (fun _ => d') l) = map g l.
Proof.
  intros Hfind Hg. induction l as [| x l IH]; simpl in *; [reflexivity |].
  destruct (p x).
  - injection Hfind as ->. simpl. rewrite Hg. reflexivity.
  - simpl. rewrite (IH Hfind). reflexivity.
Qed.

Section UserUpdate.
Context `{L : Libs}.

(** A path whose setter leaves [g] alone leaves it alone in the update. *)
Lemma setPath_keeps {D A B : Type} (g : D -> B) (cast : Js.val -> option A)
  (put : A -> D -> D) (v : Js.val) (rest : option (D -> D)) (f : D -> D) :
  (forall a d, g (put a d) = g d) ->
  (forall h, rest = Some h -> forall d, g (h d) = g d) ->
  setPath cast put v rest = Some f ->
  forall d, g (f d) = g d.
Proof.
  intros Hput Hrest Hset d. unfold setPath in Hset.
  assert (Hcase : rest = Some f
                  \/ exists a h, rest = Some h /\ f = fun d => put a (h d)).
  { destruct v; try (left; exact Hset);
      destruct (cast _) as [a |]; try discriminate;
      destruct rest as [h |]; try discriminate;
      injection Hset as <-; right; exists a, h; split; reflexivity. }
  destruct Hcase as [Hf | (a & h & Hh & ->)].
  - exact (Hrest f Hf d).
  - rewrite Hput. exact (Hrest h Hh d).
Qed.

Lemma user_paths_credentials (u : Js.val) (f : User.doc -> User.doc) :
  Js.get u "roles" = Js.Undefined ->
  Js.get u "password" = Js.Undefined ->
  user_paths u = Some f ->
  forall d, (credentials (f d), User._id (f d)) = (credentials d, User._id d).
Proof.
  intros Hroles Hpassword Hcast.
  unfold user_paths in Hcast.
  rewrite Hroles, Hpassword in Hcast. cbn [setPath] in Hcast.
  revert Hcast.
  apply (setPath_keeps (fun d => (credentials d, User._id d))); [reflexivity |].
  intros h.
  apply (setPath_keeps (fun d => (credentials d, User._id d))); [reflexivity |].
  intros h'.
  apply (setPath_keeps (fun d => (credentials d, User._id d))); [reflexivity |].
  intros h'' [= <-]. reflexivity.
Qed.

(** On an update document of plain keys the cast is that of its paths. *)
Lemma cast_update_plain {D : Type} (operators : Js.val -> option (D -> D))
  (keep : D -> D -> D) (paths : Js.val -> option (D -> D)) (u : Js.val) (f : D -> D) :
  plain_update u = true ->
  cast_update operators keep paths u = Some f ->
  paths u = Some f.
Proof.
  unfold cast_update. intros ->.
  destruct (paths u) as [h |]; [| discriminate].
  intros [= <-]. reflexivity.
Qed.

(** In every update that goes through, the paths of the plain keys are set
    last, on a document that has the [_id] it had. *)
Lemma cast_update_paths {D : Type} (operators : Js.val -> option (D -> D))
  (keep : D -> D -> D) (paths : Js.val -> option (D -> D)) (u : Js.val) (f : D -> D) :
  cast_update operators keep paths u = Some f ->
  exists h, paths u = Some h
            /\ forall d, f d = h d \/ exists d', f d = h (keep d d').
Proof.
  unfold cast_update.
  destruct (paths u) as [h |]; [| discriminate].
  destruct (plain_update u).
  - intros [= <-]. exists h. split; [reflexivity |]. intros d. left. reflexivity.
  - destruct (operators u) as [g |]; [| discriminate].
    intros [= <-]. exists h. split; [reflexivity |].
    intros d. right. exists (g d). reflexivity.
Qed.

Lemma UserService_update_credentials (id : string) (body : Js.val) (w : World) :
  plain_update body = true ->
  Js.get body "roles" = Js.Undefined ->
  Js.get body "password" = Js.Undefined ->
  map credentials (users (snd (UserService_update id body w)))
  = map credentials (users w).
Proof.
  intros Hplain Hroles Hpassword. run.
  destruct (castObjectId (Js.Str id)) as [oid |]; cbn; [| reflexivity].
  destruct (user_castUpdate body) as [f |] eqn:Hcast; cbn; [| reflexivity].
  destruct (store_failure w); cbn; [reflexivity |].
  destruct (find (has_id oid) (users w)) as [d |] eqn:Hfind; cbn; [| reflexivity].
  apply (map_update_first credentials _ d _ _ Hfind).
  apply cast_update_plain in Hcast; [| exact Hplain].
  pose proof (user_paths_credentials body f Hroles Hpassword Hcast d) as Hkeep.
  assert (Hcred : credentials (f d) = credentials d) by congruence.
  exact Hcred.
Qed.

(** Writing a plain key leaves an update document as plain as it was. *)
Lemma plain_update_set (b : Js.val) (k : string) (x : Js.val) :
  plain_key k = true -> plain_update (Js.set b k x) = plain_update b.
Proof.
  intros Hk. destruct b as [| | | | | | | | props]; try reflexivity. cbn.
  induction props as [| [k0 v0] props IH]; cbn.
  - rewrite Hk. reflexivity.
  - destruct (k =? k0)%string eqn:E; cbn.
    + apply String.eqb_eq in E. subst k0. reflexivity.
    + rewrite IH. reflexivity.
Qed.

Lemma run_steps_plain (path : string) (ss : list Step) (b : Js.val) :
  plain_key path = true ->
  plain_update (fst (run_steps path ss b)) = plain_update b.
Proof.
  intros Hk. revert b. induction ss as [| s ss IH]; intros b; [reflexivity |].
  destruct s as [f | p msg]; simpl.
  - rewrite IH. apply plain_update_set, Hk.
  - specialize (IH b). destruct (run_steps path ss b) as [b' errors].
    destruct (p _); exact IH.
Qed.

Lemma run_chains_plain (cs : list Chain) (b : Js.val) :
  forallb (fun c => plain_key (field c)) cs = true ->
  plain_update (fst (run_chains cs b)) = plain_update b.
Proof.
  revert b. induction cs as [| c cs IH]; intros b Hks; [reflexivity |].
  simpl in Hks. apply andb_prop in Hks. destruct Hks as [Hk Hks]. simpl.
  assert (Hc : plain_update (fst (run_chain c b)) = plain_update b).
  { unfold run_chain.
    destruct (optional c && is_undefined (Js.get b (field c))); [reflexivity |].
    apply run_steps_plain, Hk. }
  destruct (run_chain c b) as [b' errors]. simpl in Hc.
  specialize (IH b' Hks).
  destruct (run_chains cs b') as [b'' errors']. simpl in *. congruence.
Qed.

(** C2, as the code has it: the update path does not restrict the request
    body to name and email.  The validation has rules for name and email
    only and answers the same whatever the body holds under roles, password
    or an update operator such as $set, and the service hands the whole
    body to [findOneAndUpdate]; the roles and password of the stored users
    are unchanged by an update request whose body is an object of plain
    keys (none is an update operator or a dotted path) that carries
    neither a roles nor a password property. *)
Theorem put_user_keeps_credentials_without_them_in_body
  (id : string) (body : Js.val) (w : World) :
  map field userValidations_update = ["name"; "email"]
  /\ (forall v,
        snd (run_chains userValidations_update (Js.set body "roles" v))
        = snd (run_chains userValidations_update body)
        /\ snd (run_chains userValidations_update (Js.set body "password" v))
           = snd (run_chains userValidations_update body)
        /\ snd (run_chains userValidations_update (Js.set body "$set" v))
           = snd (run_chains userValidations_update body))
  /\ (plain_update body = true ->
      Js.get body "roles" = Js.Undefined ->
      Js.get body "password" = Js.Undefined ->
      map credentials (users (snd (put_user id body w)))
      = map credentials (users w)).
Proof.
  split; [reflexivity |].
  split.
  { intros v. split; [| split].
    - apply (run_chains_frame "roles"); [reflexivity | apply set_same_but_key].
    - apply (run_chains_frame "password"); [reflexivity | apply set_same_but_key].
    - apply (run_chains_frame "$set"); [reflexivity | apply set_same_but_key]. }
  intros Hplain Hroles Hpassword. unfold put_user, validate.
  pose proof (run_chains_other userValidations_update body "roles" eq_refl) as Hr.
  pose proof (run_chains_other userValidations_update body "password" eq_refl) as Hp.
  pose proof (run_chains_plain userValidations_update body eq_refl) as Hpl.
  destruct (run_chains userValidations_update body) as [body' errors].
  simpl in Hr, Hp, Hpl. rewrite Hroles in Hr. rewrite Hpassword in Hp.
  rewrite Hplain in Hpl.
  destruct errors as [| e errors]; cbn [handleValidationErrors]; [| reflexivity].
  unfold bind.
  pose proof (UserService_update_credentials id body' w Hpl Hr Hp) as Hkeep.
  destruct (UserService_update id body' w) as [[user | e] w']; exact Hkeep.
Qed.

End UserUpdate.

Lemma put_user_keeps_credentials_without_them_in_body_witness :
  map credentials
    (users (snd (put_user (L := Reference.libs) "65f000000000000000000001"
                   (Js.Obj [("name", Js.Str "Alicia Updated");
                            ("email", Js.Str "alicia.updated@acme.dev")])
                   sample)))
  = map credentials (users sample).
Proof.
  apply (put_user_keeps_credentials_without_them_in_body (L := Reference.libs));
    reflexivity.
Defined.

Example put_user_updates_name_and_email :
  map (fun u => (User.name u, User.email u))
    (users (snd (put_user (L := Reference.libs) "65f000000000000000000001"
                   (Js.Obj [("name", Js.Str "  Alicia Updated ");
                            ("email", Js.Str "alicia.updated@acme.dev")])
                   sample)))
  = [("Alicia Updated", "alicia.updated@acme.dev"); ("Carlos", "admin@example.com")].
Proof. reflexivity. Qed.

(** C2 as stated fails: an update request whose body carries [roles] and
    [password] passes the validation and changes both on the stored user:
    the user [u1], of role "user", becomes an admin with the password of
    the request, stored as sent. *)
Lemma put_user_roles_counterexample :
  map credentials (users sample)
  = [(Some "$2b$10$Secret123", ["user"]); (Some "$2b$10$Carlos123", ["admin"])]
  /\ map credentials
       (users (snd (put_user (L := Reference.libs) "65f000000000000000000001"
                      (Js.Obj [("roles", Js.Arr [Js.Str "admin"]);
                               ("password", Js.Str "plain")])
                      sample)))
     = [(Some "plain", ["admin"]); (Some "$2b$10$Carlos123", ["admin"])]
  /\ exists u,
       fst (put_user (L := Reference.libs) "65f000000000000000000001"
              (Js.Obj [("roles", Js.Arr [Js.Str "admin"]);
                       ("password", Js.Str "plain")])
              sample)
       = Ok (inr (Some u))
       /\ User.roles u = ["admin"].
Proof. split; [| split; [| eexists; split]]; reflexivity. Qed.

(** The same through an update operator: a body that carries neither a
    [roles] nor a [password] property of its own, but a [$set] of both,
    passes the validation and changes both on the stored user. *)
Example put_user_set_operator_changes_credentials :
  let body :=
    Js.Obj [("$set", Js.Obj [("roles", Js.Arr [Js.Str "admin"]);
                             ("password", Js.Str "plain")])] in
  plain_update body = false
  /\ Js.get body "roles" = Js.Undefined
  /\ Js.get body "password" = Js.Undefined
  /\ map credentials
       (users (snd (put_user (L := Reference.libs) "65f000000000000000000001" body
                      sample)))
     = [(Some "plain", ["admin"]); (Some "$2b$10$Carlos123", ["admin"])].
Proof. repeat split. Qed.

(** * More of the application *)

(** ** checkRole, for every role *)

(** X1: [checkRole(role)] lets a request through exactly when the roles of
    its user is an array that holds the role as a string, and then passes
    the user on untouched; every other request is answered 403. *)
Theorem checkRole_grants_exactly_role_holders (r : UserRole) (user : Js.val) :
  (checkRole r user = Next user
   <-> exists items,
         Js.get user "roles" = Js.Arr items
         /\ existsb (Js.is_str (role_name r)) items = true)
  /\ (checkRole r user = Next user
      \/ exists resp, checkRole r user = Answer resp /\ status resp = 403).
Proof.
  unfold checkRole.
  destruct (Js.truthy user) eqn:Htruthy.
  - destruct (Js.get user "roles") as [| | b | n | s | ms | e | items | props] eqn:Hroles;
      cbn;
      try (split;
           [ split; [discriminate | intros (items' & H & _); discriminate]
           | right; eexists; split; reflexivity ]).
    + destruct b; cbn;
        (split;
         [ split; [discriminate | intros (items' & H & _); discriminate]
         | right; eexists; split; reflexivity ]).
    + destruct (negb (n =? 0)); cbn;
        (split;
         [ split; [discriminate | intros (items' & H & _); discriminate]
         | right; eexists; split; reflexivity ]).
    + destruct (negb (s =? "")%string); cbn;
        (split;
         [ split; [discriminate | intros (items' & H & _); discriminate]
         | right; eexists; split; reflexivity ]).
    + destruct (existsb (Js.is_str (role_name r)) items) eqn:Hhas; cbn.
      * split; [| left; reflexivity].
        split; [intros _; exists items; split; [reflexivity | exact Hhas] | reflexivity].
      * split; [| right; eexists; split; reflexivity].
        split; [discriminate |].
        intros (items' & [= <-] & H). congruence.
  - cbn. split; [| right; eexists; split; reflexivity].
    split; [discriminate |].
    intros (items & H & _).
    rewrite (roles_array_is_object user items H) in Htruthy. discriminate.
Qed.

(** ** authMiddleware: more than two fields, doubled space *)

(** X2: of an Authorization header [authMiddleware] reads the second
    space-separated field only: what follows a second space is ignored, and
    a header whose scheme is followed by two spaces has an empty second
    field and is answered 401 "Access denied. No token provided.", whatever
    comes after. *)
Theorem authMiddleware_ignores_trailing_fields `{L : Libs}
  (w : World) (scheme token rest : string) :
  Js.split space scheme = [scheme] ->
  Js.split space token = [token] ->
  authMiddleware w (Some (scheme ++ " " ++ token ++ " " ++ rest))
  = authMiddleware w (Some (scheme ++ " " ++ token))
  /\ authMiddleware w (Some (scheme ++ "  " ++ rest))
     = Answer (mkResponse 401 (message_body "Access denied. No token provided.")).
Proof.
  intros Hscheme Htoken.
  assert (H1 : header_token (Some (scheme ++ " " ++ token ++ " " ++ rest)) = Some token).
  { unfold header_token.
    change (scheme ++ " " ++ token ++ " " ++ rest)
      with (scheme ++ String space (token ++ String space rest)).
    rewrite (split_app space scheme (token ++ String space rest) Hscheme).
    rewrite (split_app space token rest Htoken). reflexivity. }
  assert (H2 : header_token (Some (scheme ++ " " ++ token)) = Some token)
    by (apply header_token_second_field; assumption).
  assert (H3 : header_token (Some (scheme ++ "  " ++ rest)) = Some EmptyString).
  { unfold header_token.
    change (scheme ++ "  " ++ rest) with (scheme ++ String space (String space rest)).
    rewrite (split_app space scheme (String space rest) Hscheme).
    reflexivity. }
  rewrite !authMiddleware_by_token, H1, H2, H3. split; reflexivity.
Qed.

Lemma authMiddleware_ignores_trailing_fields_witness :
  authMiddleware (L := Reference.libs) idle (Some "Bearer abc def")
  = authMiddleware (L := Reference.libs) idle (Some "Bearer abc")
  /\ authMiddleware (L := Reference.libs) idle (Some "Bearer  abc")
     = Answer (mkResponse 401 (message_body "Access denied. No token provided.")).
Proof.
  exact (authMiddleware_ignores_trailing_fields (L := Reference.libs) idle
           "Bearer" "abc" "def" eq_refl eq_refl).
Defined.

Lemma checkRole_grants_exactly_role_holders_witness :
  checkRole USER (Js.Obj [("id", Js.Str "u1"); ("roles", Js.Arr [Js.Str "user"])])
  = Next (Js.Obj [("id", Js.Str "u1"); ("roles", Js.Arr [Js.Str "user"])]).
Proof.
  apply (proj1 (checkRole_grants_exactly_role_holders USER _)).
  exists [Js.Str "user"]. split; reflexivity.
Defined.

(** ** From login to an authorized request *)

Lemma includes_roles (role : string) (roles : list string) :
  existsb (Js.is_str role) (map Js.Str roles) = existsb (String.eqb role) roles.
Proof.
  induction roles as [| r roles IH]; simpl; [reflexivity |].
  rewrite IH. reflexivity.
Qed.

Section LoginThenAccess.
Context `{L : Libs} {J : JwtLaws L}.

(** What a successful login returns. *)
Lemma AuthService_login_ok (body : Js.val) (w : World) (out : UserLoginOutput) :
  fst (AuthService_login body w) = Ok out ->
  out_token out
  = jwt_sign (Js.Obj [("id", Js.Str (out_id out));
                      ("roles", Js.Arr (map Js.Str (out_roles out)))])
             (Js.or_default (JWT_SECRET w) defaultSecret) 3600 (now w).
Proof.
  unfold AuthService_login, AuthService_generateToken, bcrypt_compare_, token_payload,
    read.
  run.
  destruct body; cbn -[pathFilterString]; try discriminate;
    (match goal with
     | |- context [pathFilterString ?e] => destruct (pathFilterString e) as [p |]
     end; cbn; [| discriminate]);
    (destruct (store_failure w); cbn; [discriminate |]);
    (destruct (find _ (users w)) as [user |]; cbn; [| discriminate]);
    (destruct (User.password user) as [hash |]; cbn; [| discriminate]);
    (match goal with
     | |- context [bcrypt_compare ?x hash] =>
         destruct (bcrypt_compare x hash) as [[|] |]
     end; cbn; try discriminate);
    intros [= <-]; reflexivity.
Qed.

(** X3: the token a successful login returns, sent as "Bearer <token>"
    within the hour to a process with the same [JWT_SECRET] setting (set,
    empty or unset), passes [authMiddleware], which attaches claims carrying
    the id of the user; on these claims [checkRole(role)] lets the request
    through exactly when the roles returned by the login hold the role, and
    answers 403 "Access denied." otherwise. *)
Theorem login_token_authorizes_by_roles
  (body : Js.val) (w w' : World) (out : UserLoginOutput) :
  fst (AuthService_login body w) = Ok out ->
  JWT_SECRET w' = JWT_SECRET w ->
  now w' / 1000 < now w / 1000 + 3600 ->
  exists claims,
    authMiddleware w' (Some ("Bearer " ++ out_token out)) = Next claims
    /\ Js.get claims "id" = Js.Str (out_id out)
    /\ forall r : UserRole,
         checkRole r claims
         = if existsb (String.eqb (role_name r)) (out_roles out)
           then Next claims
           else Answer (mkResponse 403 (message_body "Access denied.")).
Proof.
  intros Hlogin Henv Hlive.
  rewrite (AuthService_login_ok body w out Hlogin).
  rewrite authMiddleware_bearer, Henv.
  assert (Hsecret : Js.or_default (JWT_SECRET w) defaultSecret <> EmptyString).
  { unfold Js.or_default. destruct (JWT_SECRET w) as [secret |]; [| discriminate].
    destruct (secret =? "")%string eqn:E; [discriminate |].
    apply String.eqb_neq, E. }
  rewrite (jwt_round_trip (out_id out) (out_roles out) _ 3600 (now w) (now w')
             Hsecret Hlive).
  eexists. split; [reflexivity |]. split; [reflexivity |].
  intros r. unfold checkRole. cbn.
  rewrite includes_roles.
  destruct (existsb (String.eqb (role_name r)) (out_roles out)); reflexivity.
Qed.

End LoginThenAccess.

Lemma login_token_authorizes_by_roles_witness :
  exists out claims,
    fst (AuthService_login (L := Reference.libs)
           (Js.Obj [("email", Js.Str "alicia@acme.dev");
                    ("password", Js.Str "Secret123")])
           sample) = Ok out
    /\ authMiddleware (L := Reference.libs) (at_time 60000 sample)
         (Some ("Bearer " ++ out_token out)) = Next claims
    /\ checkRole USER claims = Next claims
    /\ checkRole ADMIN claims
       = Answer (mkResponse 403 (message_body "Access denied.")).
Proof.
  eexists.
  destruct (login_token_authorizes_by_roles
              (L := Reference.libs) (J := ReferenceFacts.reference_jwt_laws)
              (Js.Obj [("email", Js.Str "alicia@acme.dev");
                       ("password", Js.Str "Secret123")])
              sample (at_time 60000 sample) _ eq_refl eq_refl eq_refl)
    as (claims & Hauth & _ & Hrole).
  exists claims.
  split; [reflexivity |]. split; [exact Hauth |].
  split; [exact (Hrole USER) | exact (Hrole ADMIN)].
Defined.

(** ** Creating a restaurant *)

Lemma find_none_existsb {D : Type} (p : D -> bool) (l : list D) :
  find p l = None <-> existsb p l = false.
Proof.
  induction l as [| x l IH]; simpl; [tauto |].
  destruct (p x); simpl; [split; discriminate | exact IH].
Qed.

Lemma find_app_fresh {D : Type} (p : D -> bool) (l : list D) (d : D) :
  find p l = None -> p d = true -> find p (l ++ [d]) = Some d.
Proof.
  intros Hnone Hd. induction l as [| x l IH]; simpl in *.
  - rewrite Hd. reflexivity.
  - destruct (p x); [discriminate | exact (IH Hnone)].
Qed.

Section RestaurantCreate.
Context `{L : Libs}.

(** X4: creating a restaurant whose nit is the nit of a stored restaurant,
    soft-deleted or not, fails with the error "Restaurant already exist":
    the only model call is [RestaurantModel.exists], and the collection is
    left as it was. *)
Theorem RestaurantService_create_existing_nit
  (input : Js.val) (w : World) (nit : string) (d : Restaurant.doc) :
  store_failure w = None ->
  Js.get input "nit" = Js.Str nit ->
  In d (restaurants w) ->
  Restaurant.nit d = nit ->
  fst (RestaurantService_create input w)
  = Throw (mkError ReferenceError "Restaurant already exist")
  /\ restaurants (snd (RestaurantService_create input w)) = restaurants w
  /\ calls (snd (RestaurantService_create input w))
     = (calls w ++ [(RestaurantModel, "exists")])%list.
Proof.
  intros Hstore Hnit Hin Hd.
  assert (Hex : existsb (fun x => (nit =? Restaurant.nit x)%string) (restaurants w) = true).
  { apply existsb_exists. exists d. split; [exact Hin |].
    apply String.eqb_eq. symmetry. exact Hd. }
  unfold RestaurantService_create. rewrite Hnit. run. rewrite Hstore. cbn.
  rewrite Hex. cbn. repeat split.
Qed.


End RestaurantCreate.

Lemma RestaurantService_create_existing_nit_witness :
  fst (RestaurantService_create (L := Reference.libs) (new_restaurant "900123") sample)
  = Throw (mkError ReferenceError "Restaurant already exist")
  /\ Restaurant.deletedAt r1 = Some 500.
Proof.
  split; [| reflexivity].
  apply (RestaurantService_create_existing_nit (L := Reference.libs)
           (new_restaurant "900123") sample "900123" r1);
    [reflexivity | reflexivity | left; reflexivity | reflexivity].
Defined.


(** ** Updates and soft deletes keep the records *)

Section KeepsRecords.
Context `{L : Libs}.

Lemma user_paths_keeps (u : Js.val) (f : User.doc -> User.doc) :
  user_paths u = Some f ->
  forall d, (User._id (f d), User.createdAt (f d)) = (User._id d, User.createdAt d).
Proof.
  unfold user_paths.
  apply (setPath_keeps (fun d => (User._id d, User.createdAt d))); [reflexivity |].
  intros h1.
  apply (setPath_keeps (fun d => (User._id d, User.createdAt d))); [reflexivity |].
  intros h2.
  apply (setPath_keeps (fun d => (User._id d, User.createdAt d))); [reflexivity |].
  intros h3.
  apply (setPath_keeps (fun d => (User._id d, User.createdAt d))); [reflexivity |].
  intros h4.
  apply (setPath_keeps (fun d => (User._id d, User.createdAt d))); [reflexivity |].
  intros h5 [= <-]. reflexivity.
Qed.

Lemma user_castUpdate_keeps (u : Js.val) (f : User.doc -> User.doc) :
  user_castUpdate u = Some f ->
  forall d, User._id (f d) = User._id d.
Proof.
  intros Hcast d. apply cast_update_paths in Hcast.
  destruct Hcast as (h & Hpaths & Hf).
  pose proof (user_paths_keeps u h Hpaths) as Hkeep.
  destruct (Hf d) as [-> | (d' & ->)].
  - pose proof (Hkeep d). congruence.
  - pose proof (Hkeep (User.mk (User._id d) (User.name d') (User.email d') (User.password d') (User.roles d') (User.deletedAt d') (User.createdAt d') (User.updatedAt d'))) as Hk.
    cbn in Hk. congruence.
Qed.

Lemma user_castUpdate_plain_keeps (u : Js.val) (f : User.doc -> User.doc) :
  plain_update u = true ->
  user_castUpdate u = Some f ->
  forall d, (User._id (f d), User.createdAt (f d)) = (User._id d, User.createdAt d).
Proof.
  intros Hplain Hcast. apply cast_update_plain in Hcast; [| exact Hplain].
  exact (user_paths_keeps u f Hcast).
Qed.

Lemma restaurant_paths_keeps (u : Js.val) (f : Restaurant.doc -> Restaurant.doc) :
  restaurant_paths u = Some f ->
  forall d, (Restaurant._id (f d), Restaurant.createdAt (f d)) = (Restaurant._id d, Restaurant.createdAt d).
Proof.
  unfold restaurant_paths.
  apply (setPath_keeps (fun d => (Restaurant._id d, Restaurant.createdAt d))); [reflexivity |].
  intros h1.
  apply (setPath_keeps (fun d => (Restaurant._id d, Restaurant.createdAt d))); [reflexivity |].
  intros h2.
  apply (setPath_keeps (fun d => (Restaurant._id d, Restaurant.createdAt d))); [reflexivity |].
  intros h3.
  apply (setPath_keeps (fun d => (Restaurant._id d, Restaurant.createdAt d))); [reflexivity |].
  intros h4.
  apply (setPath_keeps (fun d => (Restaurant._id d, Restaurant.createdAt d))); [reflexivity |].
  intros h5.
  apply (setPath_keeps (fun d => (Restaurant._id d, Restaurant.createdAt d))); [reflexivity |].
  intros h6 [= <-]. reflexivity.
Qed.

Lemma restaurant_castUpdate_keeps (u : Js.val) (f : Restaurant.doc -> Restaurant.doc) :
  restaurant_castUpdate u = Some f ->
  forall d, Restaurant._id (f d) = Restaurant._id d.
Proof.
  intros Hcast d. apply cast_update_paths in Hcast.
  destruct Hcast as (h & Hpaths & Hf).
  pose proof (restaurant_paths_keeps u h Hpaths) as Hkeep.
  destruct (Hf d) as [-> | (d' & ->)].
  - pose proof (Hkeep d). congruence.
  - pose proof (Hkeep (Restaurant.mk (Restaurant._id d) (Restaurant.name d') (Restaurant.address d') (Restaurant.city d') (Restaurant.nit d') (Restaurant.phone d') (Restaurant.deletedAt d') (Restaurant.createdAt d') (Restaurant.updatedAt d'))) as Hk.
    cbn in Hk. congruence.
Qed.

Lemma restaurant_castUpdate_plain_keeps (u : Js.val) (f : Restaurant.doc -> Restaurant.doc) :
  plain_update u = true ->
  restaurant_castUpdate u = Some f ->
  forall d, (Restaurant._id (f d), Restaurant.createdAt (f d)) = (Restaurant._id d, Restaurant.createdAt d).
Proof.
  intros Hplain Hcast. apply cast_update_plain in Hcast; [| exact Hplain].
  exact (restaurant_paths_keeps u f Hcast).
Qed.

Lemma reservation_paths_keeps (u : Js.val) (f : Reservation.doc -> Reservation.doc) :
  reservation_paths u = Some f ->
  forall d, (Reservation._id (f d), Reservation.createdAt (f d)) = (Reservation._id d, Reservation.createdAt d).
Proof.
  unfold reservation_paths.
  apply (setPath_keeps (fun d => (Reservation._id d, Reservation.createdAt d))); [reflexivity |].
  intros h1.
  apply (setPath_keeps (fun d => (Reservation._id d, Reservation.createdAt d))); [reflexivity |].
  intros h2.
  apply (setPath_keeps (fun d => (Reservation._id d, Reservation.createdAt d))); [reflexivity |].
  intros h3.
  apply (setPath_keeps (fun d => (Reservation._id d, Reservation.createdAt d))); [reflexivity |].
  intros h4.
  apply (setPath_keeps (fun d => (Reservation._id d, Reservation.createdAt d))); [reflexivity |].
  intros h5.
  apply (setPath_keeps (fun d => (Reservation._id d, Reservation.createdAt d))); [reflexivity |].
  intros h6.
  apply (setPath_keeps (fun d => (Reservation._id d, Reservation.createdAt d))); [reflexivity |].
  intros h7 [= <-]. reflexivity.
Qed.

Lemma reservation_castUpdate_keeps (u : Js.val) (f : Reservation.doc -> Reservation.doc) :
  reservation_castUpdate u = Some f ->
  forall d, Reservation._id (f d) = Reservation._id d.
Proof.
  intros Hcast d. apply cast_update_paths in Hcast.
  destruct Hcast as (h & Hpaths & Hf).
  pose proof (reservation_paths_keeps u h Hpaths) as Hkeep.
  destruct (Hf d) as [-> | (d' & ->)].
  - pose proof (Hkeep d). congruence.
  - pose proof (Hkeep (Reservation.mk (Reservation._id d) (Reservation.date d') (Reservation.hour d') (Reservation.restaurantId d') (Reservation.userId d') (Reservation.userQuantity d') (Reservation.status d') (Reservation.deletedAt d') (Reservation.createdAt d') (Reservation.updatedAt d'))) as Hk.
    cbn in Hk. congruence.
Qed.

Lemma reservation_castUpdate_plain_keeps (u : Js.val) (f : Reservation.doc -> Reservation.doc) :
  plain_update u = true ->
  reservation_castUpdate u = Some f ->
  forall d, (Reservation._id (f d), Reservation.createdAt (f d)) = (Reservation._id d, Reservation.createdAt d).
Proof.
  intros Hplain Hcast. apply cast_update_plain in Hcast; [| exact Hplain].
  exact (reservation_paths_keeps u f Hcast).
Qed.

Context `{X : MoreLibs}.

(** Closes the goal of an update service once its write is reached. *)
Ltac kept keeps :=
  match goal with
  | Hfind : find _ _ = Some ?d, Hc : _ = Some ?f |- _ =>
      apply (map_update_first _ _ d _ _ Hfind);
      pose proof (keeps _ f Hc d) as Hkeep; cbn in Hkeep |- *; congruence
  end.

Ltac kept_plain keeps plain :=
  match goal with
  | Hfind : find _ _ = Some ?d, Hc : castUpdate ?u = Some ?f |- _ =>
      apply (map_update_first _ _ d _ _ Hfind);
      pose proof (keeps u f plain Hc d) as Hkeep; cbn in Hkeep |- *; congruence
  end.

(** Runs an update service down to its write. *)
Ltac to_write id w :=
  unfold RestaurantService_update, ReservationService_update; run;
  (destruct (castObjectId (Js.Str id)) as [oid |]; [| reflexivity]);
  (destruct (castUpdate _) as [f |] eqn:Hc; [| reflexivity]);
  (destruct (store_failure w); cbn; [reflexivity |]);
  (match goal with
   | |- context [find ?p ?l] => destruct (find p l) as [d |] eqn:Hfind
   end; cbn; [| reflexivity]).

(** X6: a soft delete and an update never add, remove or reorder records
    and never change the id of a record: whatever the id, the body and the
    state of the store, the collection holds the same ids, in the same
    order, after [delete(id)] and after [update(id, body)] of the user,
    restaurant and reservation services.  A soft delete never changes a
    creation time either, nor does an update whose body is an object of
    plain keys (none is an update operator or a dotted path). *)
Theorem update_and_delete_keep_ids (id : string) (body : Js.val) (w : World) :
  (map (fun d => (User._id d, User.createdAt d))
       (users (snd (UserService_delete id w)))
   = map (fun d => (User._id d, User.createdAt d)) (users w)
   /\ map (fun d => (Restaurant._id d, Restaurant.createdAt d))
          (restaurants (snd (RestaurantService_delete id w)))
      = map (fun d => (Restaurant._id d, Restaurant.createdAt d)) (restaurants w)
   /\ map (fun d => (Reservation._id d, Reservation.createdAt d))
          (reservations (snd (ReservationService_delete id w)))
      = map (fun d => (Reservation._id d, Reservation.createdAt d)) (reservations w))
  /\ (map User._id (users (snd (UserService_update id body w)))
      = map User._id (users w)
      /\ map Restaurant._id (restaurants (snd (RestaurantService_update id body w)))
         = map Restaurant._id (restaurants w)
      /\ map Reservation._id (reservations (snd (ReservationService_update id body w)))
         = map Reservation._id (reservations w))
  /\ (plain_update body = true ->
      map (fun d => (User._id d, User.createdAt d))
          (users (snd (UserService_update id body w)))
      = map (fun d => (User._id d, User.createdAt d)) (users w)
      /\ map (fun d => (Restaurant._id d, Restaurant.createdAt d))
             (restaurants (snd (RestaurantService_update id body w)))
         = map (fun d => (Restaurant._id d, Restaurant.createdAt d)) (restaurants w)
      /\ map (fun d => (Reservation._id d, Reservation.createdAt d))
             (reservations (snd (ReservationService_update id body w)))
         = map (fun d => (Reservation._id d, Reservation.createdAt d))
               (reservations w)).
Proof.
  split; [| split].
  - repeat split; to_write id w.
    + kept_plain user_castUpdate_plain_keeps (@eq_refl bool true).
    + kept_plain restaurant_castUpdate_plain_keeps (@eq_refl bool true).
    + kept_plain reservation_castUpdate_plain_keeps (@eq_refl bool true).
  - repeat split; to_write id w.
    + kept user_castUpdate_keeps.
    + kept restaurant_castUpdate_keeps.
    + kept reservation_castUpdate_keeps.
  - intros Hplain. repeat split; to_write id w.
    + kept_plain user_castUpdate_plain_keeps Hplain.
    + kept_plain restaurant_castUpdate_plain_keeps Hplain.
    + kept_plain reservation_castUpdate_plain_keeps Hplain.
Qed.

End KeepsRecords.

Lemma update_and_delete_keep_ids_witness :
  map (fun d => (User._id d, User.createdAt d))
      (users (snd (UserService_update (L := Reference.libs) "65f000000000000000000001"
                     (Js.Obj [("name", Js.Str "Alicia Updated");
                              ("createdAt", Js.Num 5)])
                     sample)))
  = map (fun d => (User._id d, User.createdAt d)) (users sample)
  /\ map Restaurant._id
       (restaurants (snd (RestaurantService_update (L := Reference.libs)
                            "65f000000000000000000001"
                            (Js.Obj [("$set", Js.Obj [("name", Js.Str "Casa")])])
                            sample)))
     = map Restaurant._id (restaurants sample).
Proof.
  destruct (update_and_delete_keep_ids (L := Reference.libs)
              "65f000000000000000000001"
              (Js.Obj [("name", Js.Str "Alicia Updated"); ("createdAt", Js.Num 5)])
              sample)
    as (_ & _ & Hplain).
  destruct (update_and_delete_keep_ids (L := Reference.libs)
              "65f000000000000000000001"
              (Js.Obj [("$set", Js.Obj [("name", Js.Str "Casa")])])
              sample)
    as (_ & (_ & Hids & _) & _).
  split; [exact (proj1 (Hplain eq_refl)) | exact Hids].
Defined.

(** ** A soft delete, and the reads after it *)

Lemma filter_update_first_inactive {D : Type} (idf : D -> string) (active : D -> bool)
  (oid : string) (d' : D) (l : list D) (d : D) :
  NoDup (map idf l) ->
  find (fun x => (idf x =? oid)%string) l = Some d ->
  active d' = false ->
  filter active (update_first (fun x => (idf x =? oid)%string) (fun _ => d') l)
  = filter (fun x => active x && negb (idf x =? oid)%string) l.
Proof.
  intros Hnodup Hfind Hd'. induction l as [| x l IH]; simpl in *; [discriminate |].
  inversion Hnodup as [| ? ? Hnotin Hnodup']; subst.
  destruct (idf x =? oid)%string eqn:E; simpl.
  - rewrite Hd', andb_false_r. apply filter_ext_in.
    intros y Hy. destruct (idf y =? oid)%string eqn:Ey; [| rewrite andb_true_r; reflexivity].
    exfalso. apply Hnotin. apply String.eqb_eq in E, Ey.
    rewrite E, <- Ey. apply in_map, Hy.
  - rewrite andb_true_r. rewrite (IH Hnodup' Hfind). reflexivity.
Qed.

Section DeleteThenRead.
Context `{L : Libs}.

Lemma RestaurantService_delete_world (w : World) (id oid : string) :
  store_failure w = None ->
  castObjectId (Js.Str id) = Some oid ->
  store_failure (snd (RestaurantService_delete id w)) = None
  /\ restaurants (snd (RestaurantService_delete id w))
     = match find (has_id oid) (restaurants w) with
       | Some d =>
           update_first (has_id oid) (fun _ => deleted_at (now w) d) (restaurants w)
       | None => restaurants w
       end
  /\ fst (RestaurantService_delete id w)
     = Ok (negb (is_null (find (has_id oid) (restaurants w)))).
Proof.
  intros H Hcast. run. rewrite Hcast. cbn. rewrite H. cbn.
  destruct (find (has_id oid) (restaurants w)) as [d |]; cbn; repeat split.
Qed.

(** X7: after the soft delete of a stored restaurant (ids being unique in
    the collection), [getAll] returns what it returned before without that
    restaurant, while [getById] still returns it, now stamped with the
    time of the delete as deletion and update time. *)
Theorem RestaurantService_delete_then_reads
  (w : World) (id oid : string) (d : Restaurant.doc) :
  store_failure w = None ->
  castObjectId (Js.Str id) = Some oid ->
  NoDup (map Restaurant._id (restaurants w)) ->
  find (has_id oid) (restaurants w) = Some d ->
  let w' := snd (RestaurantService_delete id w) in
  fst (RestaurantService_getAll w')
  = Ok (filter (fun x => is_null (Restaurant.deletedAt x)
                         && negb (Restaurant._id x =? oid)%string)
               (restaurants w))
  /\ fst (RestaurantService_getById id w')
     = Ok (Some (Restaurant.mk (Restaurant._id d) (Restaurant.name d)
                   (Restaurant.address d) (Restaurant.city d) (Restaurant.nit d)
                   (Restaurant.phone d) (Some (now w)) (Restaurant.createdAt d)
                   (now w))).
Proof.
  intros H Hcast Hnodup Hfind w'.
  destruct (RestaurantService_delete_world w id oid H Hcast) as (H' & Hw' & _).
  rewrite Hfind in Hw'. fold w' in H', Hw'.
  split.
  - rewrite (RestaurantService_getAll_run w' H'), Hw'.
    cbn [project restaurantSchema]. rewrite map_id. f_equal.
    apply (filter_update_first_inactive Restaurant._id
             (fun x => is_null (Restaurant.deletedAt x)) oid _ _ d Hnodup Hfind).
    reflexivity.
  - rewrite (RestaurantService_getById_run w' id oid H' Hcast), Hw'.
    rewrite (find_update_first _ (deleted_at (now w) d) _ d Hfind); [reflexivity |].
    unfold has_id, deleted_at. cbn. apply String.eqb_eq.
    exact (find_has_id Restaurant._id oid _ d Hfind).
Qed.

(** X8: a delete of an id that no stored restaurant has returns false and
    leaves the collection as it was, and the controller answers 404 with
    the message "Restaurant with id <id> not found"; an id that does not
    cast to an ObjectId makes the controller answer 500 with the cast
    error. *)
Theorem RestaurantController_delete_missing (w : World) (id : string) :
  store_failure w = None ->
  (forall oid,
     castObjectId (Js.Str id) = Some oid ->
     find (has_id oid) (restaurants w) = None ->
     fst (RestaurantService_delete id w) = Ok false
     /\ restaurants (snd (RestaurantService_delete id w)) = restaurants w
     /\ fst (RestaurantController_delete (Some id) w)
        = Ok [mkResponse 404
                (message_body ("Restaurant with id " ++ id ++ " not found"))])
  /\ (castObjectId (Js.Str id) = None ->
      fst (RestaurantController_delete (Some id) w)
      = Ok [mkResponse 500 (Js.Exn (mkError CastError "Cast failed for path _id"))]
      /\ restaurants (snd (RestaurantController_delete (Some id) w)) = restaurants w).
Proof.
  intros H. split.
  - intros oid Hcast Hfind.
    destruct (RestaurantService_delete_world w id oid H Hcast) as (_ & Hw' & Hr).
    rewrite Hfind in Hw', Hr. cbn in Hr.
    split; [exact Hr |]. split; [exact Hw' |].
    unfold RestaurantController_delete. rewrite or_default_empty.
    unfold try_catch at 1. unfold bind at 1.
    destruct (RestaurantService_delete id w) as [r w']. cbn in Hr. subst r.
    reflexivity.
  - intros Hcast. unfold RestaurantController_delete. rewrite or_default_empty.
    run. rewrite Hcast. cbn. split; reflexivity.
Qed.

End DeleteThenRead.

Lemma RestaurantService_delete_then_reads_witness :
  fst (RestaurantService_getAll (L := Reference.libs)
         (snd (RestaurantService_delete (L := Reference.libs)
                 "65f0000000000000000000a2" sample)))
  = Ok []
  /\ fst (RestaurantService_getById (L := Reference.libs) "65f0000000000000000000a2"
            (snd (RestaurantService_delete (L := Reference.libs)
                    "65f0000000000000000000a2" sample)))
     = Ok (Some (Restaurant.mk "65f0000000000000000000a2" "El Patio" "Calle 2" "Cali"
                   "900456" "3007654321" (Some 1000) 0 1000)).
Proof.
  apply (RestaurantService_delete_then_reads (L := Reference.libs) sample
           "65f0000000000000000000a2" "65f0000000000000000000a2" r2);
    try reflexivity.
  repeat constructor; cbn; intuition discriminate.
Defined.

Lemma RestaurantController_delete_missing_witness :
  fst (RestaurantController_delete (L := Reference.libs)
         (Some "65f0000000000000000000ff") sample)
  = Ok [mkResponse 404
          (message_body "Restaurant with id 65f0000000000000000000ff not found")]
  /\ fst (RestaurantController_delete (L := Reference.libs) (Some "42") sample)
     = Ok [mkResponse 500 (Js.Exn (mkError CastError "Cast failed for path _id"))].
Proof.
  destruct (RestaurantController_delete_missing (L := Reference.libs) sample
              "65f0000000000000000000ff" eq_refl) as [Hmissing _].
  destruct (RestaurantController_delete_missing (L := Reference.libs) sample
              "42" eq_refl) as [_ Hbad].
  split.
  - exact (proj2 (proj2 (Hmissing "65f0000000000000000000ff" eq_refl eq_refl))).
  - exact (proj1 (Hbad eq_refl)).
Defined.

(** ** Updating a restaurant *)

Section RestaurantUpdate.
Context `{L : Libs} `{X : MoreLibs}.

(** The service on a stored restaurant, and what a non-null result tells. *)
Lemma RestaurantService_update_returns (id : string) (body : Js.val) (w : World)
  (d' : Restaurant.doc) :
  fst (RestaurantService_update id body w) = Ok (Some d') ->
  exists oid d,
    castObjectId (Js.Str id) = Some oid
    /\ find (has_id oid) (restaurants w) = Some d
    /\ Restaurant._id d' = Restaurant._id d
    /\ Restaurant.updatedAt d' = now w
    /\ store_failure (snd (RestaurantService_update id body w)) = None
    /\ restaurants (snd (RestaurantService_update id body w))
       = update_first (has_id oid) (fun _ => d') (restaurants w).
Proof.
  unfold RestaurantService_update. run.
  destruct (castObjectId (Js.Str id)) as [oid |] eqn:Hcast; [| discriminate].
  destruct (castUpdate body) as [f |] eqn:Hc; [| discriminate].
  destruct (store_failure w) eqn:Hstore; cbn; [discriminate |].
  destruct (find (has_id oid) (restaurants w)) as [d |] eqn:Hfind; cbn;
    [| discriminate].
  intros [= <-]. exists oid, d.
  pose proof (restaurant_castUpdate_keeps body f Hc d) as Hid.
  repeat split; try reflexivity; assumption.
Qed.

Lemma RestaurantService_update_null (id : string) (body : Js.val) (w : World) :
  fst (RestaurantService_update id body w) = Ok None ->
  restaurants (snd (RestaurantService_update id body w)) = restaurants w.
Proof.
  unfold RestaurantService_update. run.
  destruct (castObjectId (Js.Str id)) as [oid |] eqn:Hcast; [| discriminate].
  destruct (castUpdate body) as [f |] eqn:Hc; [| discriminate].
  destruct (store_failure w) eqn:Hstore; cbn; [discriminate |].
  destruct (find (has_id oid) (restaurants w)) as [d |] eqn:Hfind; cbn;
    [discriminate | reflexivity].
Qed.

(** X9: the document [RestaurantService.update] returns is the record as
    stored after the update: it carries the clock value as update time, and
    a [getById] of the same id right after returns that very document; and
    when the update returns null, for want of a record with the id, the
    collection is left as it was. *)
Theorem RestaurantService_update_then_getById
  (id : string) (body : Js.val) (w : World) :
  (forall d',
     fst (RestaurantService_update id body w) = Ok (Some d') ->
     Restaurant.updatedAt d' = now w
     /\ fst (RestaurantService_getById id (snd (RestaurantService_update id body w)))
        = Ok (Some d'))
  /\ (fst (RestaurantService_update id body w) = Ok None ->
      restaurants (snd (RestaurantService_update id body w)) = restaurants w).
Proof.
  split; [| apply RestaurantService_update_null].
  intros d' Hret.
  destruct (RestaurantService_update_returns id body w d' Hret)
    as (oid & d & Hcast & Hfind & Hid & Hupdated & Hstore & Hw').
  split; [exact Hupdated |].
  rewrite (RestaurantService_getById_run _ id oid Hstore Hcast), Hw'.
  rewrite (find_update_first (has_id oid) d' (restaurants w) d Hfind); [reflexivity |].
  unfold has_id. cbn. rewrite Hid.
  apply String.eqb_eq. exact (find_has_id Restaurant._id oid _ d Hfind).
Qed.

End RestaurantUpdate.

Lemma RestaurantService_update_then_getById_witness :
  let updated :=
    Restaurant.mk "65f0000000000000000000a2" "El Patio" "Carrera 9" "Cali"
                  "900456" "3007654321" None 0 1000 in
  fst (RestaurantService_update (L := Reference.libs) "65f0000000000000000000a2"
         (Js.Obj [("address", Js.Str "Carrera 9")]) sample)
  = Ok (Some updated)
  /\ fst (RestaurantService_getById (L := Reference.libs) "65f0000000000000000000a2"
            (snd (RestaurantService_update (L := Reference.libs)
                    "65f0000000000000000000a2"
                    (Js.Obj [("address", Js.Str "Carrera 9")]) sample)))
     = Ok (Some updated).
Proof.
  intros updated. split; [reflexivity |].
  apply (proj1 (RestaurantService_update_then_getById (L := Reference.libs)
                  "65f0000000000000000000a2"
                  (Js.Obj [("address", Js.Str "Carrera 9")]) sample)).
  reflexivity.
Defined.

(** ** Reservations of a user, of a restaurant *)

Section ReservationsOf.
Context `{L : Libs} `{X : MoreLibs}.

(** X10: [getByUserId] and [getByRestaurantId] return the reservations
    that carry the given reference, in store order, the soft-deleted ones
    included: unlike [getAll], they do not filter on the soft-delete
    timestamp. *)
Theorem getByUserId_getByRestaurantId_keep_soft_deleted
  (w : World) (id oid : string) :
  store_failure w = None ->
  castObjectId (Js.Str id) = Some oid ->
  (exists ps,
     fst (ReservationService_getByUserId id w) = Ok ps
     /\ map of_user ps
        = filter (fun d => (Reservation.userId d =? oid)%string) (reservations w))
  /\ (exists ps,
        fst (ReservationService_getByRestaurantId id w) = Ok ps
        /\ map of_restaurant ps
           = filter (fun d => (Reservation.restaurantId d =? oid)%string)
                    (reservations w))
  /\ (forall d t,
        In d (reservations w) -> Reservation.deletedAt d = Some t ->
        (Reservation.userId d = oid ->
         exists ps, fst (ReservationService_getByUserId id w) = Ok ps
                    /\ In d (map of_user ps))
        /\ (Reservation.restaurantId d = oid ->
            exists ps, fst (ReservationService_getByRestaurantId id w) = Ok ps
                       /\ In d (map of_restaurant ps))).
Proof.
  intros H Hcast.
  assert (Hu : exists ps,
             fst (ReservationService_getByUserId id w) = Ok ps
             /\ map of_user ps
                = filter (fun d => (Reservation.userId d =? oid)%string) (reservations w)).
  { unfold ReservationService_getByUserId, populate_user. rewrite Hcast. run.
    rewrite H. cbn. eexists. split; [reflexivity |].
    rewrite map_map. cbn. rewrite !map_id. reflexivity. }
  assert (Hr : exists ps,
             fst (ReservationService_getByRestaurantId id w) = Ok ps
             /\ map of_restaurant ps
                = filter (fun d => (Reservation.restaurantId d =? oid)%string)
                         (reservations w)).
  { unfold ReservationService_getByRestaurantId, populate_restaurant.
    rewrite Hcast. run.
    rewrite H. cbn. eexists. split; [reflexivity |].
    rewrite map_map. cbn. rewrite !map_id. reflexivity. }
  split; [exact Hu |]. split; [exact Hr |].
  intros d t Hin _. split; intros Href.
  - destruct Hu as (ps & Hps & Hmap). exists ps. split; [exact Hps |].
    rewrite Hmap. apply filter_In. split; [exact Hin |].
    apply String.eqb_eq, Href.
  - destruct Hr as (ps & Hps & Hmap). exists ps. split; [exact Hps |].
    rewrite Hmap. apply filter_In. split; [exact Hin |].
    apply String.eqb_eq, Href.
Qed.

End ReservationsOf.

Lemma getByUserId_getByRestaurantId_keep_soft_deleted_witness :
  exists ps,
    fst (ReservationService_getByUserId (L := Reference.libs)
           "65f000000000000000000001" sample) = Ok ps
    /\ map of_user ps = [b1; b2]
    /\ Reservation.deletedAt b1 = Some 700.
Proof.
  destruct (getByUserId_getByRestaurantId_keep_soft_deleted (L := Reference.libs)
              sample "65f000000000000000000001" "65f000000000000000000001"
              eq_refl eq_refl) as ((ps & Hps & Hmap) & _).
  exists ps. split; [exact Hps |]. split; [exact Hmap | reflexivity].
Defined.

(** ** Creating a reservation, when both references are found *)

Section ReservationCreated.
Context `{L : Libs}.


End ReservationCreated.


(** ** Handlers that answer exactly once *)

Section AnswersOnce.
Context `{L : Libs} `{X : MoreLibs}.

(** Splits a handler on the outcome of the service it awaits. *)
Ltac by_service service :=
  intros w; unfold try_catch, bind, server_error, ret;
  destruct (service w) as [[x | e] w']; cbn;
  [ try (destruct x); cbn; eexists; reflexivity
  | try (destruct (instanceof_ReferenceError e)); eexists; reflexivity ].

(** X12: every handler of the restaurant and reservation controllers other
    than [create], and the login handler, answers exactly once, whatever the
    request and whatever the store does: one call on the response, be it
    the result, a 404 or 401, or the 500 of the catch block. *)
Theorem handlers_answer_once (params_id : option string) (body : Js.val) :
  answers_once RestaurantController_getAll
  /\ answers_once (RestaurantController_getOne params_id)
  /\ answers_once (RestaurantController_update params_id body)
  /\ answers_once (RestaurantController_delete params_id)
  /\ answers_once ReservationController_getAll
  /\ answers_once (ReservationController_getOne params_id)
  /\ answers_once (ReservationController_update params_id body)
  /\ answers_once (ReservationController_delete params_id)
  /\ answers_once (ReservationController_getByUserId params_id)
  /\ answers_once (ReservationController_getByRestaurantId params_id)
  /\ answers_once (AuthController_login body).
Proof.
  repeat split.
  - unfold RestaurantController_getAll. by_service (RestaurantService_getAll).
  - unfold RestaurantController_getOne.
    by_service (RestaurantService_getById (Js.or_default params_id "")).
  - unfold RestaurantController_update.
    by_service (RestaurantService_update (Js.or_default params_id "") body).
  - unfold RestaurantController_delete.
    by_service (RestaurantService_delete (Js.or_default params_id "")).
  - unfold ReservationController_getAll. by_service (ReservationService_getAll).
  - unfold ReservationController_getOne.
    by_service (ReservationService_getById (Js.or_default params_id "")).
  - unfold ReservationController_update.
    by_service (ReservationService_update (Js.or_default params_id "") body).
  - unfold ReservationController_delete.
    by_service (ReservationService_delete (Js.or_default params_id "")).
  - unfold ReservationController_getByUserId.
    by_service (ReservationService_getByUserId (Js.or_default params_id "")).
  - unfold ReservationController_getByRestaurantId.
    by_service (ReservationService_getByRestaurantId (Js.or_default params_id "")).
  - unfold AuthController_login. by_service (AuthService_login body).
Qed.

End AnswersOnce.

(** ** Creating a user *)

Lemma existsb_find_some {D : Type} (p : D -> bool) (l : list D) :
  existsb p l = true -> exists d, find p l = Some d.
Proof.
  induction l as [| x l IH]; simpl; [discriminate |].
  destruct (p x); simpl; [intros _; exists x; reflexivity | exact IH].
Qed.

Section UserCreate.
Context `{L : Libs} `{X : MoreLibs}.

(** The JSON copy of an object keeps its string properties. *)
Lemma json_copy_get_str (v : Js.val) (k s : string) :
  Js.get v k = Js.Str s -> Js.get (json_copy v) k = Js.Str s.
Proof.
  destruct v as [| | | | | | | | props]; try discriminate. cbn.
  induction props as [| [k' x] props IH]; cbn; [discriminate |].
  destruct (k =? k')%string eqn:E.
  - intros ->. cbn. rewrite E. reflexivity.
  - intros H. destruct x; cbn; rewrite ?E; exact (IH H).
Qed.

Lemma json_copy_object (v : Js.val) (k s : string) :
  Js.get v k = Js.Str s -> Js.isObject (json_copy v) = true.
Proof. destruct v; try discriminate. reflexivity. Qed.

(** X13: creating a user whose email is the email of a stored user,
    soft-deleted or not, fails with the error "User already exists": the
    only model call is the [findOne] of the check, nothing is hashed or
    created and the collection is left as it was. *)
Theorem UserService_create_existing_email
  (input : Js.val) (w : World) (email : string) (u : User.doc) :
  store_failure w = None ->
  Js.get input "email" = Js.Str email ->
  In u (users w) ->
  User.email u = email ->
  fst (UserService_create input w)
  = Throw (mkError ReferenceError "User already exists")
  /\ users (snd (UserService_create input w)) = users w
  /\ calls (snd (UserService_create input w))
     = (calls w ++ [(UserModel, "findOne")])%list.
Proof.
  intros Hstore Hemail Hin Hu.
  assert (Hex : existsb (fun x => (email =? User.email x)%string) (users w) = true).
  { apply existsb_exists. exists u. split; [exact Hin |].
    apply String.eqb_eq. symmetry. exact Hu. }
  destruct (existsb_find_some _ _ Hex) as [found Hfound].
  unfold UserService_create. rewrite Hemail. run. rewrite Hstore. cbn.
  rewrite Hfound. cbn. repeat split.
Qed.

(** A new document is made of an id and two timestamps; they are the
    generated id and the clock value when the input brings none. *)
Lemma stamped_made {D : Type} (u : Js.val) (id : string) (t : Z)
  (make : string -> Z -> Z -> D) (x : D) :
  stamped u id t make = Some x ->
  exists id' created updated,
    x = make id' created updated
    /\ (Js.get u "_id" = Js.Undefined -> id' = id)
    /\ (Js.get u "createdAt" = Js.Undefined -> created = t)
    /\ (Js.get u "updatedAt" = Js.Undefined -> updated = created).
Proof.
  unfold stamped.
  destruct (created_id u id) as [id' |] eqn:Hid; [| discriminate].
  destruct (created_at u t) as [created |] eqn:Hcreated; [| discriminate].
  destruct (updated_at u created) as [updated |] eqn:Hupdated; [| discriminate].
  intros [= <-]. exists id', created, updated.
  split; [reflexivity |]. split; [| split]; intros Hget.
  - unfold created_id in Hid. rewrite Hget in Hid. congruence.
  - unfold created_at in Hcreated. rewrite Hget in Hcreated. congruence.
  - unfold updated_at in Hupdated. rewrite Hget in Hupdated. congruence.
Qed.

Lemma user_castCreate_password (nu : Js.val) (id : string) (t : Z) (stored : User.doc) :
  user_castCreate nu id t = Some stored ->
  exists p, requiredString (Js.get nu "password") = Some p
            /\ User.password stored = Some p.
Proof.
  unfold user_castCreate.
  destruct (requiredString (Js.get nu "name")); [| discriminate].
  destruct (requiredString (Js.get nu "email")); [| discriminate].
  destruct (requiredString (Js.get nu "password")) as [p |]; [| discriminate].
  destruct (match Js.get nu "roles" with Js.Undefined => _ | _ => _ end);
    [| discriminate].
  destruct (match Js.get nu "deletedAt" with Js.Undefined => _ | _ => _ end);
    [| discriminate].
  destruct (forallb is_role l); [| discriminate].
  intros Hmade. apply stamped_made in Hmade.
  destruct Hmade as (id' & created & updated & -> & _).
  exists p. split; reflexivity.
Qed.

(** X14: when [UserService.create] succeeds on an input whose password is
    a non-empty string, the document it returns carries no password, and
    the record it has added, last in the collection, is the returned
    document with, as password, the bcrypt hash (10 rounds) of the password
    of the input. *)
Theorem UserService_create_stores_hash
  (input : Js.val) (w : World) (pw : string) (d : User.doc) :
  Js.get input "password" = Js.Str pw ->
  pw <> EmptyString ->
  fst (UserService_create input w) = Ok d ->
  User.password d = None
  /\ exists h stored,
       bcrypt_hash (Js.Str pw) 10 = Some h
       /\ users (snd (UserService_create input w)) = (users w ++ [stored])%list
       /\ User.password stored = Some h
       /\ d = without_password stored.
Proof.
  intros Hpw Hne.
  pose proof (json_copy_get_str input "password" pw Hpw) as Hcopy.
  pose proof (json_copy_object input "password" pw Hpw) as Hobj.
  unfold UserService_create. run.
  destruct (pathFilterString (Js.get input "email")) as [p |]; cbn; [| discriminate].
  destruct (store_failure w) eqn:Hstore; cbn; [discriminate |].
  destruct (find _ (users w)) as [found |]; cbn; [discriminate |].
  rewrite Hcopy. cbn [Js.truthy].
  apply String.eqb_neq in Hne. rewrite Hne. cbn [negb].
  destruct (bcrypt_hash (Js.Str pw) 10) as [h |]; cbn; [| discriminate].
  cbn [castCreate userSchema].
  destruct (user_castCreate (Js.set (json_copy input) "password" (Js.Str h))
              (newObjectId (generated w)) (now w)) as [stored |] eqn:Hcast; cbn;
    [| discriminate].
  destruct (existsb _ (users w)); cbn; [discriminate |].
  intros [= <-]. split; [reflexivity |].
  exists h, stored. split; [reflexivity |]. split; [reflexivity |].
  split; [| reflexivity].
  destruct (user_castCreate_password _ _ _ _ Hcast) as (p' & Hreq & Hstored).
  rewrite get_set_full, Hobj in Hreq. cbn in Hreq.
  unfold requiredString, castPathString in Hreq.
  destruct (h =? "")%string; [discriminate |].
  injection Hreq as <-. exact Hstored.
Qed.

End UserCreate.

Lemma UserService_create_existing_email_witness :
  fst (UserService_create (L := Reference.libs) (X := Reference2.libs)
         (Js.Obj [("name", Js.Str "Alicia"); ("email", Js.Str "admin@example.com");
                  ("password", Js.Str "Secret456")])
         sample)
  = Throw (mkError ReferenceError "User already exists")
  /\ User.deletedAt u2 = Some 500.
Proof.
  split; [| reflexivity].
  apply (UserService_create_existing_email (L := Reference.libs) (X := Reference2.libs)
           _ sample "admin@example.com" u2);
    [reflexivity | reflexivity | right; left; reflexivity | reflexivity].
Defined.

Lemma UserService_create_stores_hash_witness :
  exists d stored,
    fst (UserService_create (L := Reference.libs) (X := Reference2.libs)
           (Js.Obj [("name", Js.Str "Ana"); ("email", Js.Str "ana@acme.dev");
                    ("password", Js.Str "Secret456")])
           sample) = Ok d
    /\ User.password d = None
    /\ users (snd (UserService_create (L := Reference.libs) (X := Reference2.libs)
                     (Js.Obj [("name", Js.Str "Ana"); ("email", Js.Str "ana@acme.dev");
                              ("password", Js.Str "Secret456")])
                     sample))
       = [u1; u2; stored]
    /\ User.password stored = Some "$2b$10$Secret456".
Proof.
  eexists.
  destruct (UserService_create_stores_hash (L := Reference.libs) (X := Reference2.libs)
              (Js.Obj [("name", Js.Str "Ana"); ("email", Js.Str "ana@acme.dev");
                       ("password", Js.Str "Secret456")])
              sample "Secret456" _ eq_refl ltac:(discriminate) eq_refl)
    as (Hnone & h & stored & Hhash & Husers & Hstored & _).
  exists stored. split; [reflexivity |]. split; [exact Hnone |].
  split; [exact Husers |].
  rewrite Hstored. injection Hhash as <-. reflexivity.
Defined.

(** ** Seeding the accounts *)

Section Seeding.
Context `{L : Libs} `{X : MoreLibs}.

Lemma seed_castCreate (name email h : string) (role : UserRole) (id : string) (t : Z) :
  name <> EmptyString -> email <> EmptyString ->
  user_castCreate
    (Js.Obj [("name", Js.Str name); ("email", Js.Str email); ("password", Js.Str h);
             ("roles", Js.Arr [Js.Str (role_name role)])])
    id t
  = if (h =? "")%string then None
    else Some (User.mk id name email (Some h) [role_name role] None t t).
Proof.
  intros Hname Hemail. apply String.eqb_neq in Hname, Hemail.
  unfold user_castCreate, requiredString, castPathString. cbn.
  rewrite Hname, Hemail.
  destruct (h =? "")%string; [reflexivity |].
  destruct role; reflexivity.
Qed.

(** One block, outcome by outcome. *)
Lemma seed_account_run (name email password : string) (role : UserRole) (w : World) :
  name <> EmptyString -> email <> EmptyString ->
  store_failure (snd (seed_account name email password role w)) = store_failure w
  /\ now (snd (seed_account name email password role w)) = now w
  /\ match store_failure w,
           find (fun d => (email =? User.email d)%string) (users w),
           bcrypt_hash (Js.Str password) 10 with
     | None, Some _, _ =>
         fulfilled (fst (seed_account name email password role w)) = true
         /\ users (snd (seed_account name email password role w)) = users w
     | None, None, Some h =>
         if (h =? "")%string
         then fulfilled (fst (seed_account name email password role w)) = false
              /\ users (snd (seed_account name email password role w)) = users w
         else fulfilled (fst (seed_account name email password role w)) = true
              /\ users (snd (seed_account name email password role w))
                 = (users w ++ [User.mk (newObjectId (generated w)) name email (Some h)
                                  [role_name role] None (now w) (now w)])%list
     | _, _, _ =>
         fulfilled (fst (seed_account name email password role w)) = false
         /\ users (snd (seed_account name email password role w)) = users w
     end.
Proof.
  intros Hname Hemail.
  unfold seed_account. run.
  destruct (store_failure w) eqn:Hstore; cbn; [repeat split |].
  destruct (find _ (users w)) as [found |] eqn:Hfind; cbn; [repeat split |].
  destruct (bcrypt_hash (Js.Str password) 10) as [h |]; cbn; [| repeat split].
  rewrite (seed_castCreate name email h role _ _ Hname Hemail).
  destruct (h =? "")%string; cbn; [repeat split |].
  apply find_none_existsb in Hfind. rewrite Hfind. cbn. repeat split.
Qed.

(** The users after one block: as they were, or with the account added. *)
Lemma seed_account_again (name email password : string) (role : UserRole) (w w2 : World) :
  name <> EmptyString -> email <> EmptyString ->
  store_failure w2 = store_failure w ->
  users w2 = users (snd (seed_account name email password role w)) ->
  fulfilled (fst (seed_account name email password role w2))
  = fulfilled (fst (seed_account name email password role w))
  /\ users (snd (seed_account name email password role w2)) = users w2.
Proof.
  intros Hname Hemail Hstore Husers.
  destruct (seed_account_run name email password role w Hname Hemail) as (_ & _ & H1).
  destruct (seed_account_run name email password role w2 Hname Hemail) as (_ & _ & H2).
  rewrite Hstore in H2.
  destruct (store_failure w); [destruct H1 as [-> _], H2 as [-> ->]; split; reflexivity |].
  destruct (find _ (users w)) as [found |] eqn:Hfind.
  - destruct H1 as [-> H1]. rewrite Husers, H1, Hfind in H2.
    destruct H2 as [-> H2]. split; [reflexivity |]. rewrite H2, Husers, H1. reflexivity.
  - destruct (bcrypt_hash (Js.Str password) 10) as [h |].
    + destruct (h =? "")%string.
      * destruct H1 as [-> H1]. rewrite Husers, H1, Hfind in H2.
        destruct H2 as [-> H2]. split; [reflexivity |]. rewrite H2, Husers, H1. reflexivity.
      * destruct H1 as [-> H1]. rewrite Husers, H1 in H2.
        rewrite (find_app_fresh _ (users w) _ Hfind) in H2
          by (cbn; apply String.eqb_refl).
        destruct H2 as [-> H2]. split; [reflexivity |].
        rewrite H2, Husers, H1. reflexivity.
    + destruct H1 as [-> H1]. rewrite Husers, H1, Hfind in H2.
      destruct H2 as [-> H2]. split; [reflexivity |]. rewrite H2, Husers, H1. reflexivity.
Qed.

Lemma find_app_some {D : Type} (p : D -> bool) (l l' : list D) (x : D) :
  find p l = Some x -> find p (l ++ l') = Some x.
Proof.
  induction l as [| y l IH]; simpl; [discriminate |].
  destruct (p y); [tauto | exact IH].
Qed.

(** A block only ever adds to the collection. *)
Lemma seed_account_extends (name email password : string) (role : UserRole) (w : World) :
  name <> EmptyString -> email <> EmptyString ->
  exists l', users (snd (seed_account name email password role w))
             = (users w ++ l')%list.
Proof.
  intros Hname Hemail.
  destruct (seed_account_run name email password role w Hname Hemail) as (_ & _ & H).
  destruct (store_failure w); [exists []; rewrite app_nil_r; apply H |].
  destruct (find _ (users w)); [exists []; rewrite app_nil_r; apply H |].
  destruct (bcrypt_hash (Js.Str password) 10) as [h |];
    [| exists []; rewrite app_nil_r; apply H].
  destruct (h =? "")%string; [exists []; rewrite app_nil_r; apply H |].
  eexists. apply H.
Qed.

(** A fulfilled block leaves the account in the collection. *)
Lemma seed_account_present (name email password : string) (role : UserRole) (w : World) :
  name <> EmptyString -> email <> EmptyString ->
  fulfilled (fst (seed_account name email password role w)) = true ->
  store_failure w = None
  /\ (exists x, find (fun d => (email =? User.email d)%string)
                    (users (snd (seed_account name email password role w))) = Some x)
  /\ exists l', users (snd (seed_account name email password role w))
                = (users w ++ l')%list.
Proof.
  intros Hname Hemail Hok.
  destruct (seed_account_run name email password role w Hname Hemail) as (_ & _ & H).
  destruct (store_failure w); [destruct H as [H _]; congruence |].
  split; [reflexivity |].
  destruct (find _ (users w)) as [found |] eqn:Hfind.
  - destruct H as [_ ->]. split; [exists found; exact Hfind |].
    exists []. symmetry. apply app_nil_r.
  - destruct (bcrypt_hash (Js.Str password) 10) as [h |];
      [| destruct H as [H _]; congruence].
    destruct (h =? "")%string; [destruct H as [H _]; congruence |].
    destruct H as [_ ->]. split; [| eexists; reflexivity].
    eexists. apply (find_app_fresh _ (users w) _ Hfind). cbn. apply String.eqb_refl.
Qed.

(** A block whose account is in the collection is fulfilled and adds
    nothing. *)
Lemma seed_account_found (name email password : string) (role : UserRole) (w : World)
  (x : User.doc) :
  name <> EmptyString -> email <> EmptyString ->
  store_failure w = None ->
  find (fun d => (email =? User.email d)%string) (users w) = Some x ->
  fulfilled (fst (seed_account name email password role w)) = true
  /\ users (snd (seed_account name email password role w)) = users w.
Proof.
  intros Hname Hemail Hstore Hfind.
  destruct (seed_account_run name email password role w Hname Hemail) as (_ & _ & H).
  rewrite Hstore, Hfind in H. exact H.
Qed.

(** The users after the whole callback. *)
Lemma seed_accounts_users (w : World) :
  fst (seed_accounts w) = Ok tt
  /\ store_failure (snd (seed_accounts w)) = store_failure w
  /\ users (snd (seed_accounts w))
     = let w1 := snd (seed_account "Carlos" "admin@example.com" "Carlos123" ADMIN w) in
       if fulfilled (fst (seed_account "Carlos" "admin@example.com" "Carlos123" ADMIN w))
       then users (snd (seed_account "Camila" "user@example.com" "Camila123" USER w1))
       else users w1.
Proof.
  destruct (seed_account_run "Carlos" "admin@example.com" "Carlos123" ADMIN w)
    as (Hs1 & _ & _); try discriminate.
  destruct (seed_account_run "Camila" "user@example.com" "Camila123" USER
              (snd (seed_account "Carlos" "admin@example.com" "Carlos123" ADMIN w)))
    as (Hs2 & _ & _); try discriminate.
  unfold seed_accounts, try_catch, bind, ret.
  destruct (seed_account "Carlos" "admin@example.com" "Carlos123" ADMIN w)
    as [[[] | e1] w1]; cbn in *.
  - destruct (seed_account "Camila" "user@example.com" "Camila123" USER w1)
      as [[[] | e2] w2]; cbn in *; repeat split; congruence.
  - repeat split. exact Hs1.
Qed.

(** X15: the seeding of the accounts at start-up never fails (its errors
    end in the [catch] of the chain) and is idempotent: a second seeding
    leaves the users as the first one left them; and when the store is
    reachable and bcrypt gives non-empty hashes, a user with the email
    admin@example.com and one with the email user@example.com exist after
    the seeding, the stored ones if there were any, whatever their roles. *)
Theorem seed_accounts_idempotent (w : World) :
  fst (seed_accounts w) = Ok tt
  /\ users (snd (seed_accounts (snd (seed_accounts w)))) = users (snd (seed_accounts w))
  /\ (forall ha hu,
        store_failure w = None ->
        bcrypt_hash (Js.Str "Carlos123") 10 = Some ha -> ha <> EmptyString ->
        bcrypt_hash (Js.Str "Camila123") 10 = Some hu -> hu <> EmptyString ->
        (exists a, find (fun d => ("admin@example.com" =? User.email d)%string)
                        (users (snd (seed_accounts w))) = Some a)
        /\ (exists u, find (fun d => ("user@example.com" =? User.email d)%string)
                           (users (snd (seed_accounts w))) = Some u)).
Proof.
  destruct (seed_accounts_users w) as (Hok & Hstore & Husers).
  destruct (seed_accounts_users (snd (seed_accounts w))) as (_ & _ & Husers').
  cbn zeta in Husers, Husers'.
  set (admin := seed_account "Carlos" "admin@example.com" "Carlos123" ADMIN) in *.
  set (user := seed_account "Camila" "user@example.com" "Camila123" USER) in *.
  set (W := snd (seed_accounts w)) in *.
  split; [exact Hok |]. split.
  - rewrite Husers'.
    destruct (fulfilled (fst (admin w))) eqn:Ha.
    + destruct (seed_account_present "Carlos" "admin@example.com" "Carlos123" ADMIN w)
        as (Hs & (a & Hfa) & _); try discriminate; [exact Ha |].
      fold admin in Hfa.
      destruct (seed_account_run "Carlos" "admin@example.com" "Carlos123" ADMIN w)
        as (Hs1 & _ & _); try discriminate. fold admin in Hs1.
      assert (HfW : exists a', find (fun d => ("admin@example.com" =? User.email d)%string)
                                    (users W) = Some a').
      { rewrite Husers.
        destruct (seed_account_extends "Camila" "user@example.com" "Camila123" USER
                    (snd (admin w))) as (l' & Hl'); try discriminate.
        fold user in Hl'. rewrite Hl'. exists a. apply find_app_some, Hfa. }
      destruct HfW as (a' & Hfa').
      assert (HsW : store_failure W = None) by congruence.
      destruct (seed_account_found "Carlos" "admin@example.com" "Carlos123" ADMIN W a')
        as (HaW & HuW); try discriminate; try assumption.
      fold admin in HaW, HuW. rewrite HaW.
      destruct (seed_account_run "Carlos" "admin@example.com" "Carlos123" ADMIN W)
        as (HsW1 & _ & _); try discriminate. fold admin in HsW1.
      destruct (seed_account_again "Camila" "user@example.com" "Camila123" USER
                  (snd (admin w)) (snd (admin W))) as (_ & Hsame);
        try discriminate.
      * congruence.
      * fold user. rewrite HuW. exact Husers.
      * fold user in Hsame. rewrite Hsame. exact HuW.
    + destruct (seed_account_again "Carlos" "admin@example.com" "Carlos123" ADMIN w W)
        as (Hful & Hsame); try discriminate.
      * exact Hstore.
      * fold admin. exact Husers.
      * fold admin in Hful, Hsame. rewrite Hful, Ha. exact Hsame.
  - intros ha hu Hs Hha Hnea Hhu Hneu. rewrite Husers.
    destruct (seed_account_run "Carlos" "admin@example.com" "Carlos123" ADMIN w)
      as (Hs1 & _ & H1); try discriminate.
    fold admin in Hs1, H1. rewrite Hs, Hha in H1.
    apply String.eqb_neq in Hnea, Hneu. rewrite Hnea in H1.
    assert (Ha : fulfilled (fst (admin w)) = true)
      by (destruct (find _ (users w)); apply H1).
    rewrite Ha.
    destruct (seed_account_present "Carlos" "admin@example.com" "Carlos123" ADMIN w)
      as (_ & (a & Hfa) & _); try discriminate; [exact Ha |].
    fold admin in Hfa.
    destruct (seed_account_run "Camila" "user@example.com" "Camila123" USER (snd (admin w)))
      as (_ & _ & H2); try discriminate.
    fold user in H2. rewrite Hs1, Hs, Hhu, Hneu in H2.
    assert (Hu : fulfilled (fst (user (snd (admin w)))) = true)
      by (destruct (find (fun d => ("user@example.com" =? User.email d)%string)
                         (users (snd (admin w)))); apply H2).
    destruct (seed_account_present "Camila" "user@example.com" "Camila123" USER
                (snd (admin w)))
      as (_ & Hfu & (l' & Hl')); try discriminate; [exact Hu |].
    fold user in Hfu, Hl'.
    split; [| exact Hfu].
    exists a. rewrite Hl'. apply find_app_some, Hfa.
Qed.

End Seeding.

Lemma seed_accounts_idempotent_witness :
  map (fun u => (User.name u, User.email u, User.roles u))
      (users (snd (seed_accounts (L := Reference.libs) (X := Reference2.libs) idle)))
  = [("Carlos", "admin@example.com", ["admin"]); ("Camila", "user@example.com", ["user"])]
  /\ users (snd (seed_accounts (L := Reference.libs) (X := Reference2.libs)
                   (snd (seed_accounts (L := Reference.libs) (X := Reference2.libs) idle))))
     = users (snd (seed_accounts (L := Reference.libs) (X := Reference2.libs) idle))
  /\ (exists a, find (fun d => ("admin@example.com" =? User.email d)%string)
                     (users (snd (seed_accounts (L := Reference.libs)
                                    (X := Reference2.libs) idle))) = Some a)
  /\ (exists u, find (fun d => ("user@example.com" =? User.email d)%string)
                     (users (snd (seed_accounts (L := Reference.libs)
                                    (X := Reference2.libs) idle))) = Some u).
Proof.
  destruct (seed_accounts_idempotent (L := Reference.libs) (X := Reference2.libs) idle)
    as (_ & Hagain & Hboth).
  split; [reflexivity |]. split; [exact Hagain |].
  apply (Hboth (Reference.bcrypt_hash "Carlos123") (Reference.bcrypt_hash "Camila123"));
    [reflexivity | reflexivity | discriminate | reflexivity | discriminate].
Defined.

(** ** The validation arrays *)

Section ValidationArrays.
Context `{L : Libs} `{X : MoreLibs}.

Lemma agree_on_set (k : string) (b1 b2 : Js.val) (path : string) (x : Js.val) :
  agree_on k b1 b2 -> agree_on k (Js.set b1 path x) (Js.set b2 path x).
Proof.
  intros [Hobj Hget]. split.
  - rewrite !isObject_set. exact Hobj.
  - rewrite !get_set_full, Hobj, Hget. reflexivity.
Qed.

(** The errors of a chain depend on its field only. *)
Lemma run_steps_agree (path : string) (ss : list Step) :
  forall b1 b2,
    agree_on path b1 b2 ->
    snd (run_steps path ss b1) = snd (run_steps path ss b2).
Proof.
  induction ss as [| s ss IH]; intros b1 b2 Hagree; [reflexivity |].
  destruct s as [f | p msg]; simpl.
  - apply IH. rewrite (proj2 Hagree). apply agree_on_set, Hagree.
  - rewrite (proj2 Hagree). specialize (IH b1 b2 Hagree).
    destruct (run_steps path ss b1) as [b1' e1].
    destruct (run_steps path ss b2) as [b2' e2].
    simpl in IH. subst e2. destruct (p _); reflexivity.
Qed.

Lemma run_chain_agree (c : Chain) (b1 b2 : Js.val) :
  agree_on (field c) b1 b2 -> snd (run_chain c b1) = snd (run_chain c b2).
Proof.
  intros Hagree. unfold run_chain. rewrite (proj2 Hagree).
  destruct (optional c && is_undefined (Js.get b2 (field c))); [reflexivity |].
  apply run_steps_agree, Hagree.
Qed.

Lemma run_steps_object (path : string) (ss : list Step) (b : Js.val) :
  Js.isObject (fst (run_steps path ss b)) = Js.isObject b.
Proof.
  revert b. induction ss as [| s ss IH]; intros b; [reflexivity |].
  destruct s as [f | p msg]; simpl.
  - rewrite IH. apply isObject_set.
  - specialize (IH b). destruct (run_steps path ss b) as [b' e].
    destruct (p _); exact IH.
Qed.

(** A chain leaves the other fields as they are. *)
Lemma run_chain_keeps (c : Chain) (b : Js.val) (k : string) :
  (k =? field c)%string = false -> agree_on k (fst (run_chain c b)) b.
Proof.
  intros Hk. split; [| apply run_chain_other, Hk].
  unfold run_chain.
  destruct (optional c && is_undefined (Js.get b (field c))); [reflexivity |].
  apply run_steps_object.
Qed.

(** The errors of a validation array whose chains are on different fields
    are those of its chains, each run on the body as received. *)
Lemma run_chains_errors (cs : list Chain) :
  NoDup (map field cs) ->
  forall b b0,
    (forall c, In c cs -> agree_on (field c) b b0) ->
    snd (run_chains cs b) = flat_map (fun c => snd (run_chain c b0)) cs.
Proof.
  induction cs as [| c cs IH]; intros Hnodup b b0 Hagree; [reflexivity |].
  inversion Hnodup as [| ? ? Hnotin Hnodup']; subst. simpl.
  pose proof (run_chain_agree c b b0 (Hagree c (or_introl eq_refl))) as Hc.
  assert (Hrest : forall c', In c' cs -> agree_on (field c') (fst (run_chain c b)) b0).
  { intros c' Hin.
    assert (Hk : (field c' =? field c)%string = false).
    { apply String.eqb_neq. intros Heq. apply Hnotin. rewrite <- Heq.
      apply in_map, Hin. }
    destruct (run_chain_keeps c b (field c') Hk) as [Ho Hg].
    destruct (Hagree c' (or_intror Hin)) as [Ho' Hg'].
    split; congruence. }
  destruct (run_chain c b) as [b' e]. simpl in *.
  specialize (IH Hnodup' b' b0 Hrest).
  destruct (run_chains cs b') as [b'' e']. simpl in *. congruence.
Qed.

Lemma agree_on_refl (k : string) (b : Js.val) : agree_on k b b.
Proof. split; reflexivity. Qed.

(** A chain made optional has no error where the chain itself has none. *)
Lemma optional_chain_valid (f : string) (ss : list Step) (b : Js.val) :
  snd (run_chain (mkChain f false ss) b) = [] ->
  snd (run_chain (mkChain f true ss) b) = [].
Proof.
  unfold run_chain. cbn.
  destruct (is_undefined (Js.get b f)); [reflexivity | tauto].
Qed.

Ltac fields_differ := repeat constructor; cbn; intuition discriminate.

(** X16: for the restaurant, the reservation and the user, a body in which
    the create validation of the entity finds no error is a body in which
    its update validation finds none. *)
Theorem create_valid_is_update_valid (body : Js.val) :
  (snd (run_chains restaurantValidations_create body) = [] ->
   snd (run_chains restaurantValidations_update body) = [])
  /\ (snd (run_chains reservationValidations_create body) = [] ->
      snd (run_chains reservationValidations_update body) = [])
  /\ (snd (run_chains userValidations_create body) = [] ->
      snd (run_chains userValidations_update body) = []).
Proof.
  split; [| split].
  - rewrite (run_chains_errors restaurantValidations_create ltac:(fields_differ)
               body body (fun c _ => agree_on_refl (field c) body)).
    rewrite (run_chains_errors restaurantValidations_update ltac:(fields_differ)
               body body (fun c _ => agree_on_refl (field c) body)).
    cbn [flat_map restaurantValidations_create restaurantValidations_update].
    intros H.
    repeat (apply app_eq_nil in H; destruct H as [? H]).
    repeat (rewrite optional_chain_valid by assumption). reflexivity.
  - rewrite (run_chains_errors reservationValidations_create ltac:(fields_differ)
               body body (fun c _ => agree_on_refl (field c) body)).
    rewrite (run_chains_errors reservationValidations_update ltac:(fields_differ)
               body body (fun c _ => agree_on_refl (field c) body)).
    cbn [flat_map reservationValidations_create reservationValidations_update].
    intros H.
    repeat (apply app_eq_nil in H; destruct H as [? H]).
    repeat (rewrite optional_chain_valid by assumption). reflexivity.
  - rewrite (run_chains_errors userValidations_create ltac:(fields_differ)
               body body (fun c _ => agree_on_refl (field c) body)).
    rewrite (run_chains_errors userValidations_update ltac:(fields_differ)
               body body (fun c _ => agree_on_refl (field c) body)).
    cbn [flat_map userValidations_create userValidations_update].
    intros H.
    repeat (apply app_eq_nil in H; destruct H as [? H]).
    rewrite optional_chain_valid by assumption.
    match goal with
    | Hemail : snd (run_chain (mkChain "email" false _) body) = [] |- _ =>
        revert Hemail
    end.
    unfold run_chain. cbn.
    destruct (is_undefined (Js.get body "email")); [reflexivity |].
    destruct (v_isEmail _); [reflexivity | discriminate].
Qed.

End ValidationArrays.

(** ** The routes *)

Lemma checkRole_answer_403 (r : UserRole) (user : Js.val) (resp : Response) :
  checkRole r user = Answer resp -> status resp = 403.
Proof.
  unfold checkRole.
  destruct (_ || _); [intros [= <-]; reflexivity |].
  destruct (negb _); [intros [= <-]; reflexivity | discriminate].
Qed.

Lemma checkRole_next (r : UserRole) (user user' : Js.val) :
  checkRole r user = Next user' -> user' = user.
Proof.
  unfold checkRole.
  destruct (_ || _); [discriminate |].
  destruct (negb _); [discriminate | intros [= <-]; reflexivity].
Qed.

Section Routes.
Context `{L : Libs} `{X : MoreLibs}.

Lemma authMiddleware_answer_status (w : World) (h : option string) (resp : Response) :
  authMiddleware w h = Answer resp -> status resp = 401 \/ status resp = 403.
Proof.
  rewrite authMiddleware_by_token.
  destruct (header_token h) as [token |]; [| intros [= <-]; left; reflexivity].
  destruct (token =? "")%string; [intros [= <-]; left; reflexivity |].
  destruct (jwt_verify _ _ _); [discriminate | intros [= <-]; right; reflexivity].
Qed.

(** The head of a route, when it stops the request. *)
Lemma guarded_refuses (role : UserRole) (req : Request) (handler : Handler) (w : World) :
  (forall user, authMiddleware w (authorization req) = Next user ->
                checkRole role user <> Next user) ->
  exists resp,
    guarded (Some role) req handler w = (Ok [resp], w)
    /\ (status resp = 401 \/ status resp = 403).
Proof.
  intros Hno. unfold guarded, bind, ask, ret.
  destruct (authMiddleware w (authorization req)) as [resp | user] eqn:Hauth.
  - exists resp. split; [reflexivity |].
    exact (authMiddleware_answer_status w _ resp Hauth).
  - destruct (checkRole role user) as [resp | user'] eqn:Hrole.
    + exists resp. split; [reflexivity |]. right.
      exact (checkRole_answer_403 role user resp Hrole).
    + exfalso. apply (Hno user eq_refl).
      rewrite Hrole, (checkRole_next role user user' Hrole). reflexivity.
Qed.

(** X17: a request that [authMiddleware] does not let through, or whose
    verified claims do not hold the role of the route, never reaches the
    validation or the controller of a route with a role: it is answered
    once, with 401 or 403, no model call is made and the process is left
    exactly as it was.  This holds for the admin routes (create, update and
    delete a restaurant, list all reservations or those of a restaurant)
    and for the user routes (create, update and delete a reservation, list
    those of a user); the routes without a role (list the restaurants, read
    one restaurant, read one reservation) still answer a request that
    [authMiddleware] refuses with that refusal, the process left as it
    was. *)
Theorem routes_refuse_without_role (req : Request) (w : World) :
  ((forall user, authMiddleware w (authorization req) = Next user ->
                 checkRole ADMIN user <> Next user) ->
   forall route, In route admin_routes ->
     exists resp, route req w = (Ok [resp], w)
                  /\ (status resp = 401 \/ status resp = 403))
  /\ ((forall user, authMiddleware w (authorization req) = Next user ->
                    checkRole USER user <> Next user) ->
      forall route, In route user_routes ->
        exists resp, route req w = (Ok [resp], w)
                     /\ (status resp = 401 \/ status resp = 403))
  /\ (forall resp, authMiddleware w (authorization req) = Answer resp ->
      forall route, In route open_routes -> route req w = (Ok [resp], w)).
Proof.
  split; [| split].
  - intros Hno route Hin. unfold admin_routes in Hin. cbn in Hin.
    destruct Hin as [<- | [<- | [<- | [<- | [<- | []]]]]];
      apply guarded_refuses; exact Hno.
  - intros Hno route Hin. unfold user_routes in Hin. cbn in Hin.
    destruct Hin as [<- | [<- | [<- | [<- | []]]]];
      apply guarded_refuses; exact Hno.
  - intros resp Hauth route Hin. unfold open_routes in Hin. cbn in Hin.
    destruct Hin as [<- | [<- | [<- | []]]];
      unfold GET_restaurants, GET_restaurant, GET_reservation, guarded, bind, ask, ret;
      rewrite Hauth; reflexivity.
Qed.

Lemma ReservationController_delete_found (w : World) (id oid : string)
  (b : Reservation.doc) :
  store_failure w = None ->
  castObjectId (Js.Str id) = Some oid ->
  find (has_id oid) (reservations w) = Some b ->
  exists w' b',
    ReservationController_delete (Some id) w = (Ok [mkResponse 204 Js.Undefined], w')
    /\ find (has_id oid) (reservations w') = Some b'
    /\ Reservation.deletedAt b' = Some (now w).
Proof.
  intros H Hcast Hfind.
  destruct (ReservationService_delete_found w id oid b H Hcast Hfind)
    as (w' & b' & Hrun & Hrest).
  exists w', b'. split; [| exact Hrest].
  unfold ReservationController_delete. rewrite or_default_empty.
  unfold try_catch at 1. unfold bind at 1. rewrite Hrun. reflexivity.
Qed.

(** X18: [DELETE /api/reservations/:id] asks for the role "user" and for
    nothing else: a request whose verified claims hold that role, with an
    id that passes [isMongoId] and names a stored reservation, is answered
    204 and soft-deletes the reservation at the clock value, whoever the
    principal is and whichever user the reservation belongs to. *)
Theorem DELETE_reservation_any_user
  (req : Request) (w : World) (claims : Js.val) (id oid : string)
  (b : Reservation.doc) :
  authMiddleware w (authorization req) = Next claims ->
  checkRole USER claims = Next claims ->
  Js.get (params req) "id" = Js.Str id ->
  v_isMongoId (v_toString (Js.Str id)) = true ->
  store_failure w = None ->
  castObjectId (Js.Str id) = Some oid ->
  find (has_id oid) (reservations w) = Some b ->
  fst (DELETE_reservation req w) = Ok [mkResponse 204 Js.Undefined]
  /\ exists b',
       find (has_id oid) (reservations (snd (DELETE_reservation req w))) = Some b'
       /\ Reservation.deletedAt b' = Some (now w).
Proof.
  intros Hauth Hrole Hid Hmongo Hstore Hcast Hfind.
  destruct (ReservationController_delete_found w id oid b Hstore Hcast Hfind)
    as (w' & b' & Hrun & Hfound & Hdeleted).
  assert (Hroute : DELETE_reservation req w = ReservationController_delete (Some id) w).
  { unfold DELETE_reservation, guarded. unfold bind at 1. unfold ask.
    rewrite Hauth, Hrole.
    unfold validated, validate, reservationValidations_id, run_chains, run_chain,
      run_steps, param.
    cbn [field optional steps andb]. rewrite Hid, Hmongo. reflexivity. }
  rewrite Hroute, Hrun. split; [reflexivity |].
  exists b'. split; assumption.
Qed.

End Routes.

Lemma create_valid_is_update_valid_witness :
  snd (run_chains (L := Reference.libs) (restaurantValidations_update (L := Reference.libs))
         (new_restaurant "900789")) = []
  /\ snd (run_chains (L := Reference.libs)
            (reservationValidations_update (L := Reference.libs))
            (booking "65f000000000000000000001" "65f0000000000000000000a2")) = [].
Proof.
  destruct (create_valid_is_update_valid (L := Reference.libs) (new_restaurant "900789"))
    as (Hrestaurant & _).
  destruct (create_valid_is_update_valid (L := Reference.libs)
              (booking "65f000000000000000000001" "65f0000000000000000000a2"))
    as (_ & Hreservation & _).
  split; [apply Hrestaurant | apply Hreservation]; reflexivity.
Defined.

Lemma routes_refuse_without_role_witness :
  (exists resp,
     POST_restaurant (L := Reference.libs)
       (mkRequest None (Js.Obj []) (new_restaurant "900789")) sample
     = (Ok [resp], sample)
     /\ (status resp = 401 \/ status resp = 403))
  /\ (exists resp,
        DELETE_restaurant (L := Reference.libs) (X := Reference2.libs)
          (request_of "65f000000000000000000001" ["user"]
             (Js.Obj [("id", Js.Str "65f0000000000000000000a2")]) (Js.Obj []))
          sample
        = (Ok [resp], sample)
        /\ (status resp = 401 \/ status resp = 403)).
Proof.
  split.
  - destruct (routes_refuse_without_role (L := Reference.libs) (X := Reference2.libs)
                (mkRequest None (Js.Obj []) (new_restaurant "900789")) sample)
      as (Hadmin & _).
    exact (Hadmin ltac:(intros user H; discriminate H) _ (or_introl eq_refl)).
  - destruct (routes_refuse_without_role (L := Reference.libs) (X := Reference2.libs)
                (request_of "65f000000000000000000001" ["user"]
                   (Js.Obj [("id", Js.Str "65f0000000000000000000a2")]) (Js.Obj []))
                sample)
      as (Hadmin & _).
    assert (Hno : forall user,
               authMiddleware (L := Reference.libs) sample
                 (authorization
                    (request_of "65f000000000000000000001" ["user"]
                       (Js.Obj [("id", Js.Str "65f0000000000000000000a2")])
                       (Js.Obj [])))
               = Next user ->
               checkRole ADMIN user <> Next user).
    { intros user H. vm_compute in H. injection H as <-. discriminate. }
    exact (Hadmin Hno _ (or_intror (or_intror (or_introl eq_refl)))).
Defined.

Example DELETE_restaurant_user_role_403 :
  DELETE_restaurant (L := Reference.libs) (X := Reference2.libs)
    (request_of "65f000000000000000000001" ["user"]
       (Js.Obj [("id", Js.Str "65f0000000000000000000a2")]) (Js.Obj []))
    sample
  = (Ok [mkResponse 403 (message_body "Access denied.")], sample).
Proof. vm_compute. reflexivity. Qed.

Lemma DELETE_reservation_any_user_witness :
  Reservation.userId b2 = "65f000000000000000000001"
  /\ fst (DELETE_reservation (L := Reference.libs) (X := Reference2.libs)
            (request_of "65f0000000000000000000c3" ["user"]
               (Js.Obj [("id", Js.Str "65f0000000000000000000b2")]) (Js.Obj []))
            sample)
     = Ok [mkResponse 204 Js.Undefined].
Proof.
  split; [reflexivity |].
  apply (DELETE_reservation_any_user (L := Reference.libs) (X := Reference2.libs)
           (request_of "65f0000000000000000000c3" ["user"]
              (Js.Obj [("id", Js.Str "65f0000000000000000000b2")]) (Js.Obj []))
           sample
           (Js.Obj [("id", Js.Str "65f0000000000000000000c3");
                    ("roles", Js.Arr [Js.Str "user"]);
                    ("iat", Js.Num 0); ("exp", Js.Num 3600)])
           "65f0000000000000000000b2" "65f0000000000000000000b2" b2);
    vm_compute; reflexivity.
Defined.

(** ** Login after a soft delete *)

Lemma find_by_email (p : string -> bool) (l1 l2 : list User.doc) :
  map login_key l1 = map login_key l2 ->
  option_map login_key (find (fun d => p (User.email d)) l1)
  = option_map login_key (find (fun d => p (User.email d)) l2).
Proof.
  revert l2. induction l1 as [| x l1 IH]; intros [| y l2] H; try discriminate;
    [reflexivity |].
  cbn [map] in H.
  assert (Hkey : login_key x = login_key y) by congruence.
  assert (Hrest : map login_key l1 = map login_key l2) by congruence.
  clear H. cbn [find].
  assert (He : User.email x = User.email y)
    by (unfold login_key in Hkey; congruence).
  rewrite He. destruct (p (User.email y)); [cbn; f_equal; exact Hkey |].
  apply IH, Hrest.
Qed.

Section LoginAfterDelete.
Context `{L : Libs}.

Lemma AuthService_login_reads (body : Js.val) (w1 w2 : World) :
  map login_key (users w1) = map login_key (users w2) ->
  store_failure w1 = store_failure w2 ->
  JWT_SECRET w1 = JWT_SECRET w2 ->
  now w1 = now w2 ->
  fst (AuthService_login body w1) = fst (AuthService_login body w2).
Proof.
  intros Husers Hstore Hsecret Hnow.
  unfold AuthService_login, AuthService_generateToken, bcrypt_compare_, token_payload,
    select_password, read.
  run.
  destruct body; cbn -[pathFilterString]; try reflexivity;
    (match goal with
     | |- context [pathFilterString ?e] => destruct (pathFilterString e) as [p |]
     end; cbn; [| reflexivity]);
    rewrite <- Hstore;
    (destruct (store_failure w1); cbn; [reflexivity |]);
    pose proof (find_by_email p _ _ Husers) as Hfind;
    (destruct (find _ (users w1)) as [a |], (find _ (users w2)) as [a' |];
     try discriminate; cbn; [| reflexivity]);
    cbn in Hfind; unfold login_key in Hfind; injection Hfind as _ Hpw Hid Hroles;
    rewrite <- Hpw;
    (destruct (User.password a) as [hash |]; cbn; [| reflexivity]);
    (match goal with
     | |- context [bcrypt_compare ?x hash] =>
         destruct (bcrypt_compare x hash) as [[|] |]
     end; cbn; try reflexivity);
    rewrite Hid, Hroles, Hsecret, Hnow; reflexivity.
Qed.

Lemma UserService_delete_login_keys (id : string) (w : World) :
  map login_key (users (snd (UserService_delete id w))) = map login_key (users w)
  /\ store_failure (snd (UserService_delete id w)) = store_failure w
  /\ JWT_SECRET (snd (UserService_delete id w)) = JWT_SECRET w
  /\ now (snd (UserService_delete id w)) = now w.
Proof.
  run.
  destruct (castObjectId (Js.Str id)) as [oid |]; cbn; [| repeat split].
  destruct (store_failure w) eqn:Hstore; cbn; [repeat split; congruence |].
  destruct (find (has_id oid) (users w)) as [d |] eqn:Hfind; cbn;
    [| repeat split; congruence].
  repeat split; try congruence.
  apply (map_update_first login_key _ d _ _ Hfind). reflexivity.
Qed.

Lemma AuthController_login_by_service (body : Js.val) (w1 w2 : World) :
  fst (AuthService_login body w1) = fst (AuthService_login body w2) ->
  fst (AuthController_login body w1) = fst (AuthController_login body w2).
Proof.
  unfold AuthController_login, try_catch, bind, ret.
  destruct (AuthService_login body w1) as [[o1 | e1] w1'],
           (AuthService_login body w2) as [[o2 | e2] w2']; cbn;
    intros H; try discriminate; injection H as <-; [reflexivity |].
  destruct (instanceof_ReferenceError e1); reflexivity.
Qed.

(** X19: the soft delete of a user takes nothing from what a login reads:
    whatever the id, the body and the state of the store, a login after
    [UserService.delete(id)] has, at the same clock value, the outcome it
    had before (the same token for the same id and roles, or the same
    error), and [AuthController.login] gives the same answer.  A
    soft-deleted user logs in as before. *)
Theorem soft_delete_keeps_login (id : string) (body : Js.val) (w : World) :
  fst (AuthService_login body (snd (UserService_delete id w)))
  = fst (AuthService_login body w)
  /\ fst (AuthController_login body (snd (UserService_delete id w)))
     = fst (AuthController_login body w).
Proof.
  destruct (UserService_delete_login_keys id w) as (Hk & Hs & Hj & Hn).
  assert (H : fst (AuthService_login body (snd (UserService_delete id w)))
              = fst (AuthService_login body w))
    by (apply AuthService_login_reads; assumption).
  split; [exact H |].
  apply AuthController_login_by_service, H.
Qed.

End LoginAfterDelete.

Example login_after_delete_200 :
  fst (UserService_delete (L := Reference.libs) "65f000000000000000000001" sample)
  = Ok true
  /\ map status
       (match fst (AuthController_login (L := Reference.libs)
                     (Js.Obj [("email", Js.Str "alicia@acme.dev");
                              ("password", Js.Str "Secret123")])
                     (snd (UserService_delete (L := Reference.libs)
                             "65f000000000000000000001" sample))) with
        | Ok rs => rs
        | Throw _ => []
        end)
     = [200].
Proof. vm_compute. split; reflexivity. Qed.

(** ** Update of the references of a reservation *)

Section ReservationReferences.
Context `{L : Libs} `{X : MoreLibs}.





End ReservationReferences.


(** ** Validation of the id parameters *)

Section IdValidation.
Context `{L : Libs} `{X : MoreLibs}.

Lemma validated_id_refuses (name msg : string) (ps : Js.val) (handler : Js.val -> Handler)
  (w : World) :
  v_isMongoId (v_toString (Js.get ps name)) = false ->
  exists resp,
    validated [mkChain name false [Validator v_isMongoId msg]] ps handler w
    = (Ok [resp], w)
    /\ status resp = 400.
Proof.
  intros Hid. unfold validated, validate, run_chains, run_chain. cbn.
  rewrite Hid. cbn. eexists. split; reflexivity.
Qed.

(** X21: on every route that validates an id parameter, a request that
    passes [authMiddleware] and the [checkRole] of the route, and whose
    parameter fails [isMongoId], stops at the validation: it is answered
    once, with 400, the controller is not reached, no model call is made
    and the process is left exactly as it was. *)
Theorem malformed_id_stops_at_validation (req : Request) (w : World) (user : Js.val) :
  authMiddleware w (authorization req) = Next user ->
  forall role name route,
    In (role, name, route) id_routes ->
    (forall r, role = Some r -> checkRole r user = Next user) ->
    v_isMongoId (v_toString (Js.get (params req) name)) = false ->
    exists resp, route req w = (Ok [resp], w) /\ status resp = 400.
Proof.
  intros Hauth role name route Hin Hrole Hid.
  cbn in Hin.
  repeat (destruct Hin as [Hin | Hin];
          [injection Hin as <- <- <-;
           try (specialize (Hrole _ eq_refl));
           unfold GET_restaurant, PUT_restaurant, DELETE_restaurant,
             GET_reservations_of_user, GET_reservations_of_restaurant,
             GET_reservation, PUT_reservation, DELETE_reservation;
           unfold guarded, bind, ask; rewrite Hauth; try rewrite Hrole;
           apply validated_id_refuses; exact Hid |]).
  destruct Hin.
Qed.

End IdValidation.

Lemma malformed_id_stops_at_validation_witness :
  exists resp,
    DELETE_reservation (L := Reference.libs) (X := Reference2.libs)
      (request_of "65f000000000000000000001" ["user"]
         (Js.Obj [("id", Js.Str "42")]) (Js.Obj []))
      sample
    = (Ok [resp], sample)
    /\ status resp = 400.
Proof.
  apply (malformed_id_stops_at_validation (L := Reference.libs) (X := Reference2.libs)
           (request_of "65f000000000000000000001" ["user"]
              (Js.Obj [("id", Js.Str "42")]) (Js.Obj []))
           sample
           (Js.Obj [("id", Js.Str "65f000000000000000000001");
                    ("roles", Js.Arr [Js.Str "user"]);
                    ("iat", Js.Num 0); ("exp", Js.Num 3600)])
           eq_refl (Some USER) "id").
  - cbn. do 7 right. left. reflexivity.
  - intros r [= <-]. reflexivity.
  - reflexivity.
Defined.

(** ** What a created user is *)

Section UserCreated.
Context `{L : Libs} `{X : MoreLibs}.

Lemma requiredString_not_empty (v : Js.val) (s : string) :
  requiredString v = Some s -> s <> EmptyString.
Proof.
  unfold requiredString. intros H.
  assert (Hcast : exists s', castPathString v = Some s'
                             /\ (if (s' =? "")%string then None else Some s') = Some s).
  { destruct v; try discriminate;
      (destruct (castPathString _) as [s' |]; [| discriminate]);
      exists s'; split; try reflexivity; exact H. }
  destruct Hcast as (s' & _ & Hs).
  destruct (s' =? "")%string eqn:E; [discriminate |].
  injection Hs as <-. apply String.eqb_neq, E.
Qed.

Lemma user_castCreate_valid (nu : Js.val) (id : string) (t : Z) (stored : User.doc) :
  user_castCreate nu id t = Some stored ->
  forallb is_role (User.roles stored) = true
  /\ User.name stored <> EmptyString
  /\ User.email stored <> EmptyString
  /\ (Js.get nu "_id" = Js.Undefined -> User._id stored = id)
  /\ (Js.get nu "createdAt" = Js.Undefined -> User.createdAt stored = t)
  /\ (Js.get nu "createdAt" = Js.Undefined ->
      Js.get nu "updatedAt" = Js.Undefined -> User.updatedAt stored = t).
Proof.
  unfold user_castCreate.
  destruct (requiredString (Js.get nu "name")) as [n |] eqn:Hn; [| discriminate].
  destruct (requiredString (Js.get nu "email")) as [e |] eqn:He; [| discriminate].
  destruct (requiredString (Js.get nu "password")) as [p |]; [| discriminate].
  destruct (match Js.get nu "roles" with Js.Undefined => _ | _ => _ end) as [rs |];
    [| discriminate].
  destruct (match Js.get nu "deletedAt" with Js.Undefined => _ | _ => _ end);
    [| discriminate].
  destruct (forallb is_role rs) eqn:Hroles; [| discriminate].
  intros Hmade. apply stamped_made in Hmade.
  destruct Hmade as (id' & created & updated & -> & Hid & Hcreated & Hupdated).
  cbn. repeat split; try assumption.
  - exact (requiredString_not_empty _ _ Hn).
  - exact (requiredString_not_empty _ _ He).
  - intros Hc Hu. rewrite (Hupdated Hu). exact (Hcreated Hc).
Qed.

(** X22: the user [UserService.create] returns was checked against the
    schema: each of its roles is "admin" or "user", its name and its email
    are not empty, and it is the last record of the collection, password
    apart.  When the input, as copied through JSON, brings no [_id], the id
    of the user is the generated one; when it brings no [createdAt], the
    creation time is the clock value, and so is the update time when it
    brings no [updatedAt] either. *)
Theorem UserService_create_valid_document (input : Js.val) (w : World) (d : User.doc) :
  fst (UserService_create input w) = Ok d ->
  forallb is_role (User.roles d) = true
  /\ User.name d <> EmptyString
  /\ User.email d <> EmptyString
  /\ (Js.get (json_copy input) "_id" = Js.Undefined ->
      User._id d = newObjectId (generated w))
  /\ (Js.get (json_copy input) "createdAt" = Js.Undefined ->
      User.createdAt d = now w)
  /\ (Js.get (json_copy input) "createdAt" = Js.Undefined ->
      Js.get (json_copy input) "updatedAt" = Js.Undefined ->
      User.updatedAt d = now w)
  /\ exists stored,
       users (snd (UserService_create input w)) = (users w ++ [stored])%list
       /\ d = without_password stored.
Proof.
  unfold UserService_create. run.
  destruct (pathFilterString (Js.get input "email")) as [p |]; cbn; [| discriminate].
  destruct (store_failure w) eqn:Hstore; cbn; [discriminate |].
  destruct (find _ (users w)) as [found |]; cbn; [discriminate |].
  assert (Hdone :
            forall (nu : Js.val) (stored : User.doc),
              (forall k, (k =? "password")%string = false ->
                         Js.get nu k = Js.get (json_copy input) k) ->
              user_castCreate nu (newObjectId (generated w)) (now w) = Some stored ->
              forall l : list User.doc,
                l = (users w ++ [stored])%list ->
                forallb is_role (User.roles (without_password stored)) = true
                /\ User.name (without_password stored) <> EmptyString
                /\ User.email (without_password stored) <> EmptyString
                /\ (Js.get (json_copy input) "_id" = Js.Undefined ->
                    User._id (without_password stored) = newObjectId (generated w))
                /\ (Js.get (json_copy input) "createdAt" = Js.Undefined ->
                    User.createdAt (without_password stored) = now w)
                /\ (Js.get (json_copy input) "createdAt" = Js.Undefined ->
                    Js.get (json_copy input) "updatedAt" = Js.Undefined ->
                    User.updatedAt (without_password stored) = now w)
                /\ exists stored',
                     l = (users w ++ [stored'])%list
                     /\ without_password stored = without_password stored').
  { intros nu stored Hsame Hcast l ->.
    destruct (user_castCreate_valid _ _ _ _ Hcast) as (Hr & Hn & He & Hi & Hc & Hu).
    rewrite (Hsame "_id" eq_refl) in Hi. rewrite (Hsame "createdAt" eq_refl) in Hc, Hu.
    rewrite (Hsame "updatedAt" eq_refl) in Hu.
    cbn. split; [exact Hr |]. split; [exact Hn |]. split; [exact He |].
    split; [exact Hi |]. split; [exact Hc |]. split; [exact Hu |].
    exists stored. split; reflexivity. }
  destruct (Js.truthy (Js.get (json_copy input) "password")); cbn.
  - destruct (bcrypt_hash (Js.get (json_copy input) "password") 10) as [h |]; cbn;
      [| discriminate].
    cbn [castCreate userSchema].
    destruct (user_castCreate _ (newObjectId (generated w)) (now w)) as [stored |]
      eqn:Hcast; cbn; [| discriminate].
    destruct (existsb _ (users w)); cbn; [discriminate |].
    intros [= <-].
    apply (Hdone _ stored (fun k Hk => get_set _ _ _ _ Hk) Hcast). reflexivity.
  - cbn [castCreate userSchema].
    destruct (user_castCreate _ (newObjectId (generated w)) (now w)) as [stored |]
      eqn:Hcast; cbn; [| discriminate].
    destruct (existsb _ (users w)); cbn; [discriminate |].
    intros [= <-].
    apply (Hdone _ stored (fun k _ => eq_refl) Hcast). reflexivity.
Qed.

End UserCreated.

Lemma UserService_create_valid_document_witness :
  exists d,
    fst (UserService_create (L := Reference.libs) (X := Reference2.libs)
           (Js.Obj [("name", Js.Str "Berta"); ("email", Js.Str "berta@acme.dev");
                    ("password", Js.Str "Berta123")])
           sample) = Ok d
    /\ User.roles d = ["user"]
    /\ forallb is_role (User.roles d) = true
    /\ User._id d = "000000000000000000000000"
    /\ User.createdAt d = 1000.
Proof.
  eexists. split; [reflexivity |]. split; [reflexivity |].
  destruct (UserService_create_valid_document (L := Reference.libs)
              (X := Reference2.libs)
              (Js.Obj [("name", Js.Str "Berta"); ("email", Js.Str "berta@acme.dev");
                       ("password", Js.Str "Berta123")])
              sample _ eq_refl)
    as (Hroles & _ & _ & Hid & Hcreated & _).
  split; [exact Hroles |].
  split; [exact (Hid eq_refl) | exact (Hcreated eq_refl)].
Defined.

(** ** An id that names no record *)

Section UnknownId.
Context `{L : Libs} `{X : MoreLibs}.

(** X23: with the store reachable, a well-formed id that no stored
    restaurant (reservation) has is answered 404 with the message
    "Restaurant (Reservation) with id <id> not found" by [getOne] and by
    [update], whatever the body that casts, and for the reservation by
    [delete] too; the collection is left as it was. *)
Theorem unknown_id_answers_404 (id oid : string) (body : Js.val) (w : World) :
  store_failure w = None ->
  castObjectId (Js.Str id) = Some oid ->
  (find (has_id oid) (restaurants w) = None ->
   fst (RestaurantController_getOne (Some id) w) = Ok [not_found "Restaurant" id]
   /\ (restaurant_castUpdate body <> None ->
       fst (RestaurantController_update (Some id) body w)
       = Ok [not_found "Restaurant" id])
   /\ restaurants (snd (RestaurantController_update (Some id) body w)) = restaurants w)
  /\ (find (has_id oid) (reservations w) = None ->
      fst (ReservationController_getOne (Some id) w) = Ok [not_found "Reservation" id]
      /\ (reservation_castUpdate body <> None ->
          fst (ReservationController_update (Some id) body w)
          = Ok [not_found "Reservation" id])
      /\ fst (ReservationController_delete (Some id) w)
         = Ok [not_found "Reservation" id]
      /\ reservations (snd (ReservationController_update (Some id) body w))
         = reservations w
      /\ reservations (snd (ReservationController_delete (Some id) w))
         = reservations w).
Proof.
  intros Hstore Hid. split; intros Hfind.
  - unfold RestaurantController_getOne, RestaurantController_update,
      RestaurantService_update, server_error.
    rewrite or_default_empty. run. rewrite Hid. cbn.
    rewrite Hstore. cbn. rewrite Hfind. cbn.
    split; [reflexivity |].
    destruct (restaurant_castUpdate body) as [f |]; cbn.
    + rewrite ?Hstore. cbn. rewrite ?Hfind. cbn. split; reflexivity.
    + split; [congruence | reflexivity].
  - unfold ReservationController_getOne, ReservationController_update,
      ReservationController_delete, ReservationService_update, server_error.
    rewrite or_default_empty. run. rewrite Hid. cbn.
    rewrite Hstore. cbn. rewrite Hfind. cbn.
    split; [reflexivity |].
    destruct (reservation_castUpdate body) as [f |]; cbn.
    + rewrite ?Hstore. cbn. rewrite ?Hfind. cbn. repeat split; reflexivity.
    + repeat split; try reflexivity. congruence.
Qed.

End UnknownId.

Lemma unknown_id_answers_404_witness :
  fst (RestaurantController_getOne (L := Reference.libs)
         (Some "65f0000000000000000000ff") sample)
  = Ok [mkResponse 404
          (message_body "Restaurant with id 65f0000000000000000000ff not found")]
  /\ fst (ReservationController_delete (L := Reference.libs)
            (Some "65f0000000000000000000ff") sample)
     = Ok [mkResponse 404
             (message_body "Reservation with id 65f0000000000000000000ff not found")].
Proof.
  destruct (unknown_id_answers_404 (L := Reference.libs)
              "65f0000000000000000000ff" "65f0000000000000000000ff" (Js.Obj []) sample
              eq_refl eq_refl)
    as (Hrestaurant & Hreservation).
  destruct (Hrestaurant eq_refl) as (HgetOne & _).
  destruct (Hreservation eq_refl) as (_ & _ & Hdelete & _).
  split; [exact HgetOne | exact Hdelete].
Defined.
